(** * Bulk extraction route of runlytics-api

    A shallow embedding of [src/routes/scripting.js] (the handler of
    [POST /strava/activities/extract-all] and [getBearerToken]) and of the
    error middleware of [src/index.js], taken as the middleware that
    receives what the handler passes to [next].

    Conventions of the model.
    - A JavaScript string is a [string]: a sequence of code units below 256.
    - A JavaScript number is a [jsnum]: [NaN], the two infinities, or a finite
      double, given by its exact value as a fraction in lowest terms.  The
      numeral of a JSON text, a string that is converted and the exact result
      of an arithmetic operation are rounded to the nearest double, ties to
      even ([toDouble]).  The two zeros are not told apart.
    - Times are integer milliseconds ([Z]), as [Date.now()] returns them, and
      [fetchedPages] is an integer; both stay below 2^53, where the
      arithmetic on them is exact.
    - The handler talks to an environment (clock, upstream API, file system).
      The environment's answers are supplied as a script with one entry per
      loop iteration; everything the handler does to the environment is
      recorded, in order, in a trace of events. *)

From Stdlib Require Import ZArith QArith Qround Qpower List String Ascii Bool Lia.
From Stdlib Require DecimalString DecimalN DecimalZ DecimalPos Qcanon.
Import ListNotations.

Local Open Scope string_scope.
Local Open Scope Z_scope.

(** ** Strings *)

(** [\s] of a regular expression and the characters [trim] removes. *)
Definition isSpace (c : ascii) : bool :=
  let n := nat_of_ascii c in
  ((9 <=? n) && (n <=? 13) || (n =? 32) || (n =? 160))%nat.

Fixpoint trimStart (s : string) : string :=
  match s with
  | EmptyString => EmptyString
  | String c r => if isSpace c then trimStart r else s
  end.

Fixpoint trimEnd (s : string) : string :=
  match s with
  | EmptyString => EmptyString
  | String c r =>
      match trimEnd r with
      | EmptyString => if isSpace c then EmptyString else String c EmptyString
      | r' => String c r'
      end
  end.

(** [s.trim()] *)
Definition trim (s : string) : string := trimEnd (trimStart s).

(** ASCII case folding, as the [i] flag of a regular expression does for the
    letters of [Bearer]. *)
Definition lower (c : ascii) : ascii :=
  let n := nat_of_ascii c in
  if ((65 <=? n) && (n <=? 90))%nat then ascii_of_nat (n + 32) else c.

(** [rest] when [s] starts with [p] up to case, [p] given in lower case. *)
Fixpoint dropPrefixCI (p s : string) : option string :=
  match p with
  | EmptyString => Some s
  | String a p' =>
      match s with
      | EmptyString => None
      | String c r => if Ascii.eqb (lower c) a then dropPrefixCI p' r else None
      end
  end.

(** The match of [/^Bearer\s+/i] against [header]: [Some rest] with the
    matched prefix (the word and all the white space after it) removed, as
    [header.replace(/^Bearer\s+/i, "")] returns it; [None] when the
    expression does not match. *)
Definition matchBearer (header : string) : option string :=
  match dropPrefixCI "bearer" header with
  | Some (String c r) => if isSpace c then Some (trimStart r) else None
  | _ => None
  end.

(** [x || ""] for an optional string. *)
Definition orEmpty (x : option string) : string :=
  match x with Some s => s | None => EmptyString end.

(** ** Numbers *)

Inductive jsnum : Type :=
| NaN
| PInf
| NInf
| Fin (q : Q).

Definition Qlt_bool (x y : Q) : bool := negb (Qle_bool y x).

(** [2^e] *)
Definition pow2 (e : Z) : Q := (2 ^ e)%Q.

(** The integer part of the binary logarithm of a positive [x]: the
    difference of the logarithms of numerator and denominator, or one
    less. *)
Definition ilog2 (x : Q) : Z :=
  let k := Z.log2 (Qnum x) - Z.log2 (Zpos (Qden x)) in
  if Qle_bool (pow2 k) x then k else k - 1.

(** The integer nearest to [y], the even one of two that are as near. *)
Definition roundHalfEven (y : Q) : Z :=
  let f := Qfloor y in
  match (y - inject_Z f ?= 1 # 2)%Q with
  | Lt => f
  | Gt => f + 1
  | Eq => if Z.even f then f else f + 1
  end.

(** The exponent of the unit in the last place of the doubles around a
    positive [x]: a double has 53 significant bits and no exponent below
    -1074. *)
Definition ulpExponent (x : Q) : Z := Z.max (ilog2 x - 52) (-1074).

(** A positive [x] rounded to a multiple of its unit in the last place. *)
Definition nearest (x : Q) : Q :=
  let e := ulpExponent x in
  (inject_Z (roundHalfEven (x / pow2 e)) * pow2 e)%Q.

(** The double for a positive [x]: infinite from 2^1024 on. *)
Definition roundPositive (x : Q) : jsnum :=
  let v := nearest x in
  if Qle_bool (pow2 1024) v then PInf else Fin (Qred v).

(** The Number value for [x]: the double nearest to [x], ties to even. *)
Definition toDouble (x : Q) : jsnum :=
  let x := Qred x in
  match (x ?= 0)%Q with
  | Eq => Fin 0
  | Gt => roundPositive x
  | Lt =>
      match roundPositive (- x) with
      | Fin q => Fin (Qred (- q))
      | PInf => NInf
      | n => n
      end
  end.

(** -1, 0 or 1. *)
Definition sign (n : jsnum) : Z :=
  match n with
  | NaN => 0
  | PInf => 1
  | NInf => -1
  | Fin q => Z.sgn (Qnum q)
  end.

(** [a + b] *)
Definition jsAdd (a b : jsnum) : jsnum :=
  match a, b with
  | NaN, _ | _, NaN => NaN
  | PInf, NInf | NInf, PInf => NaN
  | PInf, _ | _, PInf => PInf
  | NInf, _ | _, NInf => NInf
  | Fin x, Fin y => toDouble (x + y)
  end.

(** [a * b] *)
Definition jsMul (a b : jsnum) : jsnum :=
  match a, b with
  | NaN, _ | _, NaN => NaN
  | Fin x, Fin y => toDouble (x * y)
  | _, _ =>
      match sign a * sign b with
      | Z0 => NaN
      | Zpos _ => PInf
      | Zneg _ => NInf
      end
  end.

(** [!Number.isFinite(n) || bad(n)]: [None] when the test rejects [n],
    the finite value otherwise. *)
Definition checked (n : jsnum) (bad : Q -> bool) : option Q :=
  match n with
  | Fin q => if bad q then None else Some q
  | _ => None
  end.

(** Truthiness of a finite number. *)
Definition truthy (q : Q) : bool := negb (Qeq_bool q 0).

(** ** JSON values *)

(** A JSON value, as [JSON.parse] gives it: a number by the exact value of
    its numeral, an object by its members in the order of the text. *)
Unset Elimination Schemes.
Inductive json : Type :=
| JNull
| JBool (b : bool)
| JNumber (n : Q)
| JString (s : string)
| JArray (items : list json)
| JObject (fields : list (string * json)).
Set Elimination Schemes.

(** A thrown value. *)
Inductive exn : Type := Thrown (message : string).

(** ** Strings as numbers *)

(** The value of [c] as a digit in [radix], for a radix up to 16. *)
Definition digitOf (radix : Z) (c : ascii) : option Z :=
  let n := Z.of_nat (nat_of_ascii c) in
  let d := if (48 <=? n) && (n <=? 57) then n - 48
           else if (97 <=? n) && (n <=? 102) then n - 87
           else if (65 <=? n) && (n <=? 70) then n - 55
           else 16 in
  if d <? radix then Some d else None.

(** The digits at the head of [s]: their value after digits of value [acc],
    [count] plus their number, and the rest of [s]. *)
Fixpoint readDigits (radix acc count : Z) (s : string) : Z * Z * string :=
  match s with
  | EmptyString => (acc, count, s)
  | String c r =>
      match digitOf radix c with
      | Some d => readDigits radix (radix * acc + d) (count + 1) r
      | None => (acc, count, s)
      end
  end.

(** A sign at the head of [s]: whether it is [-], and the rest. *)
Definition readSign (s : string) : bool * string :=
  match s with
  | EmptyString => (false, s)
  | String c r =>
      if Ascii.eqb c "-" then (true, r)
      else if Ascii.eqb c "+" then (false, r)
      else (false, s)
  end.

(** The exact value of an unsigned decimal literal: digits, with an optional
    fraction and an optional exponent, at least one digit before the
    exponent.  [None] when [s] is no such literal. *)
Definition decimalLiteral (s : string) : option Q :=
  let '(i, ni, r1) := readDigits 10 0 0 s in
  let '(f, nf, r2) :=
    match r1 with
    | EmptyString => (i, 0, r1)
    | String c r => if Ascii.eqb c "." then readDigits 10 i 0 r else (i, 0, r1)
    end in
  if ni + nf =? 0 then None
  else
    match r2 with
    | EmptyString => Some (inject_Z f * 10 ^ (- nf))%Q
    | String c r3 =>
        if Ascii.eqb c "e" || Ascii.eqb c "E" then
          let (neg, r4) := readSign r3 in
          let '(x, nx, r5) := readDigits 10 0 0 r4 in
          if (nx =? 0) || negb (r5 =? "")%string then None
          else Some (inject_Z f * 10 ^ ((if neg then - x else x) - nf))%Q
        else None
    end.

(** The digits of a literal after its [0x], [0o] or [0b]. *)
Definition radixLiteral (radix : Z) (s : string) : jsnum :=
  let '(v, n, r) := readDigits radix 0 0 s in
  if (n =? 0) || negb (r =? "")%string then NaN else toDouble (inject_Z v).

(** A decimal literal with an optional sign, or a signed [Infinity]. *)
Definition signedLiteral (s : string) : jsnum :=
  let (neg, r) := readSign s in
  if (r =? "Infinity")%string then (if neg then NInf else PInf)
  else
    match decimalLiteral r with
    | Some q => toDouble (if neg then - q else q)
    | None => NaN
    end.

(** [Number(s)] for a string: white space around the literal is dropped,
    the empty string is 0, what is not a numeric literal is [NaN]. *)
Definition stringToNumber (s : string) : jsnum :=
  match trim s with
  | EmptyString => Fin 0
  | String c EmptyString => signedLiteral (String c EmptyString)
  | String c (String x r) =>
      if Ascii.eqb c "0" && (Ascii.eqb x "x" || Ascii.eqb x "X") then radixLiteral 16 r
      else if Ascii.eqb c "0" && (Ascii.eqb x "o" || Ascii.eqb x "O") then radixLiteral 8 r
      else if Ascii.eqb c "0" && (Ascii.eqb x "b" || Ascii.eqb x "B") then radixLiteral 2 r
      else signedLiteral (String c (String x r))
  end.

(** ** Conversions of JSON values *)

Definition hasKey (k : string) (fields : list (string * json)) : bool :=
  existsb (fun kv => (fst kv =? k)%string) fields.

(** Whether converting [v] to a string throws.  An object of a JSON text has
    no method of its own: its [toString] and [valueOf] are those of
    [Object.prototype], unless a member of that name hides them with a value
    that cannot be called.  With [toString] hidden neither method gives a
    primitive value, and the conversion throws; it also throws for an array
    with an element for which it throws. *)
Fixpoint throwsToString (v : json) : bool :=
  match v with
  | JObject fields => hasKey "toString" fields
  | JArray items => existsb throwsToString items
  | _ => false
  end.

(** The [TypeError] of such a conversion. *)
Definition cannotConvert : exn :=
  Thrown "Cannot convert object to primitive value".

(** [Number(v)] when the conversion does not throw.  An array is converted
    through its string: the empty string for no element, the string of its
    element for one (a number that is written out and read again is the
    same number), and a string with a comma, which is no numeric literal,
    for more. *)
Fixpoint jsNumber (v : json) : jsnum :=
  match v with
  | JNull => Fin 0
  | JBool b => Fin (if b then 1 else 0)
  | JNumber q => toDouble q
  | JString s => stringToNumber s
  | JArray [] => Fin 0
  | JArray [x] =>
      match x with
      | JNull => Fin 0
      | JBool _ | JObject _ => NaN
      | _ => jsNumber x
      end
  | JArray _ => NaN
  | JObject _ => NaN
  end.

(** [Number(v)] *)
Definition toNumber (v : json) : exn + jsnum :=
  if throwsToString v then inl cannotConvert else inr (jsNumber v).

(** [Number(field ?? dflt)]: [None] is [undefined]. *)
Definition numberOr (field : option json) (dflt : Q) : exn + jsnum :=
  match field with
  | None | Some JNull => inr (Fin dflt)
  | Some v => toNumber v
  end.

(** [items.join(sep)] for strings. *)
Fixpoint joinStrings (sep : string) (items : list string) : string :=
  match items with
  | [] => ""
  | [x] => x
  | x :: rest => x ++ sep ++ joinStrings sep rest
  end.

Section Conversions.

(** Number-to-string conversion, as [String(n)] and a template literal
    ([`${page}`]) do it. *)
Variable NumberToString : jsnum -> string.

(** [String(v)] when the conversion does not throw. *)
Fixpoint jsString (v : json) : string :=
  match v with
  | JNull => "null"
  | JBool b => if b then "true" else "false"
  | JNumber q => NumberToString (toDouble q)
  | JString s => s
  | JArray items =>
      joinStrings ","
        (map (fun x => match x with JNull => "" | _ => jsString x end) items)
  | JObject _ => "[object Object]"
  end.

(** [String(v)] *)
Definition toString (v : json) : exn + string :=
  if throwsToString v then inl cannotConvert else inr (jsString v).

(** [String(field ?? "")] *)
Definition stringOr (field : option json) : exn + string :=
  match field with
  | None | Some JNull => inr ""
  | Some v => toString v
  end.

End Conversions.

(** ** The request *)

(** What the handler reads of the request.  [authorization] is
    [req.get("authorization")].  A body field is the value of that property
    of [req.body], [None] when [req.body] or the property is undefined. *)
Record request : Type := mkRequest {
  authorization : option string;
  body_name : option json;
  body_rpm : option json;
  body_per_page : option json;
  body_start_page : option json;
  body_max_pages : option json
}.

(** [getBearerToken(req)], with [envToken] the value of
    [process.env.STRAVA_ACCESS_TOKEN]. *)
Definition getBearerToken (envToken : option string) (req : request) : string :=
  match authorization req with
  | Some header =>
      match matchBearer header with
      | Some rest => trim rest
      | None => trim (orEmpty envToken)
      end
  | None => trim (orEmpty envToken)
  end.

(** ** Paths *)

(** An absolute POSIX path, as the list of its segments. *)
Definition path : Type := list string.

(** The segments of [s] between its [/] characters. *)
Fixpoint splitSlash (s : string) : list string :=
  match s with
  | EmptyString => [EmptyString]
  | String c r =>
      match splitSlash r with
      | [] => [String c EmptyString]
      | seg :: segs =>
          if Ascii.eqb c "/" then EmptyString :: seg :: segs
          else String c seg :: segs
      end
  end.

(** Path normalisation: empty and [.] segments are dropped, [..] removes the
    segment before it.  [stack] holds the segments kept so far, last first. *)
Fixpoint normalize (stack : list string) (segs : list string) : path :=
  match segs with
  | [] => rev stack
  | seg :: rest =>
      if (seg =? "")%string || (seg =? ".")%string then normalize stack rest
      else if (seg =? "..")%string then normalize (tl stack) rest
      else normalize (seg :: stack) rest
  end.

(** [path.join(dir, file)] for a normalised absolute [dir]. *)
Definition pathJoin (dir : path) (file : string) : path :=
  normalize (rev dir) (splitSlash file).

(** [path.resolve(process.cwd(), "data-scripting", "strava")] *)
Definition baseDirOf (cwd : path) : path :=
  (cwd ++ ["data-scripting"; "strava"])%list.

(** ** The environment *)

(** How an awaited promise settles. *)
Inductive settled (A : Type) : Type :=
| Resolved (a : A)
| Rejected (e : exn).
Arguments Resolved {A} a.
Arguments Rejected {A} e.

(** What the handler reads of an axios response. *)
Record response : Type := mkResponse {
  status : Z;
  retry_after : option string;   (* response.headers?.["retry-after"] *)
  data : json
}.

(** The environment's part in one loop iteration: how late the pacer's timer
    fires, how [axios.get] settles and after how long, how late the backoff
    timer fires, how [fs.writeFile] of the page settles and after how long.
    An iteration uses the fields of the awaits it reaches. *)
Record tick : Type := mkTick {
  pacer_lag : N;
  fetched : settled response;
  fetch_ms : N;
  backoff_lag : N;
  written : settled unit;
  write_ms : N
}.

(** The environment's part outside the loop. *)
Record environment : Type := mkEnv {
  cwd : path;                               (* process.cwd() *)
  STRAVA_ACCESS_TOKEN : option string;      (* process.env.STRAVA_ACCESS_TOKEN *)
  arrival : Z;                              (* the clock when the handler starts *)
  mkdir_settles : settled unit;             (* fs.mkdir(baseDir, {recursive}) *)
  mkdir_ms : N;
  meta_written : settled unit               (* fs.writeFile of meta.json *)
}.

(** ** What the handler produces *)

Record meta : Type := mkMeta {
  meta_name : option string;
  per_page : Q;
  start_page : Q;
  fetched_pages : Z;
  generated_at : Z
}.

(** What a written file holds: [JSON.stringify] of the records of a page or
    of the manifest. *)
Inductive content : Type :=
| Records (items : list json)
| Manifest (m : meta).

Inductive event : Type :=
| Mkdir (dir : path)
| Sleep (ms : jsnum)                                   (* sleep(ms) *)
| Get (sentAt : Z) (bearer : string) (page : jsnum) (perPage : Q)
                                                       (* axios.get, sent at [sentAt] *)
| WriteFile (file : path) (c : content) (ok : bool).   (* fs.writeFile and whether it resolved *)

Inductive body : Type :=
| ErrorBody (error : string) (details : option json)
| OkBody (output_dir : path) (m : meta).

(** How the handler ends: [res.status(status).json(body)] or [next(err)]. *)
Inductive reply : Type :=
| Json (code : Z) (b : body)
| Next (e : exn).

(** The handler's variables and the world it acts on. *)
Record state : Type := mkState {
  page : jsnum;
  fetchedPages : Z;
  lastRequestAt : Z;
  clock : Z;
  trace : list event
}.

Definition log (e : event) (s : state) : state :=
  mkState (page s) (fetchedPages s) (lastRequestAt s) (clock s) (trace s ++ [e])%list.

Definition advance (ms : Z) (s : state) : state :=
  mkState (page s) (fetchedPages s) (lastRequestAt s) (clock s + ms) (trace s).

(** The delay of [setTimeout(f, ms)] in milliseconds: Node uses 1 unless
    [ms] is a number from 1 to 2^31 - 1.  The delays of this handler are
    whole numbers. *)
Definition timerDelay (ms : jsnum) : Z :=
  match ms with
  | Fin q => if Qlt_bool q 1 || Qlt_bool 2147483647 q then 1 else Qceiling q
  | _ => 1
  end.

(** [await sleep(ms)], the timer firing [lag] late. *)
Definition sleep (ms : jsnum) (lag : N) (s : state) : state :=
  advance (timerDelay ms + Z.of_N lag) (log (Sleep ms) s).

(** ** Backoff *)

Definition isDigit (c : ascii) : bool :=
  let n := nat_of_ascii c in ((48 <=? n) && (n <=? 57))%nat.

Fixpoint allDigits (s : string) : bool :=
  match s with
  | EmptyString => true
  | String c r => isDigit c && allDigits r
  end.

(** [String(s).match(/^\d+$/)] *)
Definition isDigits (s : string) : bool :=
  match s with EmptyString => false | _ => allDigits s end.

(** [Number(s)] for a string of digits, [acc] the value of the digits read. *)
Fixpoint digitsValue (acc : Z) (s : string) : Z :=
  match s with
  | EmptyString => acc
  | String c r => digitsValue (10 * acc + (Z.of_nat (nat_of_ascii c) - 48)) r
  end.

(** [retryAfter && String(retryAfter).match(/^\d+$/) ? Number(retryAfter) * 1000 : 10_000],
    [Number(retryAfter)] being the double nearest to the value of the
    digits. *)
Definition retryMs (retryAfter : option string) : jsnum :=
  match retryAfter with
  | Some s =>
      if isDigits s
      then jsMul (toDouble (inject_Z (digitsValue 0 s))) (Fin 1000)
      else Fin 10000
  | None => Fin 10000
  end.

(** ** Pacing *)

(** [Math.ceil((60_000 / rpm) * 1.0)] for a finite [rpm] other than zero:
    the quotient and the product are doubles, and the least integer not
    below a finite double is exact.  The handler computes it for a double
    [rpm >= 1], where the product is finite ([minIntervalMs_product]); the
    last case does not arise there. *)
Definition minIntervalMs (rpm : Q) : Z :=
  match jsMul (toDouble (60000 / rpm)) (Fin 1) with
  | Fin product => Qceiling product
  | _ => 0
  end.

(** [lastRequestAt ? Math.max(0, lastRequestAt + minIntervalMs - now) : 0] *)
Definition waitMs (lastRequestAt minInterval now : Z) : Z :=
  if lastRequestAt =? 0 then 0 else Z.max 0 (lastRequestAt + minInterval - now).

(** ** The handler *)

(** The request's values once validated. *)
Record params : Type := mkParams {
  token : string;
  rpm : Q;
  perPage : Q;
  startPage : Q;
  maxPages : Q;
  name : string
}.

(** How one iteration of the loop ends: with [continue] or at the end of the
    body, with [break], with [return res...json(...)], or with an
    exception. *)
Inductive flow : Type :=
| Continue (s : state)
| Broke (s : state)
| Returned (s : state) (r : reply)
| Threw (s : state) (e : exn).

(** How the loop leaves off on a script: still running (the script ends
    while the loop awaits the environment), or left as an iteration ended. *)
Inductive loopExit : Type :=
| Running (s : state)
| Break (s : state)
| Return (s : state) (r : reply)
| Throw (s : state) (e : exn).

(** How a run of the handler stands on a script. *)
Inductive run : Type :=
| Pending (s : state)
| Done (s : state) (r : reply).

(** [Array.isArray(response.data)] and, for an array, its elements. *)
Definition asArray (d : json) : option (list json) :=
  match d with JArray items => Some items | _ => None end.

(** [maxPages && fetchedPages >= maxPages] *)
Definition reachedMax (p : params) (s : state) : bool :=
  truthy (maxPages p) && Qle_bool (maxPages p) (inject_Z (fetchedPages s)).

(** The head of an iteration: the pacer's wait, [lastRequestAt = Date.now()]
    and the request, up to the moment [axios.get] settles. *)
Definition send (p : params) (minInterval : Z) (tk : tick) (s : state) : state :=
  let now := clock s in
  let w := waitMs (lastRequestAt s) minInterval now in
  let s := if w =? 0 then s else sleep (Fin (inject_Z w)) (pacer_lag tk) s in
  let s := mkState (page s) (fetchedPages s) (clock s) (clock s) (trace s) in
  let s := log (Get (lastRequestAt s) (token p) (page s) (perPage p)) s in
  advance (Z.of_N (fetch_ms tk)) s.

Section Route.

(** Number-to-string conversion, as [String(n)] and a template literal
    ([`${page}`]) do it. *)
Variable NumberToString : jsnum -> string.

(** [name ? `${name}_page_${page}.json` : `page_${page}.json`] *)
Definition filename (name : string) (page : jsnum) : string :=
  if (name =? "")%string
  then "page_" ++ NumberToString page ++ ".json"
  else name ++ "_page_" ++ NumberToString page ++ ".json".

Definition outPath (baseDir : path) (name : string) (page : jsnum) : path :=
  pathJoin baseDir (filename name page).

(** One iteration of the [while (true)] loop, after its [maxPages] guard. *)
Definition iteration (baseDir : path) (p : params) (minInterval : Z)
           (s : state) (tk : tick) : flow :=
  let s := send p minInterval tk s in
  match fetched tk with
  | Rejected e => Threw s e
  | Resolved r =>
      if status r =? 401 then
        Returned s (Json 401
          (ErrorBody "401 Unauthorized (bad STRAVA_ACCESS_TOKEN)" None))
      else if status r =? 429 then
        Continue (sleep (retryMs (retry_after r)) (backoff_lag tk) s)
      else if (status r <? 200) || (300 <=? status r) then
        Returned s (Json 502
          (ErrorBody
             ("Strava API error (HTTP "
                ++ NumberToString (Fin (inject_Z (status r))) ++ ")")
             (Some (data r))))
      else
        match asArray (data r) with
        | None =>
            Returned s (Json 502
              (ErrorBody "Unexpected Strava response (expected JSON array)"
                         (Some (data r))))
        | Some [] => Broke s
        | Some items =>
            let file := outPath baseDir (name p) (page s) in
            match written tk with
            | Rejected e =>
                Threw (advance (Z.of_N (write_ms tk))
                         (log (WriteFile file (Records items) false) s)) e
            | Resolved _ =>
                let s := advance (Z.of_N (write_ms tk))
                           (log (WriteFile file (Records items) true) s) in
                Continue (mkState (jsAdd (page s) (Fin 1)) (fetchedPages s + 1)
                            (lastRequestAt s) (clock s) (trace s))
            end
        end
  end.

(** The [while (true)] loop of the handler, from the state [s], on the
    environment's answers [script]. *)
Fixpoint loop (baseDir : path) (p : params) (minInterval : Z)
         (s : state) (script : list tick) : loopExit :=
  if reachedMax p s then Break s
  else
    match script with
    | [] => Running s
    | tk :: rest =>
        match iteration baseDir p minInterval s tk with
        | Continue s' => loop baseDir p minInterval s' rest
        | Broke s' => Break s'
        | Returned s' r => Return s' r
        | Threw s' e => Throw s' e
        end
    end.

(** The handler after the loop was left by [break]: the manifest. *)
Definition writeMeta (e : environment) (baseDir : path) (p : params)
           (s : state) : run :=
  let m := mkMeta (if (name p =? "")%string then None else Some (name p))
                  (perPage p) (startPage p) (fetchedPages s) (clock s) in
  let file := pathJoin baseDir "meta.json" in
  match meta_written e with
  | Rejected err => Done (log (WriteFile file (Manifest m) false) s) (Next err)
  | Resolved _ =>
      Done (log (WriteFile file (Manifest m) true) s) (Json 200 (OkBody baseDir m))
  end.

(** The handler from the loop on, resumed in the state [s]: the [catch]
    block turns an exception into [next(err)]. *)
Definition resume (e : environment) (p : params) (s : state)
           (script : list tick) : run :=
  let baseDir := baseDirOf (cwd e) in
  match loop baseDir p (minIntervalMs (rpm p)) s script with
  | Running s' => Pending s'
  | Break s' => writeMeta e baseDir p s'
  | Return s' r => Done s' r
  | Throw s' err => Done s' (Next err)
  end.

Definition bad (msg : string) : reply := Json 400 (ErrorBody msg None).

(** The handler up to the last check of the request, in its order: the
    token, the conversions of the body's fields, the checks of the numbers.
    The result is how the handler ends there (the reply of the first check
    that fails, or [next(err)] from the [catch] block for a conversion that
    throws), or the validated values. *)
Definition validate (e : environment) (req : request) : reply + params :=
  let token := getBearerToken (STRAVA_ACCESS_TOKEN e) req in
  if (token =? "")%string then
    inl (bad "Missing Strava token. Set STRAVA_ACCESS_TOKEN in .env or send Authorization: Bearer <token>.")
  else
    match numberOr (body_rpm req) 15 with
    | inl err => inl (Next err)
    | inr rpm =>
    match numberOr (body_per_page req) 200 with
    | inl err => inl (Next err)
    | inr perPage =>
    match numberOr (body_start_page req) 1 with
    | inl err => inl (Next err)
    | inr startPage =>
    match numberOr (body_max_pages req) 0 with
    | inl err => inl (Next err)
    | inr maxPages =>
    match stringOr NumberToString (body_name req) with
    | inl err => inl (Next err)
    | inr text =>
    let name := trim text in
    match checked rpm (fun q => Qlt_bool q 1) with
    | None => inl (bad "`rpm` must be >= 1")
    | Some rpm =>
    match checked perPage (fun q => Qlt_bool q 1 || Qlt_bool 200 q) with
    | None => inl (bad "`per_page` must be 1..200")
    | Some perPage =>
    match checked startPage (fun q => Qlt_bool q 1) with
    | None => inl (bad "`start_page` must be >= 1")
    | Some startPage =>
    match checked maxPages (fun q => Qlt_bool q 0) with
    | None => inl (bad "`max_pages` must be >= 0")
    | Some maxPages =>
        inr (mkParams token rpm perPage startPage maxPages name)
    end end end end
    end end end end end.

(** The handler's state when the request arrives. *)
Definition initial (e : environment) : state :=
  mkState (Fin 0) 0 0 (arrival e) [].

(** The state in which the loop is entered: the directory made,
    [page = startPage], [fetchedPages = 0], [lastRequestAt = 0]. *)
Definition entered (e : environment) (p : params) : state :=
  let s := advance (Z.of_N (mkdir_ms e))
             (log (Mkdir (baseDirOf (cwd e))) (initial e)) in
  mkState (Fin (startPage p)) 0 0 (clock s) (trace s).

(** The handler of [POST /strava/activities/extract-all]. *)
Definition extractAll (e : environment) (req : request)
           (script : list tick) : run :=
  match validate e req with
  | inl r => Done (initial e) r
  | inr p =>
      match mkdir_settles e with
      | Rejected err => Done (entered e p) (Next err)
      | Resolved _ => resume e p (entered e p) script
      end
  end.

End Route.

(** ** The error middleware of [index.js] *)

(** [if (res.headersSent) return next(err);
     res.status(500).json({ error: "Internal server error" })] *)
Definition errorMiddleware (headersSent : bool) (err : exn) : reply :=
  if headersSent then Next err
  else Json 500 (ErrorBody "Internal server error" None).

(** What the caller receives for a reply of the handler.  The handler calls
    [next(err)] only before it has sent anything. *)
Definition served (r : reply) : reply :=
  match r with
  | Next err => errorMiddleware false err
  | _ => r
  end.

(** ** Reading a trace *)

(** The files of the page writes that resolved, in order. *)
Definition pageFiles (tr : list event) : list path :=
  flat_map (fun ev => match ev with
                      | WriteFile f (Records _) true => [f]
                      | _ => []
                      end) tr.

(** The manifest writes that were issued, resolved or not. *)
Definition manifestWrites (tr : list event) : list event :=
  flat_map (fun ev => match ev with
                      | WriteFile _ (Manifest _) _ => [ev]
                      | _ => []
                      end) tr.

(** All writes that were issued. *)
Definition fileWrites (tr : list event) : list event :=
  flat_map (fun ev => match ev with
                      | WriteFile _ _ _ => [ev]
                      | _ => []
                      end) tr.

(** The send times of the requests, in order. *)
Definition sendTimes (tr : list event) : list Z :=
  flat_map (fun ev => match ev with Get t _ _ _ => [t] | _ => [] end) tr.

(** The page numbers of the requests, in order. *)
Definition requestedPages (tr : list event) : list jsnum :=
  flat_map (fun ev => match ev with Get _ _ pg _ => [pg] | _ => [] end) tr.

Definition path_eqb (f g : path) : bool :=
  if list_eq_dec string_dec f g then true else false.

(** The disk after a trace, from the disk [d]: a write that resolved
    replaces the file's content. *)
Fixpoint replay (d : path -> option content) (tr : list event)
  : path -> option content :=
  match tr with
  | [] => d
  | WriteFile f c true :: rest =>
      replay (fun g => if path_eqb g f then Some c else d g) rest
  | _ :: rest => replay d rest
  end.

(** The page number after [k] increments of [page += 1]. *)
Definition nthPage (start : Q) (k : nat) : jsnum :=
  Nat.iter k (fun pg => jsAdd pg (Fin 1)) (Fin start).

(** Consecutive times are at least [m] apart. *)
Fixpoint spaced (m : Z) (l : list Z) : Prop :=
  match l with
  | a :: ((b :: _) as rest) => a + m <= b /\ spaced m rest
  | _ => True
  end.

Definition runState (r : run) : state :=
  match r with Pending s => s | Done s _ => s end.

(** The handler's reply, once the run is over. *)
Definition runReply (r : run) : option reply :=
  match r with Pending _ => None | Done _ rep => Some rep end.

Definition flowState (f : flow) : state :=
  match f with
  | Continue s | Broke s | Returned s _ | Threw s _ => s
  end.

Definition exitState (x : loopExit) : state :=
  match x with
  | Running s | Break s | Return s _ | Throw s _ => s
  end.

(** ** Reading strings *)

Fixpoint hasChar (c : ascii) (s : string) : bool :=
  match s with
  | EmptyString => false
  | String a r => Ascii.eqb a c || hasChar c r
  end.

(** No path separator and no underscore, as in the digits of a number. *)
Definition plain (s : string) : bool :=
  negb (hasChar "/" s) && negb (hasChar "_" s).

Definition startsClean (s : string) : Prop :=
  match s with
  | EmptyString => True
  | String c _ => isSpace c = false
  end.

Fixpoint endsClean (s : string) : Prop :=
  match s with
  | EmptyString => True
  | String c EmptyString => isSpace c = false
  | String _ r => endsClean r
  end.

(** ** Kinds of answers of the environment *)

(** HTTP 429. *)
Definition throttled (tk : tick) : Prop :=
  exists r, fetched tk = Resolved r /\ status r = 429.

(** A 2xx answer with a non-empty array, and the page write resolves. *)
Definition stored (tk : tick) : Prop :=
  exists r x items,
    fetched tk = Resolved r /\ 200 <= status r < 300 /\
    data r = JArray (x :: items) /\ written tk = Resolved tt.

(** ** Numbers as decimal numerals *)

(** The decimal numeral of a whole number, which is how a template literal
    renders it (below 10^21); of another finite number, the numeral of its
    integer part.  Used to run the model on whole page numbers. *)
Definition decimal (n : jsnum) : string :=
  match n with
  | NaN => "NaN"
  | PInf => "Infinity"
  | NInf => "-Infinity"
  | Fin q => DecimalString.NilZero.string_of_int (Z.to_int (Qfloor q))
  end.

(** ** Invariants of the loop *)

(** The page writes that resolved are those of the pages from [startPage]
    up to the current page, one each and in order, and [fetchedPages]
    counts them. *)
Definition pagesInv (NumberToString : jsnum -> string) (baseDir : path)
           (p : params) (s : state) : Prop :=
  exists n : nat,
    fetchedPages s = Z.of_nat n /\
    page s = nthPage (startPage p) n /\
    pageFiles (trace s) =
      map (fun k => outPath NumberToString baseDir (name p)
                            (nthPage (startPage p) k)) (seq 0 n).

(** [lastRequestAt] is the send time of the last request (0 before the
    first), no send time is in the future, and consecutive send times are at
    least [m] apart. *)
Definition paceInv (m : Z) (s : state) : Prop :=
  0 < clock s /\
  lastRequestAt s <= clock s /\
  lastRequestAt s = last (sendTimes (trace s)) 0 /\
  Forall (fun t => 0 < t) (sendTimes (trace s)) /\
  spaced m (sendTimes (trace s)).

(** ** Sample inputs *)

(** A server in [/srv/app] with a token in its environment; the request
    arrives at 1700000000000 ms and every write resolves. *)
Definition sampleEnv : environment :=
  mkEnv ["srv"; "app"] (Some "tok-123") 1700000000000 (Resolved tt) 2 (Resolved tt).

(** A request with no [Authorization] header and the body [{ "name": n }]. *)
Definition namedRequest (n : string) : request :=
  mkRequest None (Some (JString n)) None None None None.

Definition sampleRequest : request := namedRequest "run".

(** An iteration in which the upstream answers after 120 ms and the page
    write resolves after 5 ms. *)
Definition answer (st : Z) (retryAfter : option string) (d : json) : tick :=
  mkTick 0 (Resolved (mkResponse st retryAfter d)) 120 0 (Resolved tt) 5.

Definition activity : json := JObject [("id", JNumber 1)].

(** ** More readings of a trace *)

(** The page writes that resolved, with the records they wrote. *)
Definition pageWrites (tr : list event) : list (path * list json) :=
  flat_map (fun ev => match ev with
                      | WriteFile f (Records items) true => [(f, items)]
                      | _ => []
                      end) tr.

(** The bearer token and [per_page] of each request, in order. *)
Definition requestHeaders (tr : list event) : list (string * Q) :=
  flat_map (fun ev => match ev with Get _ tok _ pp => [(tok, pp)] | _ => [] end) tr.

(** The directories made. *)
Definition mkdirs (tr : list event) : list path :=
  flat_map (fun ev => match ev with Mkdir d => [d] | _ => [] end) tr.

(** Two iterations in which the upstream and the disk answer alike, whatever
    the time they take. *)
Definition sameAnswers (tk tk' : tick) : Prop :=
  fetched tk = fetched tk' /\ written tk = written tk'.

(** Two states that agree on what was requested, fetched and stored. *)
Definition alike (s s' : state) : Prop :=
  page s = page s' /\
  fetchedPages s = fetchedPages s' /\
  pageWrites (trace s) = pageWrites (trace s') /\
  requestedPages (trace s) = requestedPages (trace s').

(** A reply without the time stamp of its manifest. *)
Definition eraseTime (r : reply) : reply :=
  match r with
  | Json c (OkBody d m) =>
      Json c (OkBody d (mkMeta (meta_name m) (per_page m) (start_page m)
                               (fetched_pages m) 0))
  | _ => r
  end.

(** The status of a reply, when the handler sent one itself. *)
Definition replyCode (r : reply) : option Z :=
  match r with Json c _ => Some c | Next _ => None end.

Fixpoint allSpace (s : string) : bool :=
  match s with
  | EmptyString => true
  | String c r => isSpace c && allSpace r
  end.

Fixpoint lowerString (s : string) : string :=
  match s with
  | EmptyString => EmptyString
  | String c r => String (lower c) (lowerString r)
  end.

(** ** The OAuth callback of [routes/auth.js] *)

(** Truthiness of a JSON value. *)
Definition jsTruthy (v : json) : bool :=
  match v with
  | JNull => false
  | JBool b => b
  | JNumber q =>
      match toDouble q with
      | Fin d => negb (Qeq_bool d 0)
      | NaN => false
      | _ => true
      end
  | JString s => negb (s =? "")%string
  | JArray _ | JObject _ => true
  end.

(** The value of the key [k] in the members of an object, the last one when
    the key occurs more than once; [None] is [undefined]. *)
Fixpoint lookupField (k : string) (fields : list (string * json)) : option json :=
  match fields with
  | [] => None
  | (k', v) :: rest =>
      match lookupField k rest with
      | Some v' => Some v'
      | None => if (k' =? k)%string then Some v else None
      end
  end.

(** [v[k]] for a key that only an object can hold. *)
Definition getProp (v : json) (k : string) : option json :=
  match v with
  | JObject fields => lookupField k fields
  | _ => None
  end.

(** The member [k: v] of an object literal that is serialised: a member
    whose value is [undefined] is left out. *)
Definition member (k : string) (v : option json) : list (string * json) :=
  match v with Some x => [(k, x)] | None => [] end.

(** What the [catch] block reads of an error: [error.message], and
    [error.response?.status] and [error.response?.data] when the upstream
    answered. *)
Record caught : Type := mkCaught {
  err_message : string;
  err_response : option (Z * json)
}.

(** The callback's effects: the token exchange and the console. *)
Inductive authEvent : Type :=
| Post (client_id client_secret : option string) (code : json)
| Console (level : string) (text : string) (detail : option json).

(** [res.status(status).json(body)] *)
Record httpReply : Type := mkReply {
  http_status : Z;
  http_body : json
}.

Section Callback.

(** The message of the [TypeError] that reading a property of [null] or
    [undefined] throws, by the expression read. *)
Variable typeErrorMessage : string -> string.

(** The [catch] block. *)
Definition authFailed (error : caught) : list authEvent * httpReply :=
  ([Console "error" "Strava token exchange failed:"
            (Some (JObject
               (member "message" (Some (JString (err_message error))) ++
                member "status"
                  (option_map (fun r => JNumber (inject_Z (fst r)))
                              (err_response error)) ++
                member "data" (option_map snd (err_response error)))%list))],
   mkReply 500
     (JObject
        [("error", JString "Strava authentication failed");
         ("details",
          match err_response error with
          | Some (_, d) => if jsTruthy d then d else JString (err_message error)
          | None => JString (err_message error)
          end)])).

(** The handler of [GET /strava/callback]: [code] is [req.query.code],
    [exchange] is how [axios.post] settles, resolved with [response.data]
    or rejected with the error. *)
Definition callback (client_id client_secret : option string)
           (code : option json) (exchange : caught + json)
  : list authEvent * httpReply :=
  match code with
  | None =>
      ([Console "warn" "Strava callback missing ?code" None],
       mkReply 400 (JObject [("error", JString "Missing authorization code")]))
  | Some c =>
      if negb (jsTruthy c) then
        ([Console "warn" "Strava callback missing ?code" None],
         mkReply 400 (JObject [("error", JString "Missing authorization code")]))
      else
        let started :=
          [Console "log" "Received authorization code from Strava:" (Some c);
           Post client_id client_secret c] in
        match exchange with
        | inl error =>
            let (evs, rep) := authFailed error in ((started ++ evs)%list, rep)
        | inr d =>
            match d with
            | JNull =>
                let (evs, rep) :=
                  authFailed (mkCaught (typeErrorMessage "response.data") None) in
                ((started ++ evs)%list, rep)
            | _ =>
                match getProp d "athlete" with
                | None | Some JNull =>
                    let (evs, rep) :=
                      authFailed (mkCaught (typeErrorMessage "athlete") None) in
                    ((started ++ evs)%list, rep)
                | Some athlete =>
                    ((started ++
                      [Console "log" "Strava authentication successful for athlete:"
                               (getProp athlete "id")])%list,
                     mkReply 200
                       (JObject
                          (member "access_token" (getProp d "access_token") ++
                           member "refresh_token" (getProp d "refresh_token") ++
                           member "expires_at" (getProp d "expires_at") ++
                           [("athlete", athlete)])%list))
                end
            end
        end
  end.

End Callback.

(** The token exchanges among the callback's effects, each with the
    credentials and the code it posts. *)
Definition posts (evs : list authEvent)
  : list (option string * option string * json) :=
  flat_map (fun ev => match ev with
                      | Post id secret c => [(id, secret, c)]
                      | Console _ _ _ => []
                      end) evs.

(** [!code] for [req.query.code]. *)
Definition codeMissing (code : option json) : Prop :=
  match code with
  | None => True
  | Some c => jsTruthy c = false
  end.

(** The records an iteration gives to store: those of a 2xx answer with a
    non-empty array whose page write resolves. *)
Definition storedItems (tk : tick) : list (list json) :=
  match fetched tk, written tk with
  | Resolved r, Resolved _ =>
      if (200 <=? status r) && (status r <? 300) then
        match data r with
        | JArray (x :: items) => [x :: items]
        | _ => []
        end
      else []
  | _, _ => []
  end.

(** * Properties *)

Arguments iteration : simpl never.
Arguments send : simpl never.
Arguments minIntervalMs : simpl never.
Arguments toDouble : simpl never.
Arguments timerDelay : simpl never.
Arguments jsAdd : simpl never.
Arguments jsMul : simpl never.
Arguments pow2 : simpl never.

(** ** Comparisons *)

Lemma Qlt_bool_false (x y : Q) : Qlt_bool x y = false <-> (y <= x)%Q.
Proof.
  unfold Qlt_bool. rewrite negb_false_iff. apply Qle_bool_iff.
Qed.

Lemma Qlt_bool_true (x y : Q) : Qlt_bool x y = true <-> (x < y)%Q.
Proof.
  unfold Qlt_bool. rewrite negb_true_iff. split.
  - intros H. apply Qnot_le_lt. intros Hle.
    apply Qle_bool_iff in Hle. congruence.
  - intros H. destruct (Qle_bool y x) eqn:E; [|reflexivity].
    apply Qle_bool_iff in E. exfalso. exact (Qlt_not_le _ _ H E).
Qed.

(** ** Doubles *)

Lemma pow2_pos (e : Z) : (0 < pow2 e)%Q.
Proof. apply Qpower_0_lt. reflexivity. Qed.

Lemma pow2_add (a b : Z) : (pow2 (a + b) == pow2 a * pow2 b)%Q.
Proof. apply Qpower_plus. discriminate. Qed.

Lemma pow2_Z (n : Z) : 0 <= n -> (pow2 n == inject_Z (2 ^ n))%Q.
Proof. intros H. unfold pow2. rewrite (Zpower_Qpower 2 n H). reflexivity. Qed.

Lemma pow2_le (a b : Z) : a <= b -> (pow2 a <= pow2 b)%Q.
Proof. intros H. apply Qpower_le_compat_l; [exact H | discriminate]. Qed.

Lemma pow2_le_inv (a b : Z) : (pow2 a <= pow2 b)%Q -> a <= b.
Proof. intros H. apply (Qpower_le_compat_l_inv 2); [exact H | reflexivity]. Qed.

Lemma pow2_div (x : Q) (e : Z) : (x / pow2 e == x * pow2 (- e))%Q.
Proof.
  unfold Qdiv. apply Qmult_comp; [reflexivity |].
  unfold pow2. rewrite Qpower_opp. reflexivity.
Qed.

Lemma pow2_cancel (e : Z) : (pow2 (- e) * pow2 e == 1)%Q.
Proof. rewrite <- pow2_add. replace (- e + e) with 0 by lia. reflexivity. Qed.

Lemma ilog2_le (x : Q) : (0 < x)%Q -> (pow2 (ilog2 x) <= x)%Q.
Proof.
  intros Hx. unfold ilog2.
  set (a := Z.log2 (Qnum x)). set (b := Z.log2 (Zpos (Qden x))).
  destruct (Qle_bool (pow2 (a - b)) x) eqn:E.
  - apply Qle_bool_iff. exact E.
  - clear E.
    assert (Hn : 0 < Qnum x).
    { unfold Qlt in Hx. simpl in Hx. lia. }
    assert (Ha : 2 ^ a <= Qnum x).
    { apply Z.log2_spec. exact Hn. }
    assert (Hb : Zpos (Qden x) < 2 ^ (b + 1)).
    { replace (b + 1) with (Z.succ b) by lia. apply Z.log2_spec. reflexivity. }
    assert (Ha0 : 0 <= a) by apply Z.log2_nonneg.
    assert (Hb0 : 0 <= b) by apply Z.log2_nonneg.
    assert (H1 : (pow2 (a - b - 1) == pow2 a * pow2 (- (b + 1)))%Q).
    { rewrite <- pow2_add. replace (a + - (b + 1)) with (a - b - 1) by lia. reflexivity. }
    assert (H2 : (x == x * pow2 (b + 1) * pow2 (- (b + 1)))%Q).
    { rewrite <- Qmult_assoc. rewrite (Qmult_comm (pow2 (b + 1))).
      rewrite pow2_cancel. rewrite Qmult_1_r. reflexivity. }
    rewrite H1.
    apply Qle_trans with (x * pow2 (b + 1) * pow2 (- (b + 1)))%Q;
      [| rewrite <- H2; apply Qle_refl].
    apply Qmult_le_compat_r; [| apply Qlt_le_weak, pow2_pos].
    rewrite (pow2_Z a Ha0). rewrite (pow2_Z (b + 1)) by lia.
    destruct x as [n d]. simpl in *.
    unfold Qle. simpl.
    assert (0 < 2 ^ a) by (apply Z.pow_pos_nonneg; lia).
    nia.
Qed.

Lemma roundHalfEven_ge (y : Q) (k : Z) :
  (inject_Z k <= y)%Q -> k <= roundHalfEven y.
Proof.
  intros H. apply Qfloor_resp_le in H. rewrite Qfloor_Z in H.
  unfold roundHalfEven.
  destruct (y - inject_Z (Qfloor y) ?= 1 # 2)%Q; [destruct (Z.even (Qfloor y)) | |]; lia.
Qed.

Lemma roundHalfEven_le (y : Q) (k : Z) :
  (y <= inject_Z k)%Q -> roundHalfEven y <= k.
Proof.
  intros H. pose proof (Qfloor_resp_le _ _ H) as Hf. rewrite Qfloor_Z in Hf.
  unfold roundHalfEven.
  destruct (Z.eq_dec (Qfloor y) k) as [E | E].
  - assert (Hlt : (y - inject_Z (Qfloor y) < 1 # 2)%Q).
    { rewrite E. apply Qle_lt_trans with 0%Q; [| reflexivity].
      unfold Qminus. rewrite <- (Qplus_opp_r (inject_Z k)).
      apply Qplus_le_compat; [exact H | apply Qle_refl]. }
    rewrite (proj1 (Qlt_alt _ _) Hlt). lia.
  - destruct (y - inject_Z (Qfloor y) ?= 1 # 2)%Q; [destruct (Z.even (Qfloor y)) | |]; lia.
Qed.

Lemma roundHalfEven_comp (y y' : Q) : (y == y')%Q -> roundHalfEven y = roundHalfEven y'.
Proof.
  intros H. unfold roundHalfEven.
  rewrite (Qfloor_comp _ _ H).
  assert (E : (y - inject_Z (Qfloor y') == y' - inject_Z (Qfloor y'))%Q)
    by (rewrite H; reflexivity).
  rewrite (Qcompare_comp _ _ E _ _ (Qeq_refl (1 # 2))). reflexivity.
Qed.

Lemma roundHalfEven_Z (k : Z) : roundHalfEven (inject_Z k) = k.
Proof.
  apply Z.le_antisymm.
  - apply roundHalfEven_le, Qle_refl.
  - apply roundHalfEven_ge, Qle_refl.
Qed.

Lemma nearest_le (x : Q) (k : Z) :
  (x <= inject_Z k * pow2 (ulpExponent x))%Q ->
  (nearest x <= inject_Z k * pow2 (ulpExponent x))%Q.
Proof.
  intros H. unfold nearest.
  apply Qmult_le_compat_r; [| apply Qlt_le_weak, pow2_pos].
  rewrite <- Zle_Qle. apply roundHalfEven_le.
  apply Qle_shift_div_r; [apply pow2_pos | exact H].
Qed.

Lemma nearest_ge (x : Q) (k : Z) :
  (inject_Z k * pow2 (ulpExponent x) <= x)%Q ->
  (inject_Z k * pow2 (ulpExponent x) <= nearest x)%Q.
Proof.
  intros H. unfold nearest.
  apply Qmult_le_compat_r; [| apply Qlt_le_weak, pow2_pos].
  rewrite <- Zle_Qle. apply roundHalfEven_ge.
  apply Qle_shift_div_l; [apply pow2_pos | exact H].
Qed.

Lemma nearest_nonneg (x : Q) : (0 <= x)%Q -> (0 <= nearest x)%Q.
Proof.
  intros H.
  apply Qle_trans with (inject_Z 0 * pow2 (ulpExponent x))%Q.
  - rewrite Qmult_0_l. apply Qle_refl.
  - apply nearest_ge. rewrite Qmult_0_l. exact H.
Qed.

(** A whole number is a multiple of every unit that is at most 1. *)
Lemma multiple_of_unit (c e : Z) :
  e <= 0 -> (inject_Z (c * 2 ^ (- e)) * pow2 e == inject_Z c)%Q.
Proof.
  intros He. rewrite inject_Z_mult. rewrite <- (pow2_Z (- e)) by lia.
  rewrite <- Qmult_assoc. rewrite pow2_cancel. apply Qmult_1_r.
Qed.

Lemma ulpExponent_normal (x : Q) :
  (0 < x)%Q -> (inject_Z (2 ^ 52) * pow2 (ilog2 x - 52) <= x)%Q.
Proof.
  intros Hx. rewrite <- (pow2_Z 52) by lia. rewrite <- pow2_add.
  replace (52 + (ilog2 x - 52)) with (ilog2 x) by lia.
  apply ilog2_le, Hx.
Qed.

Lemma ilog2_lt (x : Q) (n : Z) : (0 < x)%Q -> (x < pow2 n)%Q -> ilog2 x < n.
Proof.
  intros Hx H.
  destruct (Z_lt_le_dec (ilog2 x) n) as [Hl | Hl]; [exact Hl | exfalso].
  apply pow2_le in Hl.
  apply (Qlt_irrefl x). apply Qlt_le_trans with (pow2 n); [exact H |].
  apply Qle_trans with (pow2 (ilog2 x)); [exact Hl | apply ilog2_le, Hx].
Qed.

(** Rounding does not pass a whole number of at most 53 bits. *)
Lemma nearest_below (x : Q) (c : Z) :
  (0 < x)%Q -> (x <= inject_Z c)%Q -> c <= 2 ^ 53 -> (nearest x <= inject_Z c)%Q.
Proof.
  intros Hx Hc Hb.
  destruct (Z_le_gt_dec (ulpExponent x) 0) as [He | He].
  - rewrite <- (multiple_of_unit c _ He). apply nearest_le.
    rewrite (multiple_of_unit c _ He). exact Hc.
  - (* the unit is 2: [x] is at least 2^53 *)
    assert (HL : ulpExponent x = ilog2 x - 52) by (unfold ulpExponent in *; lia).
    pose proof (ulpExponent_normal x Hx) as Hn. rewrite <- HL in Hn.
    assert (Hx53 : (x < pow2 54)%Q).
    { apply Qle_lt_trans with (inject_Z c); [exact Hc |].
      rewrite (pow2_Z 54) by lia. rewrite <- Zlt_Qlt. lia. }
    pose proof (ilog2_lt x 54 Hx Hx53) as Hl.
    assert (E : ulpExponent x = 1) by lia.
    assert (E2 : c = 2 ^ 53).
    { apply Z.le_antisymm; [exact Hb |].
      rewrite Zle_Qle. apply Qle_trans with x; [| exact Hc].
      apply Qle_trans with (inject_Z (2 ^ 52) * pow2 (ulpExponent x))%Q; [| exact Hn].
      rewrite E. vm_compute. discriminate. }
    assert (E3 : (inject_Z c == inject_Z (2 ^ 52) * pow2 (ulpExponent x))%Q).
    { rewrite E, E2. reflexivity. }
    rewrite E3. apply nearest_le. rewrite <- E3. exact Hc.
Qed.

Lemma nearest_above (x : Q) (c : Z) :
  (0 < x)%Q -> (inject_Z c <= x)%Q -> c <= 2 ^ 53 -> (inject_Z c <= nearest x)%Q.
Proof.
  intros Hx Hc Hb.
  destruct (Z_le_gt_dec (ulpExponent x) 0) as [He | He].
  - rewrite <- (multiple_of_unit c _ He). apply nearest_ge.
    rewrite (multiple_of_unit c _ He). exact Hc.
  - assert (HL : ulpExponent x = ilog2 x - 52) by (unfold ulpExponent in *; lia).
    pose proof (ulpExponent_normal x Hx) as Hn. rewrite <- HL in Hn.
    apply Qle_trans with (inject_Z (2 ^ 52) * pow2 (ulpExponent x))%Q;
      [| apply nearest_ge, Hn].
    apply Qle_trans with (inject_Z (2 ^ 52) * pow2 1)%Q.
    + apply Qle_trans with (inject_Z (2 ^ 53)); [rewrite <- Zle_Qle; exact Hb |].
      vm_compute. discriminate.
    + apply Qmult_le_l; [reflexivity |]. apply pow2_le. lia.
Qed.

(** A positive number that is not below the least positive double does not
    round to zero. *)
Lemma nearest_positive (x : Q) :
  (pow2 (-1074) <= x)%Q -> (pow2 (-1074) <= nearest x)%Q.
Proof.
  intros H.
  assert (Hx : (0 < x)%Q) by (apply Qlt_le_trans with (pow2 (-1074)); [apply pow2_pos | exact H]).
  apply Qle_trans with (inject_Z 1 * pow2 (ulpExponent x))%Q.
  - rewrite Qmult_1_l. apply pow2_le. unfold ulpExponent. lia.
  - apply nearest_ge. rewrite Qmult_1_l.
    unfold ulpExponent. destruct (Z.max_spec (ilog2 x - 52) (-1074)) as [[_ E] | [_ E]];
      rewrite E.
    + exact H.
    + apply Qle_trans with (pow2 (ilog2 x)); [apply pow2_le; lia | apply ilog2_le, Hx].
Qed.

Lemma toDouble_comp (x y : Q) : (x == y)%Q -> toDouble x = toDouble y.
Proof. intros H. unfold toDouble. rewrite (Qred_complete _ _ H). reflexivity. Qed.

Lemma toDouble_pos (x : Q) : (0 < x)%Q -> toDouble x = roundPositive (Qred x).
Proof.
  intros H. unfold toDouble.
  assert (Hg : (Qred x ?= 0)%Q = Gt).
  { apply Qgt_alt. rewrite Qred_correct. exact H. }
  rewrite Hg. reflexivity.
Qed.

Lemma toDouble_neg (x : Q) :
  (x < 0)%Q ->
  toDouble x = match roundPositive (- Qred x) with
               | Fin q => Fin (Qred (- q))
               | PInf => NInf
               | n => n
               end.
Proof.
  intros H. unfold toDouble.
  assert (Hg : (Qred x ?= 0)%Q = Lt).
  { apply Qlt_alt. rewrite Qred_correct. exact H. }
  rewrite Hg. reflexivity.
Qed.

Lemma toDouble_zero (x : Q) : (x == 0)%Q -> toDouble x = Fin 0.
Proof. intros H. rewrite (toDouble_comp _ _ H). reflexivity. Qed.

Lemma roundPositive_finite (x : Q) :
  (nearest x < pow2 1024)%Q -> roundPositive x = Fin (Qred (nearest x)).
Proof.
  intros H. unfold roundPositive.
  destruct (Qle_bool (pow2 1024) (nearest x)) eqn:E; [| reflexivity].
  apply Qle_bool_iff in E. exfalso. apply (Qlt_irrefl (nearest x)).
  apply Qlt_le_trans with (pow2 1024); assumption.
Qed.

Lemma roundPositive_cases (x : Q) :
  roundPositive x = PInf \/
  (nearest x < pow2 1024)%Q /\ roundPositive x = Fin (Qred (nearest x)).
Proof.
  unfold roundPositive.
  destruct (Qle_bool (pow2 1024) (nearest x)) eqn:E; [left; reflexivity | right].
  split; [| reflexivity].
  apply Qnot_le_lt. intros H. apply Qle_bool_iff in H. congruence.
Qed.

Lemma small_in_range (c : Z) : c <= 2 ^ 53 -> (inject_Z c < pow2 1024)%Q.
Proof.
  intros H. apply Qle_lt_trans with (inject_Z (2 ^ 53)).
  - rewrite <- Zle_Qle. exact H.
  - rewrite (pow2_Z 1024) by lia. rewrite <- Zlt_Qlt.
    apply Z.pow_lt_mono_r; lia.
Qed.

(** Rounding a positive number that is at most a whole number [c] of at
    most 53 bits gives a finite double that is at most [c]. *)
Lemma toDouble_below (x : Q) (c : Z) :
  (0 < x)%Q -> (x <= inject_Z c)%Q -> c <= 2 ^ 53 ->
  exists q, toDouble x = Fin q /\ (0 <= q)%Q /\ (q <= inject_Z c)%Q.
Proof.
  intros Hx Hc Hb.
  assert (Hx' : (0 < Qred x)%Q) by (rewrite Qred_correct; exact Hx).
  assert (Hc' : (Qred x <= inject_Z c)%Q) by (rewrite Qred_correct; exact Hc).
  pose proof (nearest_below _ _ Hx' Hc' Hb) as Hn.
  exists (Qred (nearest (Qred x))). split; [| split].
  - rewrite (toDouble_pos x Hx). apply roundPositive_finite.
    apply Qle_lt_trans with (inject_Z c); [exact Hn | apply small_in_range, Hb].
  - rewrite Qred_correct. apply nearest_nonneg, Qlt_le_weak, Hx'.
  - rewrite Qred_correct. exact Hn.
Qed.

Lemma toDouble_above (x : Q) (c : Z) :
  (0 < x)%Q -> (inject_Z c <= x)%Q -> c <= 2 ^ 53 ->
  toDouble x = PInf \/ exists q, toDouble x = Fin q /\ (inject_Z c <= q)%Q.
Proof.
  intros Hx Hc Hb.
  assert (Hx' : (0 < Qred x)%Q) by (rewrite Qred_correct; exact Hx).
  assert (Hc' : (inject_Z c <= Qred x)%Q) by (rewrite Qred_correct; exact Hc).
  pose proof (nearest_above _ _ Hx' Hc' Hb) as Hn.
  rewrite (toDouble_pos x Hx).
  destruct (roundPositive_cases (Qred x)) as [E | [_ E]]; [left; exact E | right].
  exists (Qred (nearest (Qred x))). split; [exact E |].
  rewrite Qred_correct. exact Hn.
Qed.

(** A positive number between the least positive double and a whole number
    of at most 53 bits rounds to a double between the two. *)
Lemma toDouble_between (x : Q) (c : Z) :
  (pow2 (-1074) <= x)%Q -> (x <= inject_Z c)%Q -> c <= 2 ^ 53 ->
  exists q, toDouble x = Fin q /\ (pow2 (-1074) <= q)%Q /\ (q <= inject_Z c)%Q.
Proof.
  intros Hx Hc Hb.
  assert (Hp : (0 < x)%Q) by (apply Qlt_le_trans with (pow2 (-1074)); [apply pow2_pos | exact Hx]).
  assert (Hx' : (pow2 (-1074) <= Qred x)%Q) by (rewrite Qred_correct; exact Hx).
  assert (Hp' : (0 < Qred x)%Q) by (rewrite Qred_correct; exact Hp).
  assert (Hc' : (Qred x <= inject_Z c)%Q) by (rewrite Qred_correct; exact Hc).
  pose proof (nearest_below _ _ Hp' Hc' Hb) as Hn.
  exists (Qred (nearest (Qred x))). split; [| split].
  - rewrite (toDouble_pos x Hp). apply roundPositive_finite.
    apply Qle_lt_trans with (inject_Z c); [exact Hn | apply small_in_range, Hb].
  - rewrite Qred_correct. apply nearest_positive, Hx'.
  - rewrite Qred_correct. exact Hn.
Qed.

Lemma Qred_Z (z : Z) : Qred (inject_Z z) = inject_Z z.
Proof. apply Qcanon.Qred_identity. simpl. apply Z.gcd_1_r. Qed.

(** Whole numbers of at most 53 bits are doubles. *)
Lemma toDouble_Z (z : Z) :
  - 2 ^ 53 <= z <= 2 ^ 53 -> toDouble (inject_Z z) = Fin (inject_Z z).
Proof.
  intros Hz.
  assert (Hpos : forall c, 0 < c <= 2 ^ 53 ->
                           roundPositive (inject_Z c) = Fin (inject_Z c)).
  { intros c Hc.
    assert (H0 : (0 < inject_Z c)%Q) by (change 0%Q with (inject_Z 0); rewrite <- Zlt_Qlt; lia).
    pose proof (nearest_below _ c H0 (Qle_refl _) (proj2 Hc)) as Hle.
    pose proof (nearest_above _ c H0 (Qle_refl _) (proj2 Hc)) as Hge.
    rewrite roundPositive_finite.
    - f_equal. transitivity (Qred (inject_Z c)); [| apply Qred_Z].
      apply Qred_complete. apply Qle_antisym; assumption.
    - apply Qle_lt_trans with (inject_Z c); [exact Hle | apply small_in_range, Hc]. }
  destruct (Z.lt_trichotomy z 0) as [Hn | [-> | Hp]].
  - assert (H0 : (inject_Z z < 0)%Q) by (change 0%Q with (inject_Z 0); rewrite <- Zlt_Qlt; lia).
    rewrite (toDouble_neg _ H0). rewrite Qred_Z.
    change (- inject_Z z)%Q with (inject_Z (- z)).
    rewrite Hpos by lia.
    f_equal. change (- inject_Z (- z))%Q with (inject_Z (- - z)).
    rewrite Z.opp_involutive. apply Qred_Z.
  - reflexivity.
  - assert (H0 : (0 < inject_Z z)%Q) by (change 0%Q with (inject_Z 0); rewrite <- Zlt_Qlt; lia).
    rewrite (toDouble_pos _ H0). rewrite Qred_Z. apply Hpos. lia.
Qed.

(** A finite double is below 2^1024 in absolute value. *)
Lemma toDouble_range (x q : Q) :
  toDouble x = Fin q -> (- pow2 1024 < q)%Q /\ (q < pow2 1024)%Q.
Proof.
  intros H.
  assert (Hp : forall y r, (0 < y)%Q -> roundPositive y = Fin r ->
                           (0 <= r)%Q /\ (r < pow2 1024)%Q).
  { intros y r Hy Hr.
    destruct (roundPositive_cases y) as [E | [Hlt E]]; [congruence |].
    assert (Er : r = Qred (nearest y)) by congruence. subst r.
    split; rewrite Qred_correct; [| exact Hlt].
    apply nearest_nonneg, Qlt_le_weak, Hy. }
  assert (Hbig : (0 < pow2 1024)%Q) by apply pow2_pos.
  destruct (Q_dec x 0) as [[Hn | Hg] | Hz].
  - rewrite (toDouble_neg _ Hn) in H.
    destruct (roundPositive (- Qred x)) as [| | | r] eqn:E; try discriminate.
    assert (Eq : q = Qred (- r)) by congruence. subst q.
    assert (Hy : (0 < - Qred x)%Q).
    { rewrite Qred_correct. apply (Qopp_lt_compat x 0) in Hn. exact Hn. }
    destruct (Hp _ _ Hy E) as [Hr0 Hr1]. split; rewrite Qred_correct.
    + apply Qopp_lt_compat. exact Hr1.
    + apply Qle_lt_trans with 0%Q; [| exact Hbig].
      apply (Qopp_le_compat 0 r) in Hr0. exact Hr0.
  - rewrite (toDouble_pos _ Hg) in H.
    assert (Hy : (0 < Qred x)%Q) by (rewrite Qred_correct; exact Hg).
    destruct (Hp _ _ Hy H) as [Hr0 Hr1]. split; [| exact Hr1].
    apply Qlt_le_trans with 0%Q; [| exact Hr0].
    apply (Qopp_lt_compat 0 (pow2 1024)) in Hbig. exact Hbig.
  - rewrite (toDouble_zero _ Hz) in H. assert (Eq : q = 0%Q) by congruence. subst q. split.
    + apply (Qopp_lt_compat 0 (pow2 1024)) in Hbig. exact Hbig.
    + exact Hbig.
Qed.

(** Rounding to the nearest integer takes off at most a half. *)
Lemma roundHalfEven_lower (y : Q) : (y - (1 # 2) <= inject_Z (roundHalfEven y))%Q.
Proof.
  unfold roundHalfEven.
  pose proof (Qlt_floor y) as Hlt. pose proof (Qfloor_le y) as Hle.
  destruct (Qcompare_spec (y - inject_Z (Qfloor y)) (1 # 2)) as [He | Hl | Hg].
  - assert (E : (y - (1 # 2) == inject_Z (Qfloor y))%Q).
    { rewrite <- He. ring. }
    rewrite E. destruct (Z.even (Qfloor y)); rewrite <- Zle_Qle; lia.
  - apply Qlt_le_weak.
    apply Qplus_lt_l with (z := ((1 # 2) - inject_Z (Qfloor y))%Q).
    setoid_replace (y - (1 # 2) + ((1 # 2) - inject_Z (Qfloor y)))%Q
      with (y - inject_Z (Qfloor y))%Q by ring.
    setoid_replace (inject_Z (Qfloor y) + ((1 # 2) - inject_Z (Qfloor y)))%Q
      with (1 # 2)%Q by ring.
    exact Hl.
  - apply Qle_trans with y.
    + apply Qle_trans with (y - 0)%Q; [|ring_simplify; apply Qle_refl].
      apply Qplus_le_compat; [apply Qle_refl|discriminate].
    + apply Qlt_le_weak. exact Hlt.
Qed.

(** Rounding takes off at most half a unit in the last place. *)
Lemma nearest_lower (x : Q) :
  (x - pow2 (ulpExponent x - 1) <= nearest x)%Q.
Proof.
  unfold nearest. set (e := ulpExponent x).
  assert (He : (pow2 (e - 1) == (1 # 2) * pow2 e)%Q).
  { replace (e - 1) with (-1 + e) by lia. rewrite pow2_add. reflexivity. }
  assert (Hx : (x - pow2 (e - 1) == (x / pow2 e - (1 # 2)) * pow2 e)%Q).
  { rewrite He. field. intros H0. pose proof (pow2_pos e) as Hp.
    rewrite H0 in Hp. exact (Qlt_irrefl _ Hp). }
  rewrite Hx. apply Qmult_le_compat_r; [|apply Qlt_le_weak, pow2_pos].
  apply roundHalfEven_lower.
Qed.

(** Below 2^16 rounding to a double takes off at most 2^-38. *)
Lemma toDouble_lower (x q : Q) :
  (0 < x)%Q -> (x < pow2 16)%Q -> toDouble x = Fin q ->
  (x - pow2 (-38) <= q)%Q.
Proof.
  intros H0 H1 E.
  assert (H0' : (0 < Qred x)%Q) by (rewrite Qred_correct; exact H0).
  assert (H1' : (Qred x < pow2 16)%Q) by (rewrite Qred_correct; exact H1).
  rewrite (toDouble_pos x H0) in E.
  destruct (roundPositive_cases (Qred x)) as [E' | [_ E']]; [congruence|].
  assert (Eq : q = Qred (nearest (Qred x))) by congruence. subst q.
  rewrite Qred_correct.
  pose proof (ilog2_lt _ 16 H0' H1') as Hl.
  apply Qle_trans with (Qred x - pow2 (ulpExponent (Qred x) - 1))%Q;
    [|apply nearest_lower].
  apply Qplus_le_compat.
  - assert (Ex : (x == Qred x)%Q) by (symmetry; apply Qred_correct).
    rewrite <- Ex. apply Qle_refl.
  - apply Qopp_le_compat. apply pow2_le. unfold ulpExponent. lia.
Qed.

(** ** Traces *)

Lemma pageFiles_app (a b : list event) :
  pageFiles (a ++ b) = (pageFiles a ++ pageFiles b)%list.
Proof. apply flat_map_app. Qed.

Lemma manifestWrites_app (a b : list event) :
  manifestWrites (a ++ b) = (manifestWrites a ++ manifestWrites b)%list.
Proof. apply flat_map_app. Qed.

Lemma fileWrites_app (a b : list event) :
  fileWrites (a ++ b) = (fileWrites a ++ fileWrites b)%list.
Proof. apply flat_map_app. Qed.

Lemma sendTimes_app (a b : list event) :
  sendTimes (a ++ b) = (sendTimes a ++ sendTimes b)%list.
Proof. apply flat_map_app. Qed.

Lemma requestedPages_app (a b : list event) :
  requestedPages (a ++ b) = (requestedPages a ++ requestedPages b)%list.
Proof. apply flat_map_app. Qed.

Lemma replay_app (a b : list event) :
  forall d, replay d (a ++ b) = replay (replay d a) b.
Proof.
  induction a as [|ev a IH]; intro d; [reflexivity|].
  destruct ev as [dir|ms|t tok pg pp|f c [|]]; simpl; apply IH.
Qed.

Lemma replay_no_writes (tr : list event) :
  fileWrites tr = [] -> forall d, replay d tr = d.
Proof.
  induction tr as [|ev tr IH]; intros H d; [reflexivity|].
  destruct ev as [dir|ms|t tok pg pp|f c ok]; simpl in *;
    try (apply IH; assumption); discriminate.
Qed.

Lemma spaced_snoc (m : Z) (l : list Z) (t : Z) :
  spaced m l -> (l <> [] -> last l 0 + m <= t) -> spaced m (l ++ [t]).
Proof.
  induction l as [|a l IH]; intros Hs Hl; [exact I|].
  destruct l as [|b l].
  - simpl. split; [|exact I]. apply Hl. discriminate.
  - destruct Hs as [Hab Hs]. split; [exact Hab|].
    apply IH; [exact Hs|]. intros _. apply Hl. discriminate.
Qed.

(** ** The loop on a script in two parts *)

Section Loop.

Variable NumberToString : jsnum -> string.
Variables (baseDir : path) (p : params) (m : Z).

Lemma loop_app (s1 : list tick) :
  forall (s : state) (s2 : list tick),
    loop NumberToString baseDir p m s (s1 ++ s2) =
    match loop NumberToString baseDir p m s s1 with
    | Running s' => loop NumberToString baseDir p m s' s2
    | x => x
    end.
Proof.
  induction s1 as [|tk s1 IH]; intros s s2; simpl.
  - destruct (reachedMax p s) eqn:E; [|reflexivity].
    destruct s2; simpl; rewrite E; reflexivity.
  - destruct (reachedMax p s); [reflexivity|].
    destruct (iteration NumberToString baseDir p m s tk); auto.
Qed.

Lemma loop_Running (script : list tick) :
  forall s s', loop NumberToString baseDir p m s script = Running s' ->
               reachedMax p s' = false.
Proof.
  induction script as [|tk script IH]; intros s s'; simpl.
  - destruct (reachedMax p s) eqn:E; [discriminate|].
    intros H; injection H as <-; exact E.
  - destruct (reachedMax p s); [discriminate|].
    destruct (iteration NumberToString baseDir p m s tk); try discriminate.
    apply IH.
Qed.

(** A property of the state that every iteration keeps holds however the
    loop leaves off. *)
Lemma loop_invariant (Inv : state -> Prop) :
  (forall s tk, Inv s -> reachedMax p s = false ->
                Inv (flowState (iteration NumberToString baseDir p m s tk))) ->
  forall script s, Inv s ->
    Inv (exitState (loop NumberToString baseDir p m s script)).
Proof.
  intros Hstep. induction script as [|tk script IH]; intros s Hs; simpl.
  - destruct (reachedMax p s); exact Hs.
  - destruct (reachedMax p s) eqn:E; [exact Hs|].
    pose proof (Hstep s tk Hs E) as H.
    destruct (iteration NumberToString baseDir p m s tk); simpl in H; auto.
Qed.

End Loop.

(** ** The head of an iteration *)

Lemma timerDelay_id (w : Z) :
  1 <= w <= 2147483647 -> timerDelay (Fin (inject_Z w)) = w.
Proof.
  intros H. unfold timerDelay.
  assert (H1 : Qlt_bool (inject_Z w) 1 = false).
  { apply Qlt_bool_false. change 1%Q with (inject_Z 1). rewrite <- Zle_Qle. lia. }
  assert (H2 : Qlt_bool 2147483647 (inject_Z w) = false).
  { apply Qlt_bool_false. change 2147483647%Q with (inject_Z 2147483647).
    rewrite <- Zle_Qle. lia. }
  rewrite H1, H2. apply Qceiling_Z.
Qed.

Lemma timerDelay_pos (ms : jsnum) : 1 <= timerDelay ms.
Proof.
  unfold timerDelay. destruct ms as [| | |q]; try lia.
  destruct (Qlt_bool q 1) eqn:E; simpl; [lia|].
  destruct (Qlt_bool 2147483647 q); [lia|].
  apply Qlt_bool_false in E. apply Qceiling_resp_le in E.
  change 1%Q with (inject_Z 1) in E. rewrite Qceiling_Z in E. exact E.
Qed.

(** A timer set for more than 2^31 - 1 milliseconds fires after one. *)
Lemma timerDelay_overflow (ms : jsnum) :
  (forall q, ms = Fin q -> (2147483647 < q)%Q) -> timerDelay ms = 1.
Proof.
  intros H. unfold timerDelay. destruct ms as [| | |q]; try reflexivity.
  rewrite (proj2 (Qlt_bool_true _ _) (H q eq_refl)), orb_true_r. reflexivity.
Qed.

Lemma send_spec (p : params) (m : Z) (tk : tick) (s : state) :
  let s' := send p m tk s in
  exists pre,
    (pre = [] \/ pre = [Sleep (Fin (inject_Z (waitMs (lastRequestAt s) m (clock s))))]) /\
    trace s' =
      (trace s ++ pre ++ [Get (lastRequestAt s') (token p) (page s) (perPage p)])%list /\
    page s' = page s /\
    fetchedPages s' = fetchedPages s /\
    clock s' = lastRequestAt s' + Z.of_N (fetch_ms tk) /\
    clock s <= lastRequestAt s'.
Proof.
  unfold send.
  destruct (waitMs (lastRequestAt s) m (clock s) =? 0) eqn:E; simpl.
  - exists []. simpl. repeat split; auto. lia.
  - exists [Sleep (Fin (inject_Z (waitMs (lastRequestAt s) m (clock s))))]. simpl.
    rewrite <- app_assoc. simpl. repeat split; auto.
    pose proof (timerDelay_pos (Fin (inject_Z (waitMs (lastRequestAt s) m (clock s))))). lia.
Qed.

(** The first request of a run is sent without a wait. *)
Lemma send_first (p : params) (m : Z) (tk : tick) (s : state) :
  lastRequestAt s = 0 ->
  let s' := send p m tk s in
  lastRequestAt s' = clock s /\
  trace s' = (trace s ++ [Get (clock s) (token p) (page s) (perPage p)])%list.
Proof.
  intros H. unfold send, waitMs. rewrite H. simpl. split; reflexivity.
Qed.

(** A later request is sent no sooner than [m] after the one before. *)
Lemma send_paced (p : params) (m : Z) (tk : tick) (s : state) :
  1 <= m <= 2147483647 ->
  lastRequestAt s <= clock s ->
  lastRequestAt s <> 0 ->
  lastRequestAt s + m <= lastRequestAt (send p m tk s).
Proof.
  intros Hm Hle Hne. unfold send, waitMs.
  destruct (Z.eqb_spec (lastRequestAt s) 0) as [E|_]; [contradiction|].
  destruct (Z.eqb_spec (Z.max 0 (lastRequestAt s + m - clock s)) 0) as [E|E];
    simpl.
  - lia.
  - rewrite timerDelay_id by lia. lia.
Qed.

(** ** One iteration *)

Section Iteration.

Variable NumberToString : jsnum -> string.
Variables (baseDir : path) (p : params) (m : Z).

(** The ways an iteration can end, by the state [send] leaves. *)
Lemma iteration_cases (s : state) (tk : tick) :
  let s1 := send p m tk s in
  let f := iteration NumberToString baseDir p m s tk in
  (exists e, f = Threw s1 e) \/
  (exists r, f = Returned s1 r) \/
  (exists ms lag, f = Continue (sleep ms lag s1)) \/
  f = Broke s1 \/
  (exists items e,
      f = Threw (advance (Z.of_N (write_ms tk))
                   (log (WriteFile (outPath NumberToString baseDir (name p) (page s1))
                                   (Records items) false) s1)) e) \/
  (exists items,
      f = Continue
            (mkState (jsAdd (page s1) (Fin 1)) (fetchedPages s1 + 1) (lastRequestAt s1)
               (clock s1 + Z.of_N (write_ms tk))
               (trace s1 ++
                [WriteFile (outPath NumberToString baseDir (name p) (page s1))
                           (Records items) true])%list)).
Proof.
  intros s1 f. subst s1 f. unfold iteration.
  destruct (fetched tk) as [r|e]; [|left; eauto].
  destruct (status r =? 401); [right; left; eauto|].
  destruct (status r =? 429); [right; right; left; eauto|].
  destruct ((status r <? 200) || (300 <=? status r)); [right; left; eauto|].
  destruct (asArray (data r)) as [[|x items]|]; [right; right; right; left; auto| |right; left; eauto].
  destruct (written tk) as [u|e].
  - right; right; right; right; right. exists (x :: items). reflexivity.
  - right; right; right; right; left. eauto.
Qed.

Lemma iteration_throttled (s : state) (tk : tick) (r : response) :
  fetched tk = Resolved r -> status r = 429 ->
  iteration NumberToString baseDir p m s tk =
  Continue (sleep (retryMs (retry_after r)) (backoff_lag tk) (send p m tk s)).
Proof. intros Hf Hs. unfold iteration. rewrite Hf, Hs. reflexivity. Qed.

Lemma iteration_unauthorized (s : state) (tk : tick) (r : response) :
  fetched tk = Resolved r -> status r = 401 ->
  iteration NumberToString baseDir p m s tk =
  Returned (send p m tk s)
    (Json 401 (ErrorBody "401 Unauthorized (bad STRAVA_ACCESS_TOKEN)" None)).
Proof. intros Hf Hs. unfold iteration. rewrite Hf, Hs. reflexivity. Qed.

Lemma iteration_threw (s : state) (tk : tick) (e : exn) :
  fetched tk = Rejected e ->
  iteration NumberToString baseDir p m s tk = Threw (send p m tk s) e.
Proof. intros Hf. unfold iteration. rewrite Hf. reflexivity. Qed.

Lemma iteration_bad_status (s : state) (tk : tick) (r : response) :
  fetched tk = Resolved r ->
  status r <> 401 -> status r <> 429 -> (status r < 200 \/ 300 <= status r) ->
  iteration NumberToString baseDir p m s tk =
  Returned (send p m tk s)
    (Json 502
       (ErrorBody ("Strava API error (HTTP "
                     ++ NumberToString (Fin (inject_Z (status r))) ++ ")")
                  (Some (data r)))).
Proof.
  intros Hf H1 H2 H3. unfold iteration. rewrite Hf.
  destruct (Z.eqb_spec (status r) 401); [contradiction|].
  destruct (Z.eqb_spec (status r) 429); [contradiction|].
  destruct (Z.ltb_spec (status r) 200); [reflexivity|].
  destruct (Z.leb_spec 300 (status r)); [reflexivity|lia].
Qed.

(** The status tests that a 2xx answer passes. *)
Lemma iteration_2xx (s : state) (tk : tick) (r : response) :
  fetched tk = Resolved r -> 200 <= status r < 300 ->
  iteration NumberToString baseDir p m s tk =
  let s1 := send p m tk s in
  match asArray (data r) with
  | None =>
      Returned s1 (Json 502
        (ErrorBody "Unexpected Strava response (expected JSON array)"
                   (Some (data r))))
  | Some [] => Broke s1
  | Some items =>
      let file := outPath NumberToString baseDir (name p) (page s1) in
      match written tk with
      | Rejected e =>
          Threw (advance (Z.of_N (write_ms tk))
                   (log (WriteFile file (Records items) false) s1)) e
      | Resolved _ =>
          let s2 := advance (Z.of_N (write_ms tk))
                      (log (WriteFile file (Records items) true) s1) in
          Continue (mkState (jsAdd (page s2) (Fin 1)) (fetchedPages s2 + 1)
                      (lastRequestAt s2) (clock s2) (trace s2))
      end
  end.
Proof.
  intros Hf Hs. unfold iteration. rewrite Hf.
  destruct (Z.eqb_spec (status r) 401); [lia|].
  destruct (Z.eqb_spec (status r) 429); [lia|].
  destruct (Z.ltb_spec (status r) 200); [lia|].
  destruct (Z.leb_spec 300 (status r)); [lia|]. reflexivity.
Qed.

End Iteration.

(** From here on [send] is used through the three lemmas above. *)
Opaque send.

(** ** The invariants hold along every run *)

Section Invariants.

Variable NumberToString : jsnum -> string.
Variables (baseDir : path) (p : params) (m : Z).

Lemma send_pageFiles (tk : tick) (s : state) :
  pageFiles (trace (send p m tk s)) = pageFiles (trace s).
Proof.
  destruct (send_spec p m tk s) as (pre & Hpre & Htr & _).
  rewrite Htr, !pageFiles_app.
  destruct Hpre as [-> | ->]; simpl; rewrite app_nil_r; reflexivity.
Qed.

Lemma send_fileWrites (tk : tick) (s : state) :
  fileWrites (trace (send p m tk s)) = fileWrites (trace s).
Proof.
  destruct (send_spec p m tk s) as (pre & Hpre & Htr & _).
  rewrite Htr, !fileWrites_app.
  destruct Hpre as [-> | ->]; simpl; rewrite app_nil_r; reflexivity.
Qed.

Lemma send_manifestWrites (tk : tick) (s : state) :
  manifestWrites (trace (send p m tk s)) = manifestWrites (trace s).
Proof.
  destruct (send_spec p m tk s) as (pre & Hpre & Htr & _).
  rewrite Htr, !manifestWrites_app.
  destruct Hpre as [-> | ->]; simpl; rewrite app_nil_r; reflexivity.
Qed.

Lemma send_sendTimes (tk : tick) (s : state) :
  sendTimes (trace (send p m tk s)) =
  (sendTimes (trace s) ++ [lastRequestAt (send p m tk s)])%list.
Proof.
  destruct (send_spec p m tk s) as (pre & Hpre & Htr & _).
  rewrite Htr, !sendTimes_app.
  destruct Hpre as [-> | ->]; reflexivity.
Qed.

Lemma send_requestedPages (tk : tick) (s : state) :
  requestedPages (trace (send p m tk s)) =
  (requestedPages (trace s) ++ [page s])%list.
Proof.
  destruct (send_spec p m tk s) as (pre & Hpre & Htr & _).
  rewrite Htr, !requestedPages_app.
  destruct Hpre as [-> | ->]; reflexivity.
Qed.

Lemma pagesInv_iteration (s : state) (tk : tick) :
  pagesInv NumberToString baseDir p s ->
  pagesInv NumberToString baseDir p
    (flowState (iteration NumberToString baseDir p m s tk)).
Proof.
  intros (n & Hn & Hpg & Hfiles).
  pose proof (send_pageFiles tk s) as Hsf.
  destruct (send_spec p m tk s) as (pre & _ & _ & Hp1 & Hf1 & _).
  destruct (iteration_cases NumberToString baseDir p m s tk)
    as [(e & ->)|[(r & ->)|[(ms & lag & ->)|[->|[(items & e & ->)|(items & ->)]]]]];
    unfold pagesInv; simpl.
  1, 2, 4: exists n; rewrite Hp1, Hf1, Hsf; auto.
  - exists n. rewrite Hp1, Hf1, pageFiles_app, Hsf. simpl.
    rewrite app_nil_r. auto.
  - exists n. rewrite Hp1, Hf1, pageFiles_app, Hsf. simpl.
    rewrite app_nil_r. auto.
  - exists (S n). rewrite Hp1, Hf1, pageFiles_app, Hsf, Hn, Hpg, Hfiles.
    repeat split.
    + lia.
    + rewrite seq_S, map_app. reflexivity.
Qed.

Lemma manifestWrites_iteration (s : state) (tk : tick) :
  manifestWrites (trace (flowState (iteration NumberToString baseDir p m s tk)))
  = manifestWrites (trace s).
Proof.
  pose proof (send_manifestWrites tk s) as Hsf.
  destruct (iteration_cases NumberToString baseDir p m s tk)
    as [(e & ->)|[(r & ->)|[(ms & lag & ->)|[->|[(items & e & ->)|(items & ->)]]]]];
    simpl; rewrite ?manifestWrites_app, Hsf; simpl; rewrite ?app_nil_r;
    reflexivity.
Qed.

Hypothesis m_range : 1 <= m <= 2147483647.

Lemma paceInv_send (s : state) (tk : tick) :
  paceInv m s -> paceInv m (send p m tk s).
Proof.
  intros (Hc & Hle & Hlast & Hpos & Hsp).
  pose proof (send_sendTimes tk s) as Hst.
  destruct (send_spec p m tk s) as (pre & _ & _ & _ & _ & Hclk & Hge).
  assert (Hl : 0 < lastRequestAt (send p m tk s)) by lia.
  unfold paceInv. rewrite Hst, last_last.
  repeat split; try lia.
  - apply Forall_app. split; [exact Hpos|]. constructor; [exact Hl|constructor].
  - apply spaced_snoc; [exact Hsp|]. intros Hne. rewrite <- Hlast.
    apply send_paced; [exact m_range|exact Hle|].
    rewrite Hlast. destruct (sendTimes (trace s)) as [|a l] eqn:E;
      [contradiction|].
    assert (Hin : In (last (a :: l) 0) (a :: l)).
    { destruct (exists_last Hne) as (l' & x & ->). rewrite last_last.
      apply in_or_app. right. left. reflexivity. }
    rewrite Forall_forall in Hpos. specialize (Hpos _ Hin). lia.
Qed.

Lemma paceInv_iteration (s : state) (tk : tick) :
  paceInv m s ->
  paceInv m (flowState (iteration NumberToString baseDir p m s tk)).
Proof.
  intros Hinv. pose proof (paceInv_send s tk Hinv) as H1.
  destruct H1 as (Hc & Hle & Hlast & Hpos & Hsp).
  destruct (iteration_cases NumberToString baseDir p m s tk)
    as [(e & ->)|[(r & ->)|[(ms & lag & ->)|[->|[(items & e & ->)|(items & ->)]]]]];
    unfold paceInv; simpl; rewrite ?sendTimes_app; simpl; rewrite ?app_nil_r;
    repeat split; auto; try lia.
  pose proof (timerDelay_pos ms). lia.
  pose proof (timerDelay_pos ms). lia.
Qed.

End Invariants.

(** ** Validation *)

Lemma checked_Some (n : jsnum) (bad : Q -> bool) (q : Q) :
  checked n bad = Some q <-> n = Fin q /\ bad q = false.
Proof.
  unfold checked. destruct n as [| | |q']; try (split; [discriminate|intros [H _]; discriminate]).
  destruct (bad q') eqn:E; split.
  - discriminate.
  - intros [H Hb]. injection H as ->. congruence.
  - intros H. injection H as ->. auto.
  - intros [H Hb]. injection H as ->. reflexivity.
Qed.

Lemma validate_inr (NumberToString : jsnum -> string) (e : environment)
      (req : request) (p : params) :
  validate NumberToString e req = inr p <->
  getBearerToken (STRAVA_ACCESS_TOKEN e) req <> "" /\
  token p = getBearerToken (STRAVA_ACCESS_TOKEN e) req /\
  (exists text, stringOr NumberToString (body_name req) = inr text /\
                name p = trim text) /\
  numberOr (body_rpm req) 15 = inr (Fin (rpm p)) /\ (1 <= rpm p)%Q /\
  numberOr (body_per_page req) 200 = inr (Fin (perPage p)) /\
  (1 <= perPage p)%Q /\ (perPage p <= 200)%Q /\
  numberOr (body_start_page req) 1 = inr (Fin (startPage p)) /\
  (1 <= startPage p)%Q /\
  numberOr (body_max_pages req) 0 = inr (Fin (maxPages p)) /\
  (0 <= maxPages p)%Q.
Proof.
  unfold validate.
  destruct (String.eqb_spec (getBearerToken (STRAVA_ACCESS_TOKEN e) req) "")
    as [Ht|Ht].
  { split; [discriminate|]. intros [H _]. contradiction. }
  destruct (numberOr (body_rpm req) 15) as [err|n1].
  { split; [discriminate|]. intros (_ & _ & _ & H & _). discriminate. }
  destruct (numberOr (body_per_page req) 200) as [err|n2].
  { split; [discriminate|]. intros (_ & _ & _ & _ & _ & H & _). discriminate. }
  destruct (numberOr (body_start_page req) 1) as [err|n3].
  { split; [discriminate|].
    intros (_ & _ & _ & _ & _ & _ & _ & _ & H & _). discriminate. }
  destruct (numberOr (body_max_pages req) 0) as [err|n4].
  { split; [discriminate|].
    intros (_ & _ & _ & _ & _ & _ & _ & _ & _ & _ & H & _). discriminate. }
  destruct (stringOr NumberToString (body_name req)) as [err|text].
  { split; [discriminate|]. intros (_ & _ & (t & H & _) & _). discriminate. }
  destruct (checked n1 (fun q => Qlt_bool q 1)) as [r|] eqn:Er.
  2:{ split; [discriminate|]. intros (_ & _ & _ & H & Hr & _).
      assert (checked n1 (fun q => Qlt_bool q 1) = Some (rpm p)) as H'.
      { apply checked_Some; split; [congruence|apply Qlt_bool_false; exact Hr]. }
      congruence. }
  destruct (checked n2 (fun q => Qlt_bool q 1 || Qlt_bool 200 q))
    as [pp|] eqn:Epp.
  2:{ split; [discriminate|]. intros (_ & _ & _ & _ & _ & H & H1 & H2 & _).
      assert (checked n2 (fun q => Qlt_bool q 1 || Qlt_bool 200 q)
              = Some (perPage p)) as H'.
      { apply checked_Some; split; [congruence|]. apply orb_false_iff.
        split; apply Qlt_bool_false; assumption. }
      congruence. }
  destruct (checked n3 (fun q => Qlt_bool q 1)) as [sp|] eqn:Esp.
  2:{ split; [discriminate|].
      intros (_ & _ & _ & _ & _ & _ & _ & _ & H & Hr & _).
      assert (checked n3 (fun q => Qlt_bool q 1) = Some (startPage p)) as H'.
      { apply checked_Some; split; [congruence|apply Qlt_bool_false; exact Hr]. }
      congruence. }
  destruct (checked n4 (fun q => Qlt_bool q 0)) as [mp|] eqn:Emp.
  2:{ split; [discriminate|].
      intros (_ & _ & _ & _ & _ & _ & _ & _ & _ & _ & H & Hr).
      assert (checked n4 (fun q => Qlt_bool q 0) = Some (maxPages p)) as H'.
      { apply checked_Some; split; [congruence|apply Qlt_bool_false; exact Hr]. }
      congruence. }
  apply checked_Some in Er, Epp, Esp, Emp.
  destruct Er as [Er Er'], Epp as [Epp Epp'], Esp as [Esp Esp'], Emp as [Emp Emp'].
  apply orb_false_iff in Epp'. destruct Epp' as [Epp1 Epp2].
  apply Qlt_bool_false in Er', Epp1, Epp2, Esp', Emp'.
  subst n1 n2 n3 n4.
  split.
  - intros H. assert (E : p = mkParams (getBearerToken (STRAVA_ACCESS_TOKEN e) req)
                                     r pp sp mp (trim text)) by congruence.
    subst p. simpl. repeat split; auto. exists text. split; reflexivity.
  - intros (_ & H1 & (t & H2 & H2') & H3 & _ & H4 & _ & _ & H5 & _ & H6 & _).
    destruct p as [tk r' pp' sp' mp' nm]; simpl in *.
    assert (r' = r) by congruence. assert (pp' = pp) by congruence.
    assert (sp' = sp) by congruence. assert (mp' = mp) by congruence.
    assert (t = text) by congruence. subst. reflexivity.
Qed.

Lemma validate_accepts (NumberToString : jsnum -> string) (e : environment)
      (req : request) (q1 q2 q3 q4 : Q) (text : string) :
  getBearerToken (STRAVA_ACCESS_TOKEN e) req <> "" ->
  numberOr (body_rpm req) 15 = inr (Fin q1) -> (1 <= q1)%Q ->
  numberOr (body_per_page req) 200 = inr (Fin q2) ->
  (1 <= q2)%Q -> (q2 <= 200)%Q ->
  numberOr (body_start_page req) 1 = inr (Fin q3) -> (1 <= q3)%Q ->
  numberOr (body_max_pages req) 0 = inr (Fin q4) -> (0 <= q4)%Q ->
  stringOr NumberToString (body_name req) = inr text ->
  validate NumberToString e req
  = inr (mkParams (getBearerToken (STRAVA_ACCESS_TOKEN e) req) q1 q2 q3 q4
                  (trim text)).
Proof.
  intros. apply validate_inr. simpl. repeat split; auto.
  exists text. split; [assumption|reflexivity].
Qed.

(** A number that the handler has converted is a double. *)
Lemma stringToNumber_range (s : string) (q : Q) :
  stringToNumber s = Fin q -> (- pow2 1024 < q)%Q /\ (q < pow2 1024)%Q.
Proof.
  assert (H0 : (- pow2 1024 < 0)%Q /\ (0 < pow2 1024)%Q).
  { split; [|apply pow2_pos].
    apply (Qopp_lt_compat 0 (pow2 1024)), pow2_pos. }
  assert (Hr : forall radix t, radixLiteral radix t = Fin q ->
                                (- pow2 1024 < q)%Q /\ (q < pow2 1024)%Q).
  { intros radix t. unfold radixLiteral.
    destruct (readDigits radix 0 0 t) as [[v n] r].
    destruct ((n =? 0) || negb (r =? "")%string); [discriminate|].
    apply toDouble_range. }
  assert (Hs : forall t, signedLiteral t = Fin q ->
                         (- pow2 1024 < q)%Q /\ (q < pow2 1024)%Q).
  { intros t. unfold signedLiteral. destruct (readSign t) as [neg r].
    destruct (r =? "Infinity")%string; [destruct neg; discriminate|].
    destruct (decimalLiteral r) as [x|]; [|discriminate].
    apply toDouble_range. }
  unfold stringToNumber. destruct (trim s) as [|c [|x r]].
  - intros H. assert (q = 0%Q) by congruence. subst q. exact H0.
  - apply Hs.
  - destruct (Ascii.eqb c "0" && (Ascii.eqb x "x" || Ascii.eqb x "X")); [apply Hr|].
    destruct (Ascii.eqb c "0" && (Ascii.eqb x "o" || Ascii.eqb x "O")); [apply Hr|].
    destruct (Ascii.eqb c "0" && (Ascii.eqb x "b" || Ascii.eqb x "B")); [apply Hr|].
    apply Hs.
Qed.

Lemma jsNumber_range (v : json) :
  forall q, jsNumber v = Fin q -> (- pow2 1024 < q)%Q /\ (q < pow2 1024)%Q.
Proof.
  assert (H0 : forall q, Fin 0 = Fin q -> (- pow2 1024 < q)%Q /\ (q < pow2 1024)%Q).
  { intros q H. assert (q = 0%Q) by congruence. subst q.
    split; [|apply pow2_pos].
    apply (Qopp_lt_compat 0 (pow2 1024)), pow2_pos. }
  assert (H1 : forall q, Fin 1 = Fin q -> (- pow2 1024 < q)%Q /\ (q < pow2 1024)%Q).
  { intros q H. assert (q = 1%Q) by congruence. subst q.
    split.
    - apply Qlt_trans with 0%Q; [|reflexivity].
      apply (Qopp_lt_compat 0 (pow2 1024)), pow2_pos.
    - apply (small_in_range 1). lia. }
  revert v. fix IH 1. intros v q.
  destruct v as [|b|n|s|items|fields]; simpl.
  - apply H0.
  - destruct b; [apply H1|apply H0].
  - apply toDouble_range.
  - apply stringToNumber_range.
  - destruct items as [|x [|y rest]]; [apply H0| |discriminate].
    pose proof (IH x q) as IHx.
    destruct x as [|b|n|s|items|fields]; try discriminate; exact IHx.
  - discriminate.
Qed.

Lemma numberOr_range (field : option json) (dflt : Z) (q : Q) :
  0 <= dflt <= 2 ^ 53 ->
  numberOr field (inject_Z dflt) = inr (Fin q) -> (q < pow2 1024)%Q.
Proof.
  intros Hd. unfold numberOr, toNumber.
  assert (H0 : inr (Fin (inject_Z dflt)) = inr (A := exn) (Fin q) -> (q < pow2 1024)%Q).
  { intros H. assert (q = inject_Z dflt) by congruence. subst q.
    apply small_in_range. lia. }
  destruct field as [v|]; [|exact H0].
  destruct v as [|b|n|s|items|fields]; [exact H0| | | | |];
    match goal with
    | |- context [throwsToString ?v] =>
        destruct (throwsToString v); [discriminate|];
        intros H; apply (jsNumber_range v); congruence
    end.
Qed.

(** ** The rate budget *)

(** For [rpm >= 1] the quotient and the product of [minIntervalMs] are
    finite doubles between the least positive double and 60000. *)
Lemma minIntervalMs_product (r : Q) :
  (1 <= r)%Q -> (r < pow2 1024)%Q ->
  exists quotient product,
    toDouble (60000 / r) = Fin quotient /\
    toDouble (quotient * 1) = Fin product /\
    minIntervalMs r = Qceiling product /\
    (0 < quotient)%Q /\ (0 < product)%Q /\ (product <= 60000)%Q.
Proof.
  intros Hr Hb.
  assert (Hpos : (0 < r)%Q) by (eapply Qlt_le_trans; [|exact Hr]; reflexivity).
  assert (Hlo : (pow2 (-1074) <= 60000 / r)%Q).
  { apply Qle_shift_div_l; [exact Hpos|].
    apply Qle_trans with (pow2 (-1074) * pow2 1024)%Q.
    - apply Qmult_le_l; [apply pow2_pos|]. apply Qlt_le_weak, Hb.
    - rewrite <- pow2_add. vm_compute. discriminate. }
  assert (Hhi : (60000 / r <= inject_Z 60000)%Q).
  { apply Qle_shift_div_r; [exact Hpos|].
    apply Qle_trans with (inject_Z 60000 * 1)%Q.
    - rewrite Qmult_1_r. apply Qle_refl.
    - apply (proj2 (Qmult_le_l 1 r (inject_Z 60000) eq_refl)). exact Hr. }
  destruct (toDouble_between _ 60000 Hlo Hhi) as (quotient & Eq & Hq1 & Hq2);
    [lia|].
  assert (Hlo' : (pow2 (-1074) <= quotient * 1)%Q) by (rewrite Qmult_1_r; exact Hq1).
  assert (Hhi' : (quotient * 1 <= inject_Z 60000)%Q) by (rewrite Qmult_1_r; exact Hq2).
  destruct (toDouble_between _ 60000 Hlo' Hhi') as (product & Ep & Hp1 & Hp2);
    [lia|].
  exists quotient, product. repeat split; auto.
  - unfold minIntervalMs. rewrite Eq. unfold jsMul. rewrite Ep. reflexivity.
  - apply Qlt_le_trans with (pow2 (-1074)); [apply pow2_pos|exact Hq1].
  - apply Qlt_le_trans with (pow2 (-1074)); [apply pow2_pos|exact Hp1].
Qed.

Lemma minIntervalMs_range (r : Q) :
  (1 <= r)%Q -> (r < pow2 1024)%Q -> 1 <= minIntervalMs r <= 60000.
Proof.
  intros Hr Hb.
  destruct (minIntervalMs_product r Hr Hb)
    as (quotient & product & _ & _ & -> & _ & H0 & H1).
  split.
  - pose proof (Qle_ceiling product) as Hc.
    assert (H2 : (0 < inject_Z (Qceiling product))%Q)
      by (eapply Qlt_le_trans; eassumption).
    change 0%Q with (inject_Z 0) in H2. rewrite <- Zlt_Qlt in H2. lia.
  - apply Qceiling_resp_le in H1.
    change 60000%Q with (inject_Z 60000) in H1. rewrite Qceiling_Z in H1. exact H1.
Qed.


(** The interval is below the exact quotient by less than 2^-37: the
    quotient and the product are rounded. *)
Lemma minIntervalMs_slack (r : Q) :
  (1 <= r)%Q -> (r < pow2 1024)%Q ->
  (60000 / r - pow2 (-37) <= inject_Z (minIntervalMs r))%Q.
Proof.
  intros Hr Hb.
  destruct (minIntervalMs_product r Hr Hb)
    as (quotient & product & Eq & Ep & Em & Hq0 & Hp0 & Hp1).
  assert (Hpos : (0 < r)%Q) by (eapply Qlt_le_trans; [|exact Hr]; reflexivity).
  assert (Hx0 : (0 < 60000 / r)%Q).
  { apply Qlt_shift_div_l; [exact Hpos|]. reflexivity. }
  assert (Hx1 : (60000 / r <= inject_Z 60000)%Q).
  { apply Qle_shift_div_r; [exact Hpos|].
    apply Qle_trans with (inject_Z 60000 * 1)%Q.
    - rewrite Qmult_1_r. apply Qle_refl.
    - apply (proj2 (Qmult_le_l 1 r (inject_Z 60000) eq_refl)). exact Hr. }
  assert (H16 : (inject_Z 60000 < pow2 16)%Q) by reflexivity.
  assert (Hq : (60000 / r - pow2 (-38) <= quotient)%Q).
  { apply toDouble_lower; [exact Hx0| |exact Eq].
    apply Qle_lt_trans with (inject_Z 60000); assumption. }
  destruct (toDouble_below _ 60000 Hx0 Hx1) as (q' & E' & _ & Hq60); [lia|].
  assert (q' = quotient) by congruence. subst q'.
  assert (Hp : (quotient * 1 - pow2 (-38) <= product)%Q).
  { apply toDouble_lower; [rewrite Qmult_1_r; exact Hq0| |exact Ep].
    rewrite Qmult_1_r. apply Qle_lt_trans with (inject_Z 60000); assumption. }
  rewrite Em.
  apply Qle_trans with product; [|apply Qle_ceiling].
  apply Qle_trans with (quotient * 1 - pow2 (-38))%Q; [|exact Hp].
  rewrite Qmult_1_r.
  setoid_replace (60000 / r - pow2 (-37))%Q
    with ((60000 / r - pow2 (-38)) - pow2 (-38))%Q.
  - apply Qplus_le_compat; [exact Hq|apply Qle_refl].
  - assert (E2 : (pow2 (-37) == pow2 (-38) + pow2 (-38))%Q) by reflexivity.
    rewrite E2. ring.
Qed.

(** The validated [rpm] is a double that is at least 1. *)
Lemma validate_rpm (NumberToString : jsnum -> string) (e : environment)
      (req : request) (p : params) :
  validate NumberToString e req = inr p ->
  (1 <= rpm p)%Q /\ (rpm p < pow2 1024)%Q.
Proof.
  intros Hv. apply validate_inr in Hv.
  destruct Hv as (_ & _ & _ & Hn & Hr & _). split; [exact Hr|].
  apply (numberOr_range (body_rpm req) 15); [lia|exact Hn].
Qed.

(** ** Runs of the handler *)

Section Runs.

Variable NumberToString : jsnum -> string.
Variables (e : environment) (req : request).

Lemma resume_cons (p : params) (s : state) (tk : tick) (rest : list tick) :
  reachedMax p s = false ->
  resume NumberToString e p s (tk :: rest) =
  match iteration NumberToString (baseDirOf (cwd e)) p
                  (minIntervalMs (rpm p)) s tk with
  | Continue s' => resume NumberToString e p s' rest
  | Broke s' => writeMeta e (baseDirOf (cwd e)) p s'
  | Returned s' r => Done s' r
  | Threw s' err => Done s' (Next err)
  end.
Proof.
  intros H. unfold resume. simpl. rewrite H.
  destruct (iteration NumberToString (baseDirOf (cwd e)) p
                      (minIntervalMs (rpm p)) s tk); reflexivity.
Qed.

Lemma resume_Pending (p : params) (s s' : state) (script : list tick) :
  resume NumberToString e p s script = Pending s' ->
  loop NumberToString (baseDirOf (cwd e)) p (minIntervalMs (rpm p)) s script
  = Running s'.
Proof.
  unfold resume, writeMeta.
  destruct (loop NumberToString (baseDirOf (cwd e)) p (minIntervalMs (rpm p))
                 s script); try discriminate.
  - intros H. injection H as ->. reflexivity.
  - destruct (meta_written e); discriminate.
Qed.

Lemma resume_app (p : params) (s s' : state) (pre rest : list tick) :
  resume NumberToString e p s pre = Pending s' ->
  resume NumberToString e p s (pre ++ rest) = resume NumberToString e p s' rest.
Proof.
  intros H. apply resume_Pending in H. unfold resume.
  rewrite loop_app, H. reflexivity.
Qed.

Lemma extractAll_Pending (script : list tick) (s : state) :
  extractAll NumberToString e req script = Pending s ->
  exists p, validate NumberToString e req = inr p /\
            resume NumberToString e p (entered e p) script = Pending s.
Proof.
  unfold extractAll. destruct (validate NumberToString e req) as [r|p]; [discriminate|].
  destruct (mkdir_settles e); [|discriminate].
  intros H. exists p. split; [reflexivity|exact H].
Qed.

(** A run that stands pending on [pre] goes on from its state. *)
Lemma extractAll_extend (pre : list tick) (s : state) :
  extractAll NumberToString e req pre = Pending s ->
  exists p,
    validate NumberToString e req = inr p /\
    reachedMax p s = false /\
    forall rest, extractAll NumberToString e req (pre ++ rest)
                 = resume NumberToString e p s rest.
Proof.
  intros H. destruct (extractAll_Pending _ _ H) as (p & Hv & Hr).
  exists p. split; [exact Hv|]. split.
  - eapply loop_Running. apply resume_Pending. exact Hr.
  - intros rest. unfold extractAll in *. rewrite Hv in *.
    destruct (mkdir_settles e); [|discriminate].
    apply resume_app. exact Hr.
Qed.

Lemma pagesInv_entered (p : params) :
  pagesInv NumberToString (baseDirOf (cwd e)) p (entered e p).
Proof. exists 0%nat. repeat split. Qed.

Lemma paceInv_entered (p : params) (m : Z) :
  0 < arrival e -> paceInv m (entered e p).
Proof.
  intros H. unfold paceInv. simpl. repeat split; try lia. constructor.
Qed.

Lemma pagesInv_resume (p : params) (s : state) (script : list tick) :
  pagesInv NumberToString (baseDirOf (cwd e)) p s ->
  pagesInv NumberToString (baseDirOf (cwd e)) p
           (runState (resume NumberToString e p s script)).
Proof.
  intros Hs.
  pose proof (loop_invariant NumberToString (baseDirOf (cwd e)) p
                (minIntervalMs (rpm p)) _
                (fun s tk H _ => pagesInv_iteration NumberToString _ p _ s tk H)
                script s Hs) as H.
  unfold resume, writeMeta.
  destruct (loop NumberToString (baseDirOf (cwd e)) p (minIntervalMs (rpm p))
                 s script) as [s'|s'|s' r|s' err]; simpl in *; auto.
  destruct H as (n & Hn & Hp & Hf).
  destruct (meta_written e); exists n; simpl;
    rewrite pageFiles_app, Hf; simpl; rewrite app_nil_r; auto.
Qed.

Lemma paceInv_resume (p : params) (s : state) (script : list tick) :
  (1 <= rpm p)%Q -> (rpm p < pow2 1024)%Q ->
  paceInv (minIntervalMs (rpm p)) s ->
  paceInv (minIntervalMs (rpm p))
          (runState (resume NumberToString e p s script)).
Proof.
  intros Hr Hb Hs.
  assert (Hm : 1 <= minIntervalMs (rpm p) <= 2147483647)
    by (pose proof (minIntervalMs_range _ Hr Hb); lia).
  pose proof (loop_invariant NumberToString (baseDirOf (cwd e)) p
                (minIntervalMs (rpm p)) _
                (fun s tk H _ =>
                   paceInv_iteration NumberToString _ p _ Hm s tk H)
                script s Hs) as H.
  unfold resume, writeMeta.
  destruct (loop NumberToString (baseDirOf (cwd e)) p (minIntervalMs (rpm p))
                 s script) as [s'|s'|s' r|s' err]; simpl in *; auto.
  destruct H as (H1 & H2 & H3 & H4 & H5).
  destruct (meta_written e); unfold paceInv; simpl;
    rewrite sendTimes_app; simpl; rewrite app_nil_r; auto.
Qed.

(** While the loop runs no manifest is written. *)
Lemma manifestWrites_loop (p : params) (m : Z) (script : list tick) :
  forall s,
    manifestWrites
      (trace (exitState (loop NumberToString (baseDirOf (cwd e)) p m s script)))
    = manifestWrites (trace s).
Proof.
  induction script as [|tk script IH]; intros s; simpl.
  - destruct (reachedMax p s); reflexivity.
  - destruct (reachedMax p s); [reflexivity|].
    pose proof (manifestWrites_iteration NumberToString (baseDirOf (cwd e))
                  p m s tk) as H.
    destruct (iteration NumberToString (baseDirOf (cwd e)) p m s tk);
      simpl in *; try exact H.
    rewrite IH. exact H.
Qed.

(** What holds of a run that stands pending. *)
Lemma pending_facts (pre : list tick) (s : state) (p : params) :
  extractAll NumberToString e req pre = Pending s ->
  validate NumberToString e req = inr p ->
  pagesInv NumberToString (baseDirOf (cwd e)) p s /\
  manifestWrites (trace s) = [].
Proof.
  intros H Hv. destruct (extractAll_Pending _ _ H) as (p' & Hv' & Hr).
  rewrite Hv in Hv'. injection Hv' as <-. split.
  - pose proof (pagesInv_resume p (entered e p) pre (pagesInv_entered p)) as Hi.
    rewrite Hr in Hi. exact Hi.
  - apply resume_Pending in Hr.
    pose proof (manifestWrites_loop p (minIntervalMs (rpm p)) pre (entered e p))
      as Hm.
    rewrite Hr in Hm. exact Hm.
Qed.

End Runs.

(** ** Replies *)

Section Replies.

Variable NumberToString : jsnum -> string.
Variables (e : environment) (req : request).

(** The loop itself only returns error replies. *)
Lemma loop_Return (baseDir : path) (p : params) (m : Z) (script : list tick) :
  forall s s' r,
    loop NumberToString baseDir p m s script = Return s' r ->
    exists code msg details, r = Json code (ErrorBody msg details).
Proof.
  induction script as [|tk script IH]; intros s s' r; simpl.
  - destruct (reachedMax p s); discriminate.
  - destruct (reachedMax p s); [discriminate|].
    destruct (iteration NumberToString baseDir p m s tk) as [s1|s1|s1 r1|s1 e1]
      eqn:E; try discriminate.
    + apply IH.
    + intros H. injection H as <- <-. revert E. unfold iteration.
      destruct (fetched tk) as [a|]; [|discriminate].
      destruct (status a =? 401); [intros H; injection H as <- <-; eauto|].
      destruct (status a =? 429); [discriminate|].
      destruct ((status a <? 200) || (300 <=? status a));
        [intros H; injection H as <- <-; eauto|].
      destruct (asArray (data a)) as [[|x items]|];
        [discriminate| |intros H; injection H as <- <-; eauto].
      destruct (written tk); discriminate.
Qed.

(** A run that ends with the 200 reply left the loop by [break] and wrote
    the manifest. *)
Lemma completed_run (p : params) (script : list tick) (s : state)
      (dir : path) (m : meta) :
  validate NumberToString e req = inr p ->
  extractAll NumberToString e req script = Done s (Json 200 (OkBody dir m)) ->
  exists s0,
    loop NumberToString (baseDirOf (cwd e)) p (minIntervalMs (rpm p))
         (entered e p) script = Break s0 /\
    dir = baseDirOf (cwd e) /\
    m = mkMeta (if (name p =? "")%string then None else Some (name p))
               (perPage p) (startPage p) (fetchedPages s0) (clock s0) /\
    s = log (WriteFile (pathJoin (baseDirOf (cwd e)) "meta.json")
                       (Manifest m) true) s0.
Proof.
  intros Hv. unfold extractAll. rewrite Hv.
  destruct (mkdir_settles e); [|discriminate].
  unfold resume.
  destruct (loop NumberToString (baseDirOf (cwd e)) p (minIntervalMs (rpm p))
                 (entered e p) script) as [s1|s1|s1 r|s1 err] eqn:E;
    try discriminate.
  - unfold writeMeta. destruct (meta_written e); [|discriminate].
    intros H. injection H as <- <- <-. exists s1. auto.
  - intros H. injection H as <- ->.
    destruct (loop_Return _ _ _ _ _ _ _ E) as (c & msg & d & Hr). discriminate.
Qed.

End Replies.

(** ** Page numbers *)

(** Adding 1 to a whole number is exact up to 2^53. *)
Lemma jsAdd_one (z : Z) :
  - 2 ^ 53 <= z < 2 ^ 53 ->
  jsAdd (Fin (inject_Z z)) (Fin 1) = Fin (inject_Z (z + 1)).
Proof.
  intros Hz. unfold jsAdd.
  rewrite (toDouble_comp _ (inject_Z (z + 1))).
  - apply toDouble_Z. lia.
  - rewrite inject_Z_plus. reflexivity.
Qed.

(** At 2^53 adding 1 changes nothing: 2^53 + 1 is half way between two
    doubles and is rounded to the even one. *)
Lemma jsAdd_one_stuck :
  jsAdd (Fin (inject_Z (2 ^ 53))) (Fin 1) = Fin (inject_Z (2 ^ 53)).
Proof. vm_compute. reflexivity. Qed.

(** From a whole start page, the page numbers are the next whole numbers as
    long as they do not pass 2^53. *)
Lemma nthPage_value (z : Z) (k : nat) :
  - 2 ^ 53 <= z -> z + Z.of_nat k <= 2 ^ 53 ->
  nthPage (inject_Z z) k = Fin (inject_Z (z + Z.of_nat k)).
Proof.
  intros Hz. induction k as [|k IH]; intros Hk.
  - simpl. rewrite Z.add_0_r. reflexivity.
  - change (nthPage (inject_Z z) (S k))
      with (jsAdd (nthPage (inject_Z z) k) (Fin 1)).
    rewrite IH by lia. rewrite jsAdd_one by lia.
    do 2 f_equal. lia.
Qed.

(** ** Traces only grow *)

Section Growth.

Variable NumberToString : jsnum -> string.
Variables (e : environment) (p : params).

Lemma iteration_trace (baseDir : path) (m : Z) (s : state) (tk : tick) :
  exists new,
    trace (flowState (iteration NumberToString baseDir p m s tk))
    = (trace (send p m tk s) ++ new)%list.
Proof.
  destruct (iteration_cases NumberToString baseDir p m s tk)
    as [(e1 & ->)|[(r & ->)|[(ms & lag & ->)|[->|[(items & e1 & ->)|(items & ->)]]]]];
    simpl; try (exists []; rewrite app_nil_r; reflexivity); eauto.
Qed.

Lemma loop_trace (baseDir : path) (m : Z) (script : list tick) :
  forall s, exists new,
    trace (exitState (loop NumberToString baseDir p m s script))
    = (trace s ++ new)%list.
Proof.
  induction script as [|tk script IH]; intros s; simpl.
  - exists []. rewrite app_nil_r. destruct (reachedMax p s); reflexivity.
  - destruct (reachedMax p s); [exists []; rewrite app_nil_r; reflexivity|].
    destruct (iteration_trace baseDir m s tk) as (n1 & H1).
    destruct (send_spec p m tk s) as (pre & _ & H2 & _).
    rewrite H2 in H1.
    destruct (iteration NumberToString baseDir p m s tk) as [s1|s1|s1 r|s1 err];
      simpl in *; try (rewrite H1, <- app_assoc; eauto).
    destruct (IH s1) as (n2 & H3). rewrite H3, H1, <- !app_assoc. eauto.
Qed.

Lemma resume_trace (s : state) (script : list tick) :
  exists new,
    trace (runState (resume NumberToString e p s script))
    = (trace s ++ new)%list.
Proof.
  destruct (loop_trace (baseDirOf (cwd e)) (minIntervalMs (rpm p)) script s)
    as (n1 & H1).
  unfold resume, writeMeta.
  destruct (loop NumberToString (baseDirOf (cwd e)) p (minIntervalMs (rpm p))
                 s script) as [s1|s1|s1 r|s1 err]; simpl in *; eauto.
  destruct (meta_written e); simpl; rewrite H1, <- app_assoc; eauto.
Qed.

Lemma resume_cons_trace (s : state) (tk : tick) (rest : list tick) :
  reachedMax p s = false ->
  exists new,
    trace (runState (resume NumberToString e p s (tk :: rest)))
    = (trace (send p (minIntervalMs (rpm p)) tk s) ++ new)%list.
Proof.
  intros H. rewrite resume_cons by exact H.
  destruct (iteration_trace (baseDirOf (cwd e)) (minIntervalMs (rpm p)) s tk)
    as (n1 & H1).
  destruct (iteration NumberToString (baseDirOf (cwd e)) p
                      (minIntervalMs (rpm p)) s tk) as [s1|s1|s1 r|s1 err];
    simpl in *; eauto.
  - destruct (resume_trace s1 rest) as (n2 & H2).
    rewrite H2, H1, <- app_assoc. eauto.
  - unfold writeMeta. destruct (meta_written e); simpl;
      rewrite H1, <- app_assoc; eauto.
Qed.


End Growth.

(** ** Decimal numerals *)

Lemma digitsValue_acc (d : Decimal.uint) :
  forall acc : positive,
    digitsValue (Zpos acc) (DecimalString.NilEmpty.string_of_uint d)
    = Zpos (Pos.of_uint_acc d acc).
Proof.
  induction d; intro acc;
    cbn [DecimalString.NilEmpty.string_of_uint digitsValue Pos.of_uint_acc];
    [reflexivity|..]; rewrite <- IHd; f_equal;
    match goal with
    | |- context [Z.of_nat (nat_of_ascii ?c)] =>
        let v := eval vm_compute in (Z.of_nat (nat_of_ascii c)) in
        change (Z.of_nat (nat_of_ascii c)) with v
    end; lia.
Qed.

Lemma digitsValue_uint (d : Decimal.uint) :
  digitsValue 0 (DecimalString.NilEmpty.string_of_uint d) = Z.of_N (Pos.of_uint d).
Proof.
  induction d;
    cbn [DecimalString.NilEmpty.string_of_uint digitsValue Pos.of_uint];
    [reflexivity|exact IHd|..];
    rewrite N2Z.inj_pos, <- digitsValue_acc; f_equal.
Qed.

Lemma allDigits_uint (d : Decimal.uint) :
  allDigits (DecimalString.NilEmpty.string_of_uint d) = true.
Proof. induction d; simpl; auto. Qed.

(** The header value that spells [n] in decimal is a string of digits whose
    number is [n]. *)
Lemma numeral_digits (n : N) :
  let s := DecimalString.NilZero.string_of_uint (N.to_uint n) in
  isDigits s = true /\ digitsValue 0 s = Z.of_N n.
Proof.
  intros s. subst s.
  rewrite <- (DecimalN.Unsigned.of_to n) at 3. unfold N.of_uint.
  generalize (N.to_uint n) as d. intros d. split.
  - pose proof (allDigits_uint d) as H. destruct d; simpl in *; auto.
  - pose proof (digitsValue_uint d) as H. destruct d; simpl in *; auto.
Qed.

(** ** The backoff *)

Lemma digitsValue_nonneg (s : string) :
  forall acc, 0 <= acc -> allDigits s = true -> 0 <= digitsValue acc s.
Proof.
  induction s as [|c r IH]; intros acc Hacc Hd; cbn [digitsValue];
    [exact Hacc|].
  cbn [allDigits] in Hd. apply andb_prop in Hd. destruct Hd as [Hc Hr].
  apply IH; [|exact Hr].
  unfold isDigit in Hc. cbv zeta in Hc.
  apply andb_prop in Hc. destruct Hc as [Hc _].
  apply Nat.leb_le in Hc. lia.
Qed.

(** The backoff for a header of digits: their number times 1000, as long as
    this is at most 2^53. *)
Lemma retryMs_digits (h : string) :
  isDigits h = true ->
  digitsValue 0 h * 1000 <= 2 ^ 53 ->
  retryMs (Some h) = Fin (inject_Z (digitsValue 0 h * 1000)).
Proof.
  intros Hd Hn.
  assert (Ha : allDigits h = true) by (destruct h; [discriminate|exact Hd]).
  pose proof (digitsValue_nonneg h 0 (Z.le_refl 0) Ha) as H0.
  unfold retryMs. rewrite Hd.
  rewrite toDouble_Z by lia. unfold jsMul.
  rewrite (toDouble_comp _ (inject_Z (digitsValue 0 h * 1000))).
  - apply toDouble_Z. lia.
  - rewrite inject_Z_mult. reflexivity.
Qed.

(** The backoff for a header that spells [n]: [n * 1000] as long as this is
    at most 2^53. *)
Lemma retryMs_numeral (n : N) :
  Z.of_N n * 1000 <= 2 ^ 53 ->
  retryMs (Some (DecimalString.NilZero.string_of_uint (N.to_uint n)))
  = Fin (inject_Z (Z.of_N n * 1000)).
Proof.
  intros Hn. destruct (numeral_digits n) as [H1 H2].
  rewrite retryMs_digits; rewrite ?H2; auto.
Qed.

(** Above 2147483 seconds the backoff is more than a timer takes. *)
Lemma retryMs_numeral_large (n : N) (q : Q) :
  2147483 < Z.of_N n ->
  retryMs (Some (DecimalString.NilZero.string_of_uint (N.to_uint n))) = Fin q ->
  (2147483647 < q)%Q.
Proof.
  intros Hn. destruct (numeral_digits n) as [H1 H2].
  unfold retryMs. rewrite H1, H2.
  assert (H0 : (0 < inject_Z (Z.of_N n))%Q).
  { change 0%Q with (inject_Z 0). rewrite <- Zlt_Qlt. lia. }
  assert (Hc : (inject_Z 2147484 <= inject_Z (Z.of_N n))%Q).
  { rewrite <- Zle_Qle. lia. }
  destruct (toDouble_above _ 2147484 H0 Hc) as [E | (a & E & Ha)]; [lia| |];
    rewrite E; unfold jsMul.
  - simpl. discriminate.
  - assert (Ha0 : (0 < a * 1000)%Q).
    { apply Qlt_le_trans with (inject_Z 2147484 * 1000)%Q; [reflexivity|].
      apply Qmult_le_compat_r; [exact Ha|discriminate]. }
    assert (Ha1 : (inject_Z 2147484000 <= a * 1000)%Q).
    { apply Qle_trans with (inject_Z 2147484 * 1000)%Q; [discriminate|].
      apply Qmult_le_compat_r; [exact Ha|discriminate]. }
    destruct (toDouble_above _ 2147484000 Ha0 Ha1) as [E' | (b & E' & Hb)];
      [lia| |]; rewrite E'; [discriminate|].
    intros H. assert (q = b) by congruence. subst q.
    apply Qlt_le_trans with (inject_Z 2147484000); [reflexivity|exact Hb].
Qed.

(** How long the timer of the backoff takes, for a header that spells
    [n]. *)
Lemma timerDelay_retry (n : N) :
  timerDelay (retryMs (Some (DecimalString.NilZero.string_of_uint (N.to_uint n))))
  = if (1 <=? Z.of_N n) && (Z.of_N n <=? 2147483) then Z.of_N n * 1000 else 1.
Proof.
  destruct (Z.leb_spec 1 (Z.of_N n)) as [H1|H1]; cbn [andb].
  - destruct (Z.leb_spec (Z.of_N n) 2147483) as [H2|H2].
    + rewrite retryMs_numeral by lia. apply timerDelay_id. lia.
    + apply timerDelay_overflow. intros q. apply retryMs_numeral_large. exact H2.
  - assert (n = 0%N) by lia. subst n. reflexivity.
Qed.

(** ** Throttling *)

Lemma reachedMax_fetchedPages (p : params) (s s' : state) :
  fetchedPages s' = fetchedPages s -> reachedMax p s' = reachedMax p s.
Proof. intros H. unfold reachedMax. rewrite H. reflexivity. Qed.

Section Throttling.

Variable NumberToString : jsnum -> string.
Variables (e : environment) (p : params).

Lemma resume_nil (s : state) :
  reachedMax p s = false -> resume NumberToString e p s [] = Pending s.
Proof. intros H. unfold resume. simpl. rewrite H. reflexivity. Qed.

Lemma resume_throttled (tks : list tick) :
  forall s,
    Forall throttled tks ->
    reachedMax p s = false ->
    exists s',
      resume NumberToString e p s tks = Pending s' /\
      page s' = page s /\
      fetchedPages s' = fetchedPages s /\
      pageFiles (trace s') = pageFiles (trace s) /\
      requestedPages (trace s')
      = (requestedPages (trace s) ++ repeat (page s) (List.length tks))%list.
Proof.
  induction tks as [|tk tks IH]; intros s Hall Hmax.
  - exists s. rewrite resume_nil by exact Hmax. simpl.
    rewrite app_nil_r. auto.
  - inversion Hall as [|tk' tks' (r & Hf & Hst) Hall']; subst.
    rewrite resume_cons by exact Hmax.
    rewrite (iteration_throttled _ _ _ _ _ _ _ Hf Hst).
    set (m := minIntervalMs (rpm p)).
    destruct (send_spec p m tk s) as (pre & _ & _ & Hp1 & Hf1 & _).
    set (s1 := sleep (retryMs (retry_after r)) (backoff_lag tk) (send p m tk s)).
    assert (Hp : page s1 = page s) by exact Hp1.
    assert (Hfp : fetchedPages s1 = fetchedPages s) by exact Hf1.
    destruct (IH s1 Hall') as (s' & Hr & H1 & H2 & H3 & H4).
    { rewrite (reachedMax_fetchedPages p s s1 Hfp). exact Hmax. }
    exists s'. split; [exact Hr|]. rewrite H1, H2, H3, H4, Hp, Hfp.
    repeat split.
    + unfold s1. simpl. rewrite pageFiles_app. simpl. rewrite app_nil_r.
      apply send_pageFiles.
    + unfold s1. simpl. rewrite requestedPages_app. simpl.
      rewrite app_nil_r, send_requestedPages, <- app_assoc. reflexivity.
Qed.

End Throttling.

(** ** Runs without a page limit *)

(** A request that is not accepted ends with a 400 reply, or with
    [next(err)] when a conversion throws. *)
Lemma validate_inl (NumberToString : jsnum -> string) (e : environment)
      (req : request) (rep : reply) :
  validate NumberToString e req = inl rep ->
  (exists msg, rep = bad msg) \/ rep = Next cannotConvert.
Proof.
  assert (Hn : forall field dflt err,
             numberOr field dflt = inl err -> err = cannotConvert).
  { intros field dflt err. unfold numberOr, toNumber.
    destruct field as [[|b|n|s|items|fields]|]; try discriminate;
      match goal with
      | |- context [throwsToString ?v] => destruct (throwsToString v)
      end; congruence. }
  assert (Hs : forall field err,
             stringOr NumberToString field = inl err -> err = cannotConvert).
  { intros field err. unfold stringOr, toString.
    destruct field as [[|b|n|s|items|fields]|]; try discriminate;
      match goal with
      | |- context [throwsToString ?v] => destruct (throwsToString v)
      end; congruence. }
  unfold validate.
  destruct (getBearerToken (STRAVA_ACCESS_TOKEN e) req =? "")%string;
    [intros H; left; injection H as <-; eauto|].
  destruct (numberOr (body_rpm req) 15) as [err|n1] eqn:E1;
    [intros H; right; rewrite (Hn _ _ _ E1) in H; congruence|].
  destruct (numberOr (body_per_page req) 200) as [err|n2] eqn:E2;
    [intros H; right; rewrite (Hn _ _ _ E2) in H; congruence|].
  destruct (numberOr (body_start_page req) 1) as [err|n3] eqn:E3;
    [intros H; right; rewrite (Hn _ _ _ E3) in H; congruence|].
  destruct (numberOr (body_max_pages req) 0) as [err|n4] eqn:E4;
    [intros H; right; rewrite (Hn _ _ _ E4) in H; congruence|].
  destruct (stringOr NumberToString (body_name req)) as [err|text] eqn:E5;
    [intros H; right; rewrite (Hs _ _ E5) in H; congruence|].
  destruct (checked n1 _); [|intros H; left; injection H as <-; eauto].
  destruct (checked n2 _); [|intros H; left; injection H as <-; eauto].
  destruct (checked n3 _); [|intros H; left; injection H as <-; eauto].
  destruct (checked n4 _);
    [discriminate|intros H; left; injection H as <-; eauto].
Qed.

Lemma reachedMax_unbounded (p : params) (s : state) :
  (maxPages p == 0)%Q -> reachedMax p s = false.
Proof.
  intros H. unfold reachedMax, truthy.
  apply Qeq_bool_iff in H. rewrite H. reflexivity.
Qed.

Section Unbounded.

Variable NumberToString : jsnum -> string.
Variables (e : environment) (p : params).
Hypothesis unbounded : (maxPages p == 0)%Q.

Lemma resume_stored (script : list tick) :
  forall s,
    Forall stored script ->
    exists s',
      resume NumberToString e p s script = Pending s' /\
      fetchedPages s' = fetchedPages s + Z.of_nat (List.length script).
Proof.
  induction script as [|tk script IH]; intros s Hall.
  - exists s. rewrite resume_nil by (apply reachedMax_unbounded; exact unbounded).
    simpl. split; [reflexivity|lia].
  - inversion Hall as [|tk' script' (r & x & items & Hf & Hst & Hd & Hw) Hall'];
      subst.
    rewrite resume_cons by (apply reachedMax_unbounded; exact unbounded).
    rewrite (iteration_2xx _ _ _ _ _ _ _ Hf Hst), Hd. simpl. rewrite Hw.
    destruct (send_spec p (minIntervalMs (rpm p)) tk s)
      as (w & _ & _ & _ & Hf1 & _).
    match goal with
    | |- exists s', resume _ _ _ ?s1 _ = _ /\ _ =>
        destruct (IH s1 Hall') as (s' & Hr & Hn)
    end.
    exists s'. split; [exact Hr|]. rewrite Hn. simpl. rewrite Hf1. lia.
Qed.

End Unbounded.

(** ** Trimming *)

Lemma trimStart_clean (s : string) : startsClean (trimStart s).
Proof.
  induction s as [|c r IH]; simpl; [exact I|].
  destruct (isSpace c) eqn:E; [exact IH|exact E].
Qed.

Lemma trimStart_idem (s : string) : trimStart (trimStart s) = trimStart s.
Proof.
  induction s as [|c r IH]; simpl; [reflexivity|].
  destruct (isSpace c) eqn:E; [exact IH|]. simpl. rewrite E. reflexivity.
Qed.

Lemma trimEnd_starts (s : string) : startsClean s -> startsClean (trimEnd s).
Proof.
  destruct s as [|c r]; simpl; [auto|]. intros H.
  destruct (trimEnd r); [rewrite H|]; exact H.
Qed.

Lemma trimEnd_clean (s : string) : endsClean (trimEnd s).
Proof.
  induction s as [|c r IH]; simpl; [exact I|].
  destruct (trimEnd r) as [|a r'] eqn:E.
  - destruct (isSpace c) eqn:Ec; simpl; auto.
  - exact IH.
Qed.

Lemma matchBearer_plain (t : string) :
  matchBearer ("Bearer " ++ t) = Some (trimStart t).
Proof. reflexivity. Qed.

(** ** File names *)

Lemma append_assoc (a b c : string) : (a ++ b) ++ c = a ++ (b ++ c).
Proof. induction a as [|x a IH]; simpl; [reflexivity|rewrite IH; reflexivity]. Qed.

Lemma hasChar_append (c : ascii) (a b : string) :
  hasChar c (a ++ b) = hasChar c a || hasChar c b.
Proof.
  induction a as [|x a IH]; simpl; [reflexivity|].
  rewrite IH, orb_assoc. reflexivity.
Qed.


Section FileNames.

Variable NumberToString : jsnum -> string.





End FileNames.

Lemma splitSlash_one (f : string) : hasChar "/" f = false -> splitSlash f = [f].
Proof.
  induction f as [|c r IH]; simpl; [reflexivity|].
  intros H. apply orb_false_iff in H. destruct H as [Hc Hr].
  rewrite (IH Hr), Hc. reflexivity.
Qed.


Lemma pathJoin_meta (dir : path) :
  pathJoin dir "meta.json" = (dir ++ ["meta.json"])%list.
Proof. unfold pathJoin. simpl. rewrite rev_involutive. reflexivity. Qed.

(** ** The page files of one run *)

Lemma length_append (a b : string) :
  String.length (a ++ b) = (String.length a + String.length b)%nat.
Proof. induction a as [|x a IH]; simpl; [reflexivity|rewrite IH; reflexivity]. Qed.

Lemma append_inv_head (a b c : string) : a ++ b = a ++ c -> b = c.
Proof.
  induction a as [|x a IH]; simpl; intros H; [exact H|].
  injection H as H. exact (IH H).
Qed.

Lemma append_inv_tail (a : string) :
  forall b c, a ++ c = b ++ c -> a = b.
Proof.
  induction a as [|x a IH]; intros [|y b] c H; simpl in H.
  - reflexivity.
  - exfalso. apply (f_equal String.length) in H. simpl in H.
    rewrite length_append in H. lia.
  - exfalso. apply (f_equal String.length) in H. simpl in H.
    rewrite length_append in H. lia.
  - injection H as -> H. rewrite (IH b c H). reflexivity.
Qed.

(** What is appended to a string without a separator goes to its last
    segment. *)
Lemma splitSlash_snoc (a : string) :
  exists init l,
    splitSlash a = (init ++ [l])%list /\
    forall b, hasChar "/" b = false ->
              splitSlash (a ++ b) = (init ++ [(l ++ b)%string])%list.
Proof.
  induction a as [|c r (init & l & E & IH)].
  - exists [], "". split; [reflexivity|]. intros b Hb. simpl.
    apply splitSlash_one, Hb.
  - destruct init as [|i0 init].
    + destruct (Ascii.eqb c "/") eqn:Ec.
      * exists [""], l. split.
        -- simpl. rewrite E. simpl. rewrite Ec. reflexivity.
        -- intros b Hb. simpl. rewrite (IH b Hb). simpl. rewrite Ec. reflexivity.
      * exists [], (String c l). split.
        -- simpl. rewrite E. simpl. rewrite Ec. reflexivity.
        -- intros b Hb. simpl. rewrite (IH b Hb). simpl. rewrite Ec. reflexivity.
    + destruct (Ascii.eqb c "/") eqn:Ec.
      * exists ("" :: i0 :: init), l. split.
        -- simpl. rewrite E. simpl. rewrite Ec. reflexivity.
        -- intros b Hb. simpl. rewrite (IH b Hb). simpl. rewrite Ec. reflexivity.
      * exists (String c i0 :: init), l. split.
        -- simpl. rewrite E. simpl. rewrite Ec. reflexivity.
        -- intros b Hb. simpl. rewrite (IH b Hb). simpl. rewrite Ec. reflexivity.
Qed.

(** A last segment that holds a [j] is kept as it is. *)
Lemma normalize_snoc (segs : list string) :
  forall stack, exists kept,
    forall x, hasChar "j" x = true ->
              normalize stack (segs ++ [x]) = (kept ++ [x])%list.
Proof.
  induction segs as [|seg segs IH]; intros stack.
  - exists (rev stack). intros x Hx. simpl.
    destruct (String.eqb_spec x "") as [->|_]; [discriminate|].
    destruct (String.eqb_spec x ".") as [->|_]; [discriminate|].
    destruct (String.eqb_spec x "..") as [->|_]; [discriminate|].
    reflexivity.
  - simpl. destruct ((seg =? "")%string || (seg =? ".")%string); [apply IH|].
    destruct (seg =? "..")%string; apply IH.
Qed.

Lemma pathJoin_tail (dir : path) (pre : string) :
  exists kept l,
    forall t, hasChar "/" t = false -> hasChar "j" t = true ->
              pathJoin dir (pre ++ t) = (kept ++ [(l ++ t)%string])%list.
Proof.
  destruct (splitSlash_snoc pre) as (init & l & _ & Hs).
  destruct (normalize_snoc init (rev dir)) as (kept & Hn).
  exists kept, l. intros t Ht Hj. unfold pathJoin.
  rewrite (Hs t Ht). apply Hn.
  rewrite hasChar_append, Hj. apply orb_true_r.
Qed.

Section PageFiles.

Variable NumberToString : jsnum -> string.

(** The page files of two page numbers that are written differently are
    different files, whatever the prefix. *)
Lemma outPath_inj_page (dir : path) (n : string) (p1 p2 : jsnum) :
  hasChar "/" (NumberToString p1) = false ->
  hasChar "/" (NumberToString p2) = false ->
  outPath NumberToString dir n p1 = outPath NumberToString dir n p2 ->
  NumberToString p1 = NumberToString p2.
Proof.
  intros H1 H2. unfold outPath.
  assert (E : forall pg,
             filename NumberToString n pg
             = (if (n =? "")%string then "page_" else n ++ "_page_")
                 ++ (NumberToString pg ++ ".json")).
  { intros pg. unfold filename. destruct (n =? "")%string; [reflexivity|].
    rewrite append_assoc. reflexivity. }
  rewrite !E.
  destruct (pathJoin_tail dir (if (n =? "")%string then "page_" else n ++ "_page_"))
    as (kept & l & Hj).
  rewrite !Hj;
    try (rewrite hasChar_append, ?H1, ?H2; reflexivity);
    try (rewrite hasChar_append; simpl; apply orb_true_r).
  intros H. apply app_inv_head in H. injection H as H.
  apply append_inv_head in H. apply append_inv_tail in H. exact H.
Qed.

End PageFiles.

(** ** Decimal numerals of whole numbers *)

Lemma decimal_Z (a : Z) :
  decimal (Fin (inject_Z a)) = DecimalString.NilZero.string_of_int (Z.to_int a).
Proof. unfold decimal. rewrite Qfloor_Z. reflexivity. Qed.

Lemma decimal_inj (a b : Z) :
  decimal (Fin (inject_Z a)) = decimal (Fin (inject_Z b)) -> a = b.
Proof.
  rewrite !decimal_Z. intros H.
  assert (Hn : forall z, Z.to_int z <> Decimal.Pos Decimal.Nil /\
                         Z.to_int z <> Decimal.Neg Decimal.Nil).
  { intros [|q|q]; simpl; split; try discriminate; intros E; injection E as E;
      exact (DecimalPos.Unsigned.to_uint_nonnil _ E). }
  pose proof (DecimalString.NilZero.isi _ (proj1 (Hn a)) (proj2 (Hn a))) as Ha.
  pose proof (DecimalString.NilZero.isi _ (proj1 (Hn b)) (proj2 (Hn b))) as Hb.
  rewrite H in Ha. rewrite Ha in Hb. injection Hb as Hb.
  apply DecimalZ.to_int_inj. exact Hb.
Qed.

Lemma decimal_no_slash (a : Z) :
  hasChar "/" (decimal (Fin (inject_Z a))) = false.
Proof.
  rewrite decimal_Z.
  assert (Hu : forall d, hasChar "/" (DecimalString.NilEmpty.string_of_uint d) = false).
  { induction d; simpl; auto. }
  assert (Hz : forall d, hasChar "/" (DecimalString.NilZero.string_of_uint d) = false).
  { intros d. destruct d; try apply Hu. reflexivity. }
  destruct (Z.to_int a); simpl; apply Hz.
Qed.

(** * The claims *)

(** C1, as claimed, fails where page numbers no longer have successors.
    From the start page 2^53 two pages are fetched and stored and the run
    completes with [fetched_pages = 2], yet [page += 1] leaves the page
    number at 2^53: the same page is requested three times and the second
    page is written over the file of the first. *)
Lemma C1_page_number_stuck :
  let req := mkRequest None None None None (Some (JNumber 9007199254740992)) None in
  let script := [answer 200 None (JArray [activity]);
                 answer 200 None (JArray [activity]);
                 answer 200 None (JArray [])] in
  let file := ["srv"; "app"; "data-scripting"; "strava";
               "page_9007199254740992.json"] in
  validate decimal sampleEnv req
  = inr (mkParams "tok-123" 15 200 9007199254740992 0 "") /\
  exists s dir m,
    extractAll decimal sampleEnv req script = Done s (Json 200 (OkBody dir m)) /\
    fetched_pages m = 2 /\
    pageFiles (trace s) = [file; file] /\
    requestedPages (trace s)
    = [Fin 9007199254740992; Fin 9007199254740992; Fin 9007199254740992].
Proof.
  vm_compute. split; [reflexivity|].
  do 3 eexists. repeat split.
Qed.

(** C1, amended.  For a valid request whose start page is a whole number,
    at every point of a run at which [start_page + fetchedPages] is at most
    2^53 (up to there [page += 1] gives the next whole number): the page
    files persisted are exactly those of the page numbers [start_page],
    [start_page + 1], ..., [start_page + fetchedPages - 1], one write each
    and in this order, and they are different files; the current page number
    is [start_page + fetchedPages], so the page number is advanced only once
    the page is persisted.  When the run completes, the manifest's
    [fetched_pages] is the number of these files.  Whole numbers are taken
    to be written without [/] and different ones differently. *)
Theorem C1_pages_contiguous (NumberToString : jsnum -> string)
        (e : environment) (req : request) (p : params) (script : list tick)
        (z : Z) :
  validate NumberToString e req = inr p ->
  startPage p = inject_Z z ->
  (forall a b : Z,
      NumberToString (Fin (inject_Z a)) = NumberToString (Fin (inject_Z b)) ->
      a = b) ->
  (forall a : Z, hasChar "/" (NumberToString (Fin (inject_Z a))) = false) ->
  let s := runState (extractAll NumberToString e req script) in
  z + fetchedPages s <= 2 ^ 53 ->
  exists n : nat,
    fetchedPages s = Z.of_nat n /\
    page s = Fin (inject_Z (z + Z.of_nat n)) /\
    pageFiles (trace s) =
      map (fun k => outPath NumberToString (baseDirOf (cwd e)) (name p)
                            (Fin (inject_Z (z + Z.of_nat k)))) (seq 0 n) /\
    NoDup (pageFiles (trace s)) /\
    (forall dir m,
        extractAll NumberToString e req script = Done s (Json 200 (OkBody dir m)) ->
        fetched_pages m = Z.of_nat n /\ start_page m = startPage p).
Proof.
  intros Hv Hz Hinj Hslash s Hb.
  assert (Hinv : pagesInv NumberToString (baseDirOf (cwd e)) p s).
  { subst s. unfold extractAll. rewrite Hv.
    destruct (mkdir_settles e).
    - apply pagesInv_resume. apply pagesInv_entered.
    - apply pagesInv_entered. }
  destruct Hinv as (n & Hn & Hp & Hf). exists n.
  assert (Hz1 : 1 <= z).
  { apply validate_inr in Hv.
    destruct Hv as (_ & _ & _ & _ & _ & _ & _ & _ & _ & H1 & _).
    rewrite Hz in H1. change 1%Q with (inject_Z 1) in H1.
    rewrite <- Zle_Qle in H1. exact H1. }
  rewrite Hn in Hb.
  assert (Hfiles : pageFiles (trace s) =
      map (fun k => outPath NumberToString (baseDirOf (cwd e)) (name p)
                            (Fin (inject_Z (z + Z.of_nat k)))) (seq 0 n)).
  { rewrite Hf. apply map_ext_in. intros k Hk. apply in_seq in Hk.
    rewrite Hz, nthPage_value by lia. reflexivity. }
  split; [exact Hn|]. split; [|split; [exact Hfiles|split]].
  - rewrite Hp, Hz. apply nthPage_value; lia.
  - rewrite Hfiles. apply NoDup_map_NoDup_ForallPairs; [|apply seq_NoDup].
    intros i j _ _ H.
    apply outPath_inj_page in H; [|apply Hslash..].
    apply Hinj in H. lia.
  - intros dir m H.
    destruct (completed_run _ _ _ _ _ _ _ _ Hv H) as (s0 & _ & _ & -> & Hs).
    simpl. split; [|reflexivity]. rewrite <- Hn. fold s. rewrite Hs. reflexivity.
Qed.

(** A run of three answers: two pages of one activity, then an empty
    page. *)
Lemma C1_pages_contiguous_witness :
  validate decimal sampleEnv sampleRequest = inr (mkParams "tok-123" 15 200 1 0 "run") /\
  exists n : nat,
    fetchedPages
      (runState (extractAll decimal sampleEnv sampleRequest
                   [answer 200 None (JArray [activity]);
                    answer 200 None (JArray [activity]);
                    answer 200 None (JArray [])])) = Z.of_nat n /\
    n = 2%nat /\
    pageFiles
      (trace (runState (extractAll decimal sampleEnv sampleRequest
                   [answer 200 None (JArray [activity]);
                    answer 200 None (JArray [activity]);
                    answer 200 None (JArray [])])))
    = [["srv"; "app"; "data-scripting"; "strava"; "run_page_1.json"];
       ["srv"; "app"; "data-scripting"; "strava"; "run_page_2.json"]].
Proof.
  destruct (C1_pages_contiguous decimal sampleEnv sampleRequest
              (mkParams "tok-123" 15 200 1 0 "run")
              [answer 200 None (JArray [activity]);
               answer 200 None (JArray [activity]);
               answer 200 None (JArray [])] 1 eq_refl eq_refl
              decimal_inj decimal_no_slash)
    as (n & Hn & _ & Hf & _).
  { vm_compute. discriminate. }
  split; [reflexivity|].
  exists n. split; [exact Hn|].
  assert (E : n = 2%nat).
  { vm_compute in Hn. apply Nat2Z.inj. symmetry. exact Hn. }
  split; [exact E|]. rewrite Hf, E. reflexivity.
Defined.




(** C4, as claimed, fails for long backoffs.  The backoff is a double: for
    the header [retry-after: 9007199254740993] it is 9007199254740992000,
    not the number of the header times 1000.  And a timer takes no more
    than 2^31 - 1 ms: after [retry-after: 3000000] the same page is
    requested again as soon as the pacer allows, 4000 ms after the request
    before. *)
Lemma C4_backoff_not_the_product :
  retryMs (Some "9007199254740993") = Fin 9007199254740992000 /\
  digitsValue 0 "9007199254740993" * 1000 = 9007199254740993000 /\
  retryMs (Some "3000000") = Fin 3000000000 /\
  sendTimes
    (trace (runState (extractAll decimal sampleEnv sampleRequest
                        [answer 429 (Some "3000000") JNull;
                         answer 429 (Some "3000000") JNull])))
  = [1700000000002; 1700000004002].
Proof. vm_compute. repeat split. Qed.

(** C4, amended.  The backoff after HTTP 429 is the number of the
    [retry-after] header times 1000 as a double when the header is a string
    of digits, which is [n * 1000] when it spells [n] and [n * 1000] is at
    most 2^53, and 10000 otherwise.  The loop then sets a timer for the
    backoff, which takes the backoff when that is from 1 to 2^31 - 1 ms
    ([n] from 1 to 2147483) and 1 ms when it is 0 or above 2^31 - 1: the
    loop goes on that long (plus the timer's lag) after the answer arrived,
    with the same
    page number and the same count of fetched pages, still running whatever
    [maxPages] is, and the next request, which is for the same page, is not
    sent before.  After any number of throttled answers in a row the run is
    still pending on the same page, having requested it once per answer. *)
Theorem C4_throttle (NumberToString : jsnum -> string)
        (e : environment) (req : request) (pre : list tick) (s : state) :
  extractAll NumberToString e req pre = Pending s ->
  (forall n : N,
      Z.of_N n * 1000 <= 2 ^ 53 ->
      retryMs (Some (DecimalString.NilZero.string_of_uint (N.to_uint n)))
      = Fin (inject_Z (Z.of_N n * 1000))) /\
  (forall h, isDigits h = true ->
             retryMs (Some h)
             = jsMul (toDouble (inject_Z (digitsValue 0 h))) (Fin 1000) /\
             (digitsValue 0 h * 1000 <= 2 ^ 53 ->
              retryMs (Some h) = Fin (inject_Z (digitsValue 0 h * 1000)))) /\
  (forall h, isDigits h = false -> retryMs (Some h) = Fin 10000) /\
  retryMs None = Fin 10000 /\
  (forall n : N,
      timerDelay
        (retryMs (Some (DecimalString.NilZero.string_of_uint (N.to_uint n))))
      = if (1 <=? Z.of_N n) && (Z.of_N n <=? 2147483)
        then Z.of_N n * 1000 else 1) /\
  timerDelay (Fin 10000) = 10000 /\
  (forall tk r,
      fetched tk = Resolved r -> status r = 429 ->
      exists s' tr t p,
        validate NumberToString e req = inr p /\
        extractAll NumberToString e req (pre ++ [tk]) = Pending s' /\
        trace s' = (tr ++ [Get t (token p) (page s) (perPage p);
                           Sleep (retryMs (retry_after r))])%list /\
        clock s' = t + Z.of_N (fetch_ms tk)
                     + timerDelay (retryMs (retry_after r))
                     + Z.of_N (backoff_lag tk) /\
        page s' = page s /\
        fetchedPages s' = fetchedPages s /\
        (forall tk2,
            exists w t2 tr2,
              trace (runState (extractAll NumberToString e req
                                 (pre ++ [tk; tk2])))
              = (trace s' ++ w
                   ++ Get t2 (token p) (page s) (perPage p) :: tr2)%list /\
              (w = [] \/ exists ms, w = [Sleep ms]) /\
              clock s' <= t2)) /\
  (forall tks,
      Forall throttled tks ->
      exists s',
        extractAll NumberToString e req (pre ++ tks) = Pending s' /\
        page s' = page s /\
        fetchedPages s' = fetchedPages s /\
        pageFiles (trace s') = pageFiles (trace s) /\
        requestedPages (trace s')
        = (requestedPages (trace s) ++ repeat (page s) (List.length tks))%list).
Proof.
  intros Hrun.
  destruct (extractAll_extend NumberToString e req pre s Hrun)
    as (p & Hv & Hmax & Hext).
  split; [|split; [|split; [|split; [|split; [|split; [|split]]]]]].
  - apply retryMs_numeral.
  - intros h H. split; [unfold retryMs; rewrite H; reflexivity|].
    apply retryMs_digits. exact H.
  - intros h H. unfold retryMs. rewrite H. reflexivity.
  - reflexivity.
  - apply timerDelay_retry.
  - reflexivity.
  - intros tk r Hf Hst.
    set (m := minIntervalMs (rpm p)).
    set (s1 := sleep (retryMs (retry_after r)) (backoff_lag tk) (send p m tk s)).
    destruct (send_spec p m tk s) as (w & _ & Htr & Hp1 & Hf1 & Hclk & _).
    assert (Hmax1 : reachedMax p s1 = false).
    { rewrite (reachedMax_fetchedPages p s); [exact Hmax|exact Hf1]. }
    assert (Hrun1 : extractAll NumberToString e req (pre ++ [tk]) = Pending s1).
    { rewrite Hext, resume_cons by exact Hmax.
      rewrite (iteration_throttled _ _ _ _ _ _ _ Hf Hst).
      apply resume_nil. exact Hmax1. }
    exists s1, (trace s ++ w)%list, (lastRequestAt (send p m tk s)), p.
    split; [exact Hv|]. split; [exact Hrun1|].
    split; [|split; [|split; [|split]]].
    + unfold s1. simpl. rewrite Htr, <- !app_assoc. reflexivity.
    + unfold s1. simpl. rewrite Hclk. lia.
    + exact Hp1.
    + exact Hf1.
    + intros tk2.
      destruct (extractAll_extend NumberToString e req _ s1 Hrun1)
        as (p' & Hv' & _ & Hext').
      assert (p' = p) by congruence. subst p'.
      change (pre ++ [tk; tk2])%list with (pre ++ [tk] ++ [tk2])%list.
      rewrite app_assoc, Hext'.
      destruct (resume_cons_trace NumberToString e p s1 tk2 [] Hmax1)
        as (new & Hnew).
      destruct (send_spec p m tk2 s1) as (w2 & Hw2 & Htr2 & _ & _ & _ & Hge).
      exists w2, (lastRequestAt (send p m tk2 s1)), new.
      split; [|split].
      * rewrite Hnew. fold m. rewrite Htr2, <- !app_assoc. simpl.
        rewrite Hp1. reflexivity.
      * destruct Hw2 as [-> | ->]; [left; reflexivity|right; eauto].
      * exact Hge.
  - intros tks Hall. rewrite Hext.
    apply resume_throttled; assumption.
Qed.

(** A run that is throttled three times on its first page, once with
    [retry-after: 5]. *)
Lemma C4_throttle_witness :
  extractAll decimal sampleEnv sampleRequest [] = Pending (entered sampleEnv (mkParams "tok-123" 15 200 1 0 "run")) /\
  retryMs (Some "5") = Fin 5000 /\
  timerDelay (retryMs (Some "5")) = 5000 /\
  exists s',
    extractAll decimal sampleEnv sampleRequest
      [answer 429 (Some "5") JNull; answer 429 None JNull; answer 429 None JNull]
    = Pending s' /\
    fetchedPages s' = 0.
Proof.
  pose proof (C4_throttle decimal sampleEnv sampleRequest []
                (entered sampleEnv (mkParams "tok-123" 15 200 1 0 "run"))
                eq_refl) as (H1 & _ & _ & _ & H3 & _ & _ & H2).
  split; [reflexivity|]. split; [apply (H1 5%N); vm_compute; discriminate|].
  split; [exact (H3 5%N)|].
  destruct (H2 [answer 429 (Some "5") JNull; answer 429 None JNull;
                answer 429 None JNull]) as (s' & Hr & _ & Hf & _).
  - repeat constructor; eexists; split; reflexivity.
  - exists s'. split; [exact Hr|exact Hf].
Defined.

(** C6. When a run that is still going receives a 2xx answer with an empty
    array, the loop stops whatever follows: no page file is written for that
    answer, the count of fetched pages stays at the number of page files
    persisted before, and the manifest, recording this count, is written as
    the last event of the run and as its only manifest; when that write
    resolves the reply is 200 with the manifest. *)
Theorem C6_empty_page_completes (NumberToString : jsnum -> string)
        (e : environment) (req : request) (pre : list tick) (s : state)
        (tk : tick) (r : response) :
  extractAll NumberToString e req pre = Pending s ->
  fetched tk = Resolved r ->
  200 <= status r < 300 ->
  data r = JArray [] ->
  exists s' m ok reply tr,
    (forall rest,
        extractAll NumberToString e req (pre ++ tk :: rest) = Done s' reply) /\
    trace s' =
      (tr ++ [WriteFile (pathJoin (baseDirOf (cwd e)) "meta.json")
                        (Manifest m) ok])%list /\
    manifestWrites tr = [] /\
    pageFiles (trace s') = pageFiles (trace s) /\
    fetchedPages s' = fetchedPages s /\
    fetched_pages m = fetchedPages s /\
    fetched_pages m = Z.of_nat (List.length (pageFiles (trace s))) /\
    (meta_written e = Resolved tt ->
       ok = true /\ reply = Json 200 (OkBody (baseDirOf (cwd e)) m)) /\
    (forall err, meta_written e = Rejected err -> ok = false /\ reply = Next err).
Proof.
  intros Hrun Hf Hst Hd.
  destruct (extractAll_extend NumberToString e req pre s Hrun)
    as (p & Hv & Hmax & Hext).
  destruct (pending_facts NumberToString e req pre s p Hrun Hv)
    as ((n & Hn & _ & Hfiles) & Hman).
  set (m := minIntervalMs (rpm p)).
  set (s1 := send p m tk s).
  destruct (send_spec p m tk s) as (w & _ & _ & _ & Hf1 & _).
  assert (Hstep : forall rest,
             extractAll NumberToString e req (pre ++ tk :: rest)
             = writeMeta e (baseDirOf (cwd e)) p s1).
  { intros rest. rewrite Hext, resume_cons by exact Hmax.
    rewrite (iteration_2xx _ _ _ _ _ _ _ Hf Hst), Hd. reflexivity. }
  assert (Hlen : fetchedPages s1 = Z.of_nat (List.length (pageFiles (trace s)))).
  { unfold s1. rewrite Hf1, Hn, Hfiles, length_map, length_seq. reflexivity. }
  assert (Hpf : forall ev ok mm,
             pageFiles (trace s1 ++ [WriteFile ev (Manifest mm) ok])
             = pageFiles (trace s)).
  { intros. rewrite pageFiles_app. simpl. rewrite app_nil_r.
    apply send_pageFiles. }
  assert (Hmw : manifestWrites (trace s1) = []).
  { unfold s1. rewrite send_manifestWrites. exact Hman. }
  unfold writeMeta in Hstep.
  destruct (meta_written e) as [[]|err] eqn:Hw.
  - eexists _, _, true, _, (trace s1). split; [exact Hstep|].
    simpl. repeat split; auto; try discriminate.
  - eexists _, _, false, _, (trace s1). split; [exact Hstep|].
    simpl. repeat split; auto; try discriminate; congruence.
Qed.

(** Pages 1 and 2 hold an activity, page 3 is empty: the run completes with
    [fetched_pages = 2]. *)
Lemma C6_empty_page_completes_witness :
  exists s s' m tr,
    extractAll decimal sampleEnv sampleRequest
      [answer 200 None (JArray [activity]); answer 200 None (JArray [activity])]
    = Pending s /\
    extractAll decimal sampleEnv sampleRequest
      [answer 200 None (JArray [activity]); answer 200 None (JArray [activity]);
       answer 200 None (JArray [])]
    = Done s' (Json 200 (OkBody (baseDirOf (cwd sampleEnv)) m)) /\
    trace s' = (tr ++ [WriteFile ["srv"; "app"; "data-scripting"; "strava"; "meta.json"]
                                 (Manifest m) true])%list /\
    fetched_pages m = 2.
Proof.
  destruct (extractAll decimal sampleEnv sampleRequest
              [answer 200 None (JArray [activity]);
               answer 200 None (JArray [activity])]) as [s|s rep] eqn:E;
    [|vm_compute in E; discriminate].
  destruct (C6_empty_page_completes decimal sampleEnv sampleRequest
              [answer 200 None (JArray [activity]);
               answer 200 None (JArray [activity])]
              s (answer 200 None (JArray []))
              (mkResponse 200 None (JArray [])) E eq_refl
              ltac:(simpl; lia) eq_refl)
    as (s' & m & ok & reply & tr & Hall & Htr & _ & _ & _ & _ & Hlen & Hok & _).
  destruct (Hok eq_refl) as [-> ->].
  exists s, s', m, tr. split; [reflexivity|]. split; [exact (Hall [])|].
  split; [exact Htr|].
  rewrite Hlen. vm_compute in E. injection E as <-. reflexivity.
Defined.

(** C7. When a run that is still going receives HTTP 401, it ends with the
    401 reply whatever follows; no manifest is written, no file is written
    after the failure, and the disk is as the pages persisted before left
    it.  When the 401 answers the first request, the run has written no file
    at all. *)
Theorem C7_unauthorized (NumberToString : jsnum -> string)
        (e : environment) (req : request) (pre : list tick) (s : state)
        (tk : tick) (r : response) :
  extractAll NumberToString e req pre = Pending s ->
  fetched tk = Resolved r ->
  status r = 401 ->
  exists s',
    (forall rest,
        extractAll NumberToString e req (pre ++ tk :: rest)
        = Done s' (Json 401
            (ErrorBody "401 Unauthorized (bad STRAVA_ACCESS_TOKEN)" None))) /\
    manifestWrites (trace s') = [] /\
    fileWrites (trace s') = fileWrites (trace s) /\
    pageFiles (trace s') = pageFiles (trace s) /\
    (forall d, replay d (trace s') = replay d (trace s)) /\
    (pre = [] -> fileWrites (trace s') = []).
Proof.
  intros Hrun Hf Hst.
  destruct (extractAll_extend NumberToString e req pre s Hrun)
    as (p & Hv & Hmax & Hext).
  destruct (pending_facts NumberToString e req pre s p Hrun Hv) as (_ & Hman).
  set (m := minIntervalMs (rpm p)).
  exists (send p m tk s).
  assert (Hfw : fileWrites (trace (send p m tk s)) = fileWrites (trace s))
    by apply send_fileWrites.
  split; [|split; [|split; [|split; [|split]]]].
  - intros rest. rewrite Hext, resume_cons by exact Hmax.
    rewrite (iteration_unauthorized _ _ _ _ _ _ _ Hf Hst). reflexivity.
  - rewrite send_manifestWrites. exact Hman.
  - exact Hfw.
  - apply send_pageFiles.
  - intros d. destruct (send_spec p m tk s) as (w & Hw & Htr & _).
    rewrite Htr, replay_app. apply replay_no_writes.
    destruct Hw as [-> | ->]; reflexivity.
  - intros ->. rewrite Hfw.
    destruct (extractAll_Pending NumberToString e req [] s Hrun)
      as (p' & Hv' & Hr).
    unfold resume in Hr. simpl in Hr.
    destruct (reachedMax p' (entered e p')).
    + unfold writeMeta in Hr. destruct (meta_written e); discriminate.
    + injection Hr as <-. reflexivity.
Qed.

(** HTTP 401 on the first request. *)
Lemma C7_unauthorized_witness :
  extractAll decimal sampleEnv sampleRequest []
  = Pending (entered sampleEnv (mkParams "tok-123" 15 200 1 0 "run")) /\
  exists s',
    extractAll decimal sampleEnv sampleRequest [answer 401 None JNull]
    = Done s' (Json 401
        (ErrorBody "401 Unauthorized (bad STRAVA_ACCESS_TOKEN)" None)) /\
    fileWrites (trace s') = [].
Proof.
  split; [reflexivity|].
  destruct (C7_unauthorized decimal sampleEnv sampleRequest []
              (entered sampleEnv (mkParams "tok-123" 15 200 1 0 "run"))
              (answer 401 None JNull) (mkResponse 401 None JNull)
              eq_refl eq_refl eq_refl)
    as (s' & Hall & _ & _ & _ & _ & Hnone).
  exists s'. split; [exact (Hall [])|exact (Hnone eq_refl)].
Defined.

(** C8, as stated, fails for a 2xx answer whose body is not an array: the
    reply does not carry the upstream status.  Upstream statuses 200 and 201
    with the same body give the caller the same reply. *)
Lemma C8_status_not_surfaced :
  runReply (extractAll decimal sampleEnv sampleRequest
              [answer 200 None (JString "maintenance")])
  = Some (Json 502
      (ErrorBody "Unexpected Strava response (expected JSON array)"
                 (Some (JString "maintenance")))) /\
  runReply (extractAll decimal sampleEnv sampleRequest
              [answer 201 None (JString "maintenance")])
  = Some (Json 502
      (ErrorBody "Unexpected Strava response (expected JSON array)"
                 (Some (JString "maintenance")))).
Proof. split; vm_compute; reflexivity. Qed.

(** C8, amended.  When a run that is still going receives a status other
    than 401 and 429 that is not 2xx, or a 2xx answer whose body is not an
    array, it ends at once with a 502 reply that carries the answer's body;
    the reply names the upstream status when that is not 2xx, and is the
    fixed message about the expected array otherwise.  The answers that
    follow are not read: the page requested last is the current one, no
    file is written after the answer and no manifest is written. *)
Theorem C8_upstream_error (NumberToString : jsnum -> string)
        (e : environment) (req : request) (pre : list tick) (s : state)
        (tk : tick) (r : response) :
  extractAll NumberToString e req pre = Pending s ->
  fetched tk = Resolved r ->
  status r <> 401 ->
  status r <> 429 ->
  (status r < 200 \/ 300 <= status r \/ asArray (data r) = None) ->
  exists s' msg,
    (forall rest,
        extractAll NumberToString e req (pre ++ tk :: rest)
        = Done s' (Json 502 (ErrorBody msg (Some (data r))))) /\
    (status r < 200 \/ 300 <= status r ->
       msg = "Strava API error (HTTP "
               ++ NumberToString (Fin (inject_Z (status r))) ++ ")") /\
    (200 <= status r < 300 ->
       msg = "Unexpected Strava response (expected JSON array)") /\
    requestedPages (trace s') = (requestedPages (trace s) ++ [page s])%list /\
    fileWrites (trace s') = fileWrites (trace s) /\
    manifestWrites (trace s') = [].
Proof.
  intros Hrun Hf H401 H429 Hbad.
  destruct (extractAll_extend NumberToString e req pre s Hrun)
    as (p & Hv & Hmax & Hext).
  destruct (pending_facts NumberToString e req pre s p Hrun Hv) as (_ & Hman).
  set (m := minIntervalMs (rpm p)).
  exists (send p m tk s).
  assert (Hcommon :
            requestedPages (trace (send p m tk s))
            = (requestedPages (trace s) ++ [page s])%list /\
            fileWrites (trace (send p m tk s)) = fileWrites (trace s) /\
            manifestWrites (trace (send p m tk s)) = []).
  { split; [apply send_requestedPages|].
    split; [apply send_fileWrites|].
    rewrite send_manifestWrites. exact Hman. }
  destruct (Z_lt_ge_dec (status r) 200) as [Hlo|Hlo];
    [|destruct (Z_le_gt_dec 300 (status r)) as [Hhi|Hhi]].
  - eexists. split; [|split; [reflexivity|split; [lia|exact Hcommon]]].
    intros rest. rewrite Hext, resume_cons by exact Hmax.
    rewrite (iteration_bad_status _ _ _ _ _ _ _ Hf H401 H429 (or_introl Hlo)).
    reflexivity.
  - eexists. split; [|split; [reflexivity|split; [lia|exact Hcommon]]].
    intros rest. rewrite Hext, resume_cons by exact Hmax.
    rewrite (iteration_bad_status _ _ _ _ _ _ _ Hf H401 H429 (or_intror Hhi)).
    reflexivity.
  - assert (Hnone : asArray (data r) = None) by (destruct Hbad as [?|[?|?]]; [lia|lia|assumption]).
    eexists. split; [|split; [lia|split; [reflexivity|exact Hcommon]]].
    intros rest. rewrite Hext, resume_cons by exact Hmax.
    rewrite (iteration_2xx _ _ _ _ _ _ _ Hf (conj (Z.ge_le _ _ Hlo) (Z.gt_lt _ _ Hhi))).
    simpl. rewrite Hnone. reflexivity.
Qed.

(** HTTP 500 on the first request. *)
Lemma C8_upstream_error_witness :
  extractAll decimal sampleEnv sampleRequest []
  = Pending (entered sampleEnv (mkParams "tok-123" 15 200 1 0 "run")) /\
  exists s',
    extractAll decimal sampleEnv sampleRequest
      [answer 500 None (JString "oops"); answer 200 None (JArray [activity])]
    = Done s' (Json 502 (ErrorBody "Strava API error (HTTP 500)"
                                   (Some (JString "oops")))).
Proof.
  split; [reflexivity|].
  destruct (C8_upstream_error decimal sampleEnv sampleRequest []
              (entered sampleEnv (mkParams "tok-123" 15 200 1 0 "run"))
              (answer 500 None (JString "oops"))
              (mkResponse 500 None (JString "oops"))
              eq_refl eq_refl ltac:(discriminate) ltac:(discriminate)
              ltac:(right; left; simpl; lia))
    as (s' & msg & Hall & Hmsg & _).
  exists s'. pose proof (Hall [answer 200 None (JArray [activity])]) as H.
  rewrite (Hmsg ltac:(right; simpl; lia)) in H. exact H.
Defined.

(** C5, as stated, fails: a failed write is not surfaced as a kind of its
    own.  A full disk and a connection to the upstream API that breaks give
    the caller the same reply. *)
Lemma C5_disk_and_network_alike :
  option_map served
    (runReply (extractAll decimal sampleEnv sampleRequest
       [mkTick 0 (Resolved (mkResponse 200 None (JArray [activity]))) 120 0
               (Rejected (Thrown "ENOSPC: no space left on device")) 5]))
  = Some (Json 500 (ErrorBody "Internal server error" None)) /\
  option_map served
    (runReply (extractAll decimal sampleEnv sampleRequest
       [mkTick 0 (Rejected (Thrown "ECONNRESET")) 120 0 (Resolved tt) 5]))
  = Some (Json 500 (ErrorBody "Internal server error" None)).
Proof. split; vm_compute; reflexivity. Qed.

(** C5, amended.  When the write of a page or of the manifest fails, the
    run ends there with [next(err)]: the failed write is its last event, the
    answers that follow are not read, and after a failed page write the page
    is not counted and the page number is not advanced.  This holds for the
    manifest written after an empty page and for the manifest written once
    [max_pages] pages are stored.  The caller receives the 500 reply of the
    error middleware, which differs from the 401 and 502 replies for
    upstream answers but is the same for every exception, the one
    [axios.get] throws included. *)
Theorem C5_write_failure (NumberToString : jsnum -> string)
        (e : environment) (req : request) (pre : list tick) (s : state)
        (tk : tick) (r : response) :
  extractAll NumberToString e req pre = Pending s ->
  fetched tk = Resolved r ->
  200 <= status r < 300 ->
  (forall x items err,
      data r = JArray (x :: items) -> written tk = Rejected err ->
      exists s' tr p,
        validate NumberToString e req = inr p /\
        (forall rest, extractAll NumberToString e req (pre ++ tk :: rest)
                      = Done s' (Next err)) /\
        trace s' =
          (tr ++ [WriteFile (outPath NumberToString (baseDirOf (cwd e)) (name p)
                                     (page s))
                            (Records (x :: items)) false])%list /\
        pageFiles (trace s') = pageFiles (trace s) /\
        fetchedPages s' = fetchedPages s /\
        page s' = page s /\
        manifestWrites (trace s') = []) /\
  (forall err,
      data r = JArray [] -> meta_written e = Rejected err ->
      exists s' tr m,
        (forall rest, extractAll NumberToString e req (pre ++ tk :: rest)
                      = Done s' (Next err)) /\
        trace s' =
          (tr ++ [WriteFile (pathJoin (baseDirOf (cwd e)) "meta.json")
                            (Manifest m) false])%list /\
        manifestWrites tr = []) /\
  (forall x items err p,
      validate NumberToString e req = inr p ->
      data r = JArray (x :: items) -> written tk = Resolved tt ->
      (0 < maxPages p)%Q ->
      (maxPages p <= inject_Z (fetchedPages s + 1))%Q ->
      meta_written e = Rejected err ->
      exists s' tr m,
        (forall rest, extractAll NumberToString e req (pre ++ tk :: rest)
                      = Done s' (Next err)) /\
        trace s' =
          (tr ++ [WriteFile (pathJoin (baseDirOf (cwd e)) "meta.json")
                            (Manifest m) false])%list /\
        fetched_pages m = fetchedPages s + 1 /\
        manifestWrites tr = []) /\
  (forall tk' err rest,
      fetched tk' = Rejected err ->
      exists s', extractAll NumberToString e req (pre ++ tk' :: rest)
                 = Done s' (Next err)) /\
  (forall err, served (Next err) = Json 500 (ErrorBody "Internal server error" None)) /\
  (forall err b, served (Next err) <> Json 401 b /\ served (Next err) <> Json 502 b).
Proof.
  intros Hrun Hf Hst.
  destruct (extractAll_extend NumberToString e req pre s Hrun)
    as (p & Hv & Hmax & Hext).
  destruct (pending_facts NumberToString e req pre s p Hrun Hv) as (_ & Hman).
  set (m := minIntervalMs (rpm p)).
  destruct (send_spec p m tk s) as (w & _ & _ & Hp1 & Hf1 & _).
  split; [|split; [|split; [|split; [|split]]]].
  - intros x items err Hd Hw.
    eexists _, (trace (send p m tk s)), p. split; [exact Hv|]. split.
    + intros rest. rewrite Hext, resume_cons by exact Hmax.
      rewrite (iteration_2xx _ _ _ _ _ _ _ Hf Hst), Hd. simpl. rewrite Hw.
      reflexivity.
    + simpl. fold m. rewrite Hp1, Hf1, pageFiles_app, manifestWrites_app.
      simpl. rewrite !app_nil_r, send_pageFiles, send_manifestWrites.
      repeat split; auto.
  - intros err Hd Hw.
    eexists _, (trace (send p m tk s)), _. split; [|split].
    + intros rest. rewrite Hext, resume_cons by exact Hmax.
      rewrite (iteration_2xx _ _ _ _ _ _ _ Hf Hst), Hd. simpl.
      unfold writeMeta. rewrite Hw. reflexivity.
    + reflexivity.
    + rewrite send_manifestWrites. exact Hman.
  - intros x items err p' Hv' Hd Hw Hpos Hle Hmeta.
    assert (p' = p) by congruence. subst p'.
    set (file := outPath NumberToString (baseDirOf (cwd e)) (name p)
                         (page (send p m tk s))).
    set (s2 := mkState (jsAdd (page (send p m tk s)) (Fin 1))
                       (fetchedPages (send p m tk s) + 1)
                       (lastRequestAt (send p m tk s))
                       (clock (send p m tk s) + Z.of_N (write_ms tk))
                       (trace (send p m tk s)
                          ++ [WriteFile file (Records (x :: items)) true])%list).
    assert (Hmax2 : reachedMax p s2 = true).
    { unfold reachedMax, truthy. simpl. rewrite Hf1.
      apply andb_true_intro. split.
      - apply negb_true_iff. destruct (Qeq_bool (maxPages p) 0) eqn:E; [|reflexivity].
        apply Qeq_bool_iff in E. rewrite E in Hpos.
        exfalso. exact (Qlt_irrefl 0 Hpos).
      - apply Qle_bool_iff. exact Hle. }
    eexists _, (trace s2), _. split; [|split; [|split]].
    + intros rest. rewrite Hext, resume_cons by exact Hmax.
      rewrite (iteration_2xx _ _ _ _ _ _ _ Hf Hst), Hd. simpl. rewrite Hw.
      fold m. fold file. change (advance _ _) with
        (mkState (page (send p m tk s)) (fetchedPages (send p m tk s))
           (lastRequestAt (send p m tk s))
           (clock (send p m tk s) + Z.of_N (write_ms tk))
           (trace (send p m tk s)
              ++ [WriteFile file (Records (x :: items)) true])%list).
      simpl. fold s2. unfold resume.
      assert (El : loop NumberToString (baseDirOf (cwd e)) p
                        (minIntervalMs (rpm p)) s2 rest = Break s2)
        by (destruct rest; simpl; rewrite Hmax2; reflexivity).
      rewrite El. unfold writeMeta. rewrite Hmeta. reflexivity.
    + reflexivity.
    + simpl. rewrite Hf1. reflexivity.
    + unfold s2. simpl. rewrite manifestWrites_app, send_manifestWrites, Hman.
      reflexivity.
  - intros tk' err rest Hf'. eexists.
    rewrite Hext, resume_cons by exact Hmax.
    rewrite (iteration_threw _ _ _ _ _ _ _ Hf'). reflexivity.
  - reflexivity.
  - intros err b. split; discriminate.
Qed.

(** The disk is full when the first page is written; and, with
    [max_pages = 1], the manifest cannot be written once the page is
    stored. *)
Lemma C5_write_failure_witness :
  extractAll decimal sampleEnv sampleRequest []
  = Pending (entered sampleEnv (mkParams "tok-123" 15 200 1 0 "run")) /\
  (exists s',
    extractAll decimal sampleEnv sampleRequest
      [mkTick 0 (Resolved (mkResponse 200 None (JArray [activity]))) 120 0
              (Rejected (Thrown "ENOSPC: no space left on device")) 5;
       answer 200 None (JArray [activity])]
    = Done s' (Next (Thrown "ENOSPC: no space left on device")) /\
    fetchedPages s' = 0) /\
  exists s',
    extractAll decimal
      (mkEnv ["srv"; "app"] (Some "tok-123") 1700000000000 (Resolved tt) 2
             (Rejected (Thrown "EIO: i/o error")))
      (mkRequest None None None None None (Some (JNumber 1)))
      [answer 200 None (JArray [activity]); answer 200 None (JArray [activity])]
    = Done s' (Next (Thrown "EIO: i/o error")).
Proof.
  split; [reflexivity|]. split.
  2:{ destruct (C5_write_failure decimal
                  (mkEnv ["srv"; "app"] (Some "tok-123") 1700000000000
                         (Resolved tt) 2 (Rejected (Thrown "EIO: i/o error")))
                  (mkRequest None None None None None (Some (JNumber 1))) []
                  (entered sampleEnv (mkParams "tok-123" 15 200 1 1 ""))
                  (answer 200 None (JArray [activity]))
                  (mkResponse 200 None (JArray [activity]))
                  eq_refl eq_refl ltac:(simpl; lia))
        as (_ & _ & Hmax & _).
      destruct (Hmax activity [] (Thrown "EIO: i/o error")
                  (mkParams "tok-123" 15 200 1 1 "")
                  eq_refl eq_refl eq_refl eq_refl ltac:(discriminate) eq_refl)
        as (s' & tr & m & Hall & _).
      exists s'. exact (Hall [answer 200 None (JArray [activity])]). }
  destruct (C5_write_failure decimal sampleEnv sampleRequest []
              (entered sampleEnv (mkParams "tok-123" 15 200 1 0 "run"))
              (mkTick 0 (Resolved (mkResponse 200 None (JArray [activity]))) 120 0
                      (Rejected (Thrown "ENOSPC: no space left on device")) 5)
              (mkResponse 200 None (JArray [activity]))
              eq_refl eq_refl ltac:(simpl; lia))
    as (Hpage & _).
  destruct (Hpage activity [] (Thrown "ENOSPC: no space left on device")
              eq_refl eq_refl)
    as (s' & tr & p & _ & Hall & _ & _ & Hfp & _).
  exists s'. split; [exact (Hall [answer 200 None (JArray [activity])])|exact Hfp].
Defined.

(** C9, as stated, fails: a positive [rpm] below 1 is rejected. *)
Lemma C9_half_rpm_rejected :
  numberOr (body_rpm (mkRequest None None (Some (JNumber (1 # 2))) None None None)) 15
  = inr (Fin (1 # 2)) /\
  (0 < 1 # 2)%Q /\
  validate decimal sampleEnv
    (mkRequest None None (Some (JNumber (1 # 2))) None None None)
  = inl (bad "`rpm` must be >= 1").
Proof. vm_compute. repeat split. Qed.

(** C9, amended.  The request is accepted iff a token is present, no
    conversion of a body field throws and, after defaults and conversion,
    [rpm] is a finite number that is at least 1, [per_page] a finite number
    from 1 to 200, [start_page] a finite number that is at least 1 and
    [max_pages] a finite number that is at least 0.  A request that is not
    accepted ends before anything is done: with a 400 reply, or, when the
    token is present and a conversion throws, with [next(err)], for which
    the caller receives the 500 reply of the error middleware.  [per_page]
    above 200 is rejected with the message about [per_page], [per_page] of
    200 is accepted, and with [max_pages] of 0 the loop's guard never stops
    it: the loop goes on as long as pages with records arrive. *)
Theorem C9_validation (NumberToString : jsnum -> string)
        (e : environment) (req : request) :
  ((exists p, validate NumberToString e req = inr p) <->
   getBearerToken (STRAVA_ACCESS_TOKEN e) req <> "" /\
   (exists q, numberOr (body_rpm req) 15 = inr (Fin q) /\ (1 <= q)%Q) /\
   (exists q, numberOr (body_per_page req) 200 = inr (Fin q) /\
              (1 <= q)%Q /\ (q <= 200)%Q) /\
   (exists q, numberOr (body_start_page req) 1 = inr (Fin q) /\ (1 <= q)%Q) /\
   (exists q, numberOr (body_max_pages req) 0 = inr (Fin q) /\ (0 <= q)%Q) /\
   (exists text, stringOr NumberToString (body_name req) = inr text)) /\
  (forall rep script,
      validate NumberToString e req = inl rep ->
      extractAll NumberToString e req script = Done (initial e) rep /\
      trace (initial e) = [] /\
      ((exists msg, rep = Json 400 (ErrorBody msg None)) \/
       rep = Next cannotConvert /\
       getBearerToken (STRAVA_ACCESS_TOKEN e) req <> "" /\
       served rep = Json 500 (ErrorBody "Internal server error" None))) /\
  (forall field,
      getBearerToken (STRAVA_ACCESS_TOKEN e) req <> "" ->
      In field [body_rpm req; body_per_page req; body_start_page req;
                body_max_pages req; body_name req] ->
      (exists v, field = Some v /\ throwsToString v = true) ->
      exists err, validate NumberToString e req = inl (Next err)) /\
  (forall v q,
      getBearerToken (STRAVA_ACCESS_TOKEN e) req <> "" ->
      (exists r, numberOr (body_rpm req) 15 = inr (Fin r) /\ (1 <= r)%Q) ->
      (exists n, numberOr (body_start_page req) 1 = inr n) ->
      (exists n, numberOr (body_max_pages req) 0 = inr n) ->
      (exists text, stringOr NumberToString (body_name req) = inr text) ->
      body_per_page req = Some v -> toNumber v = inr (Fin q) -> (200 < q)%Q ->
      validate NumberToString e req = inl (bad "`per_page` must be 1..200")) /\
  (getBearerToken (STRAVA_ACCESS_TOKEN e) req <> "" ->
   (exists r, numberOr (body_rpm req) 15 = inr (Fin r) /\ (1 <= r)%Q) ->
   (exists q, numberOr (body_start_page req) 1 = inr (Fin q) /\ (1 <= q)%Q) ->
   (exists q, numberOr (body_max_pages req) 0 = inr (Fin q) /\ (0 <= q)%Q) ->
   (exists text, stringOr NumberToString (body_name req) = inr text) ->
   body_per_page req = Some (JNumber 200) ->
   exists p, validate NumberToString e req = inr p /\ perPage p = 200%Q) /\
  (forall p s,
      validate NumberToString e req = inr p -> (maxPages p == 0)%Q -> reachedMax p s = false) /\
  (forall p script,
      validate NumberToString e req = inr p ->
      (maxPages p == 0)%Q ->
      mkdir_settles e = Resolved tt ->
      Forall stored script ->
      exists s,
        extractAll NumberToString e req script = Pending s /\
        fetchedPages s = Z.of_nat (List.length script)).
Proof.
  split; [|split; [|split; [|split; [|split; [|split]]]]].
  - split.
    + intros (p & Hv). apply validate_inr in Hv.
      destruct Hv as (Ht & _ & (text & Hn & _) & H1 & H2 & H3 & H4 & H5 & H6
                      & H7 & H8 & H9).
      split; [exact Ht|]. repeat split; eauto.
    + intros (Ht & (q1 & H1 & H1') & (q2 & H2 & H2' & H2'') & (q3 & H3 & H3')
              & (q4 & H4 & H4') & (text & Hn)).
      eexists.
      apply (validate_accepts NumberToString e req q1 q2 q3 q4 text); assumption.
  - intros rep script Hv. unfold extractAll. rewrite Hv.
    split; [reflexivity|]. split; [reflexivity|].
    destruct (validate_inl NumberToString e req rep Hv) as [(msg & ->) | ->].
    + left. exists msg. reflexivity.
    + right. split; [reflexivity|]. split; [|reflexivity].
      intros Ht. unfold validate in Hv. rewrite Ht in Hv. discriminate.
  - intros field Ht Hin (v & -> & Hthrow).
    assert (Hnum : forall dflt, numberOr (Some v) dflt = inl cannotConvert).
    { intros dflt. unfold numberOr, toNumber. rewrite Hthrow.
      destruct v; try reflexivity; discriminate. }
    assert (Hstr : stringOr NumberToString (Some v) = inl cannotConvert).
    { unfold stringOr, toString. rewrite Hthrow.
      destruct v; try reflexivity; discriminate. }
    unfold validate.
    destruct (String.eqb_spec (getBearerToken (STRAVA_ACCESS_TOKEN e) req) "");
      [contradiction|].
    destruct (numberOr (body_rpm req) 15) as [err|n1] eqn:E1; [eauto|].
    destruct (numberOr (body_per_page req) 200) as [err|n2] eqn:E2; [eauto|].
    destruct (numberOr (body_start_page req) 1) as [err|n3] eqn:E3; [eauto|].
    destruct (numberOr (body_max_pages req) 0) as [err|n4] eqn:E4; [eauto|].
    destruct (stringOr NumberToString (body_name req)) as [err|text] eqn:E5;
      [eauto|].
    exfalso. simpl in Hin.
    destruct Hin as [H|[H|[H|[H|[H|[]]]]]]; rewrite H in *;
      rewrite ?Hnum, ?Hstr in *; discriminate.
  - intros v q Ht (r & Hr & Hr') (n3 & H3) (n4 & H4) (text & Hn) Hpp Hv Hq.
    unfold validate.
    destruct (String.eqb_spec (getBearerToken (STRAVA_ACCESS_TOKEN e) req) "");
      [contradiction|].
    assert (Hpp' : numberOr (body_per_page req) 200 = inr (Fin q)).
    { rewrite Hpp. unfold numberOr. destruct v; try exact Hv.
      exfalso. unfold toNumber in Hv. simpl in Hv.
      assert (q = 0%Q) by congruence. subst q. discriminate. }
    rewrite Hr, Hpp', H3, H4, Hn. simpl.
    apply Qlt_bool_false in Hr'. rewrite Hr'.
    apply Qlt_bool_true in Hq. rewrite Hq. rewrite orb_true_r. reflexivity.
  - intros Ht (q1 & H1 & H1') (q3 & H3 & H3') (q4 & H4 & H4') (text & Hn) Hpp.
    eexists. split.
    + apply (validate_accepts NumberToString e req q1 200 q3 q4 text);
        try assumption; [rewrite Hpp; reflexivity|discriminate|discriminate].
    + reflexivity.
  - intros p s _ Hmax. apply reachedMax_unbounded. exact Hmax.
  - intros p script Hv Hmax Hmk Hall. unfold extractAll. rewrite Hv, Hmk.
    destruct (resume_stored NumberToString e p Hmax script (entered e p) Hall)
      as (s & Hr & Hn).
    exists s. split; [exact Hr|]. rewrite Hn. reflexivity.
Qed.

(** [per_page = 201] is rejected; a [per_page] that cannot be converted
    ends the request with [next(err)]; with the defaults ([max_pages = 0]) a
    run stores every page that arrives and goes on. *)
Lemma C9_validation_witness :
  validate decimal sampleEnv
    (mkRequest None None None (Some (JNumber 201)) None None)
  = inl (bad "`per_page` must be 1..200") /\
  (exists err,
      validate decimal sampleEnv
        (mkRequest None None None (Some (JObject [("toString", JNumber 1)]))
                   None None)
      = inl (Next err)) /\
  exists s,
    extractAll decimal sampleEnv sampleRequest
      [answer 200 None (JArray [activity]); answer 200 None (JArray [activity]);
       answer 200 None (JArray [activity])] = Pending s /\
    fetchedPages s = 3.
Proof.
  split; [|split].
  - apply (proj1 (proj2 (proj2 (proj2
             (C9_validation decimal sampleEnv
                (mkRequest None None None (Some (JNumber 201)) None None)))))
             (JNumber 201) 201%Q).
    + discriminate.
    + exists 15%Q. split; [reflexivity|discriminate].
    + eexists. reflexivity.
    + eexists. reflexivity.
    + eexists. reflexivity.
    + reflexivity.
    + reflexivity.
    + reflexivity.
  - apply (proj1 (proj2 (proj2
             (C9_validation decimal sampleEnv
                (mkRequest None None None
                   (Some (JObject [("toString", JNumber 1)])) None None))))
             (Some (JObject [("toString", JNumber 1)]))).
    + discriminate.
    + simpl. auto.
    + eexists. split; reflexivity.
  - apply (proj2 (proj2 (proj2 (proj2 (proj2 (proj2
             (C9_validation decimal sampleEnv sampleRequest))))))
             (mkParams "tok-123" 15 200 1 0 "run")).
    + reflexivity.
    + reflexivity.
    + reflexivity.
    + repeat constructor; exists (mkResponse 200 None (JArray [activity])),
        activity, []; repeat split; simpl; lia.
Defined.

(** C10. The token is taken from the [Authorization] header when the header
    matches [/^Bearer\s+/i], with the matched prefix removed, whatever the
    environment holds (so from [Bearer t] it is [t] trimmed); otherwise it
    is the value of [STRAVA_ACCESS_TOKEN], or the empty string when that is
    unset.  Either way it is trimmed: it neither starts nor ends with white
    space.  When it is empty the handler answers 400 and does nothing
    else: no event is recorded, for any behaviour of the environment. *)
Theorem C10_token (NumberToString : jsnum -> string)
        (e : environment) (req : request) :
  let tok := getBearerToken (STRAVA_ACCESS_TOKEN e) req in
  (forall header rest,
      authorization req = Some header -> matchBearer header = Some rest ->
      tok = trim rest) /\
  (forall t, authorization req = Some ("Bearer " ++ t) -> tok = trim t) /\
  (authorization req = None \/
   (exists header, authorization req = Some header /\ matchBearer header = None) ->
   tok = trim (orEmpty (STRAVA_ACCESS_TOKEN e))) /\
  startsClean tok /\
  endsClean tok /\
  (tok = "" ->
   forall script,
     extractAll NumberToString e req script
     = Done (initial e)
         (Json 400 (ErrorBody "Missing Strava token. Set STRAVA_ACCESS_TOKEN in .env or send Authorization: Bearer <token>." None)) /\
     trace (initial e) = []).
Proof.
  intros tok. subst tok.
  split; [|split; [|split; [|split; [|split]]]].
  - intros header rest Ha Hm. unfold getBearerToken. rewrite Ha, Hm. reflexivity.
  - intros t Ha. unfold getBearerToken. rewrite Ha, matchBearer_plain.
    unfold trim. rewrite trimStart_idem. reflexivity.
  - intros [Ha|(header & Ha & Hm)]; unfold getBearerToken; rewrite Ha;
      [|rewrite Hm]; reflexivity.
  - assert (H : forall x, startsClean (trim x))
      by (intros x; apply trimEnd_starts, trimStart_clean).
    unfold getBearerToken.
    destruct (authorization req) as [h|]; [destruct (matchBearer h)|]; apply H.
  - assert (H : forall x, endsClean (trim x)) by (intros x; apply trimEnd_clean).
    unfold getBearerToken.
    destruct (authorization req) as [h|]; [destruct (matchBearer h)|]; apply H.
  - intros Htok script. unfold extractAll, validate. rewrite Htok. simpl.
    split; reflexivity.
Qed.

(** A header wins over the environment; with no header and a blank
    [STRAVA_ACCESS_TOKEN] the request is rejected. *)
Lemma C10_token_witness :
  getBearerToken (Some "tok-123")
    (mkRequest (Some "bearer   abc  ") None None None None None) = "abc" /\
  extractAll decimal
    (mkEnv ["srv"; "app"] (Some "   ") 1700000000000 (Resolved tt) 2 (Resolved tt))
    (namedRequest "run")
    [answer 200 None (JArray [activity])]
  = Done (initial sampleEnv)
      (Json 400 (ErrorBody "Missing Strava token. Set STRAVA_ACCESS_TOKEN in .env or send Authorization: Bearer <token>." None)).
Proof.
  split.
  - exact (proj1 (C10_token decimal sampleEnv
             (mkRequest (Some "bearer   abc  ") None None None None None))
             "bearer   abc  " "abc  " eq_refl eq_refl).
  - exact (proj1 (proj2 (proj2 (proj2 (proj2 (proj2
             (C10_token decimal
                (mkEnv ["srv"; "app"] (Some "   ") 1700000000000 (Resolved tt) 2
                       (Resolved tt))
                (namedRequest "run"))))))
             eq_refl [answer 200 None (JArray [activity])])).
Defined.




(** * Further properties of the handler *)

(** ** What an iteration adds to the trace *)

Lemma iteration_tail (NumberToString : jsnum -> string) (baseDir : path)
      (p : params) (m : Z) (s : state) (tk : tick) :
  exists new,
    trace (flowState (iteration NumberToString baseDir p m s tk))
    = (trace (send p m tk s) ++ new)%list /\
    (new = [] \/ (exists ms, new = [Sleep ms]) \/
     exists f c ok, new = [WriteFile f c ok]).
Proof.
  destruct (iteration_cases NumberToString baseDir p m s tk)
    as [(e1 & ->)|[(r & ->)|[(ms & lag & ->)|[->|[(items & e1 & ->)|(items & ->)]]]]];
    simpl.
  1, 2, 4: exists []; rewrite app_nil_r; auto.
  - exists [Sleep ms]. eauto.
  - eexists. split; [reflexivity|]. right; right. eauto.
  - eexists. split; [reflexivity|]. right; right. eauto.
Qed.

(** The events of one iteration: an optional pacer sleep, the request, and
    at most one more event, which is not a request. *)
Lemma iteration_events (NumberToString : jsnum -> string) (baseDir : path)
      (p : params) (m : Z) (s : state) (tk : tick) :
  exists pre new t,
    trace (flowState (iteration NumberToString baseDir p m s tk))
    = (trace s ++ pre ++ [Get t (token p) (page s) (perPage p)] ++ new)%list /\
    (pre = [] \/ exists w, pre = [Sleep w]) /\
    (new = [] \/ (exists ms, new = [Sleep ms]) \/
     exists f c ok, new = [WriteFile f c ok]).
Proof.
  destruct (iteration_tail NumberToString baseDir p m s tk) as (new & Ht & Hn).
  destruct (send_spec p m tk s) as (pre & Hpre & Hs & _).
  exists pre, new, (lastRequestAt (send p m tk s)).
  rewrite Ht, Hs, <- !app_assoc. split; [reflexivity|]. split; [|exact Hn].
  destruct Hpre as [->| ->]; eauto.
Qed.

(** ** Invariants of a whole run *)

(** A property of the state that holds when the loop is entered, that every
    iteration keeps and that logging an event keeps, holds of the state of
    every run of a valid request. *)
Lemma run_invariant (NumberToString : jsnum -> string) (e : environment)
      (req : request) (p : params) (Inv : state -> Prop) :
  validate NumberToString e req = inr p ->
  Inv (entered e p) ->
  (forall s tk, Inv s -> reachedMax p s = false ->
     Inv (flowState (iteration NumberToString (baseDirOf (cwd e)) p
                               (minIntervalMs (rpm p)) s tk))) ->
  (forall s m ok,
     Inv s ->
     Inv (log (WriteFile (pathJoin (baseDirOf (cwd e)) "meta.json")
                         (Manifest m) ok) s)) ->
  forall script, Inv (runState (extractAll NumberToString e req script)).
Proof.
  intros Hv H0 Hstep Hlog script. unfold extractAll. rewrite Hv.
  destruct (mkdir_settles e); [|exact H0].
  pose proof (loop_invariant NumberToString (baseDirOf (cwd e)) p
                (minIntervalMs (rpm p)) Inv Hstep script (entered e p) H0) as H.
  unfold resume, writeMeta.
  destruct (loop NumberToString (baseDirOf (cwd e)) p (minIntervalMs (rpm p))
                 (entered e p) script) as [s'|s'|s' r|s' err]; simpl in *; auto.
  destruct (meta_written e); simpl; apply Hlog; exact H.
Qed.

Lemma iteration_fetchedPages (NumberToString : jsnum -> string) (baseDir : path)
      (p : params) (m : Z) (s : state) (tk : tick) :
  let s' := flowState (iteration NumberToString baseDir p m s tk) in
  fetchedPages s' = fetchedPages s \/ fetchedPages s' = fetchedPages s + 1.
Proof.
  destruct (send_spec p m tk s) as (pre & _ & _ & _ & Hf & _).
  destruct (iteration_cases NumberToString baseDir p m s tk)
    as [(e1 & ->)|[(r & ->)|[(ms & lag & ->)|[->|[(items & e1 & ->)|(items & ->)]]]]];
    simpl; rewrite Hf; auto.
Qed.

(** With a positive [maxPages] the guard lets an iteration start only below
    the limit. *)
Lemma below_limit (p : params) (s : state) :
  (0 < maxPages p)%Q -> reachedMax p s = false ->
  (inject_Z (fetchedPages s) < maxPages p)%Q.
Proof.
  intros Hpos H. unfold reachedMax, truthy in H.
  assert (Hne : Qeq_bool (maxPages p) 0 = false).
  { destruct (Qeq_bool (maxPages p) 0) eqn:E; [|reflexivity].
    apply Qeq_bool_iff in E. rewrite E in Hpos.
    exfalso. exact (Qlt_irrefl _ Hpos). }
  rewrite Hne in H. simpl in H.
  apply Qnot_le_lt. intros Hle. apply Qle_bool_iff in Hle. congruence.
Qed.

Lemma at_limit (p : params) (s : state) :
  (0 < maxPages p)%Q -> (maxPages p <= inject_Z (fetchedPages s))%Q ->
  reachedMax p s = true.
Proof.
  intros Hpos Hle. unfold reachedMax, truthy.
  apply Qle_bool_iff in Hle. rewrite Hle.
  destruct (Qeq_bool (maxPages p) 0) eqn:E; [|reflexivity].
  apply Qeq_bool_iff in E. rewrite E in Hpos.
  exfalso. exact (Qlt_irrefl _ Hpos).
Qed.

(** X2. With a positive [max_pages] a run never persists more pages than
    the limit rounded up: at every state of the run the count of fetched
    pages, which is the number of page files written, is at most
    [ceil(max_pages)]. *)
Theorem X2_max_pages_bound (NumberToString : jsnum -> string)
        (e : environment) (req : request) (p : params) (script : list tick) :
  validate NumberToString e req = inr p ->
  (0 < maxPages p)%Q ->
  let s := runState (extractAll NumberToString e req script) in
  fetchedPages s <= Qceiling (maxPages p) /\
  Z.of_nat (List.length (pageFiles (trace s))) = fetchedPages s.
Proof.
  intros Hv Hpos s. split.
  - assert (H : (inject_Z (fetchedPages s) < maxPages p + 1)%Q).
    { subst s.
      apply (run_invariant NumberToString e req p
               (fun s => (inject_Z (fetchedPages s) < maxPages p + 1)%Q) Hv).
      - simpl. apply Qlt_trans with (maxPages p); [exact Hpos|].
        rewrite <- (Qplus_0_r (maxPages p)) at 1.
        apply Qplus_lt_r. reflexivity.
      - intros s0 tk _ Hmax.
        pose proof (below_limit p s0 Hpos Hmax) as Hlt.
        destruct (iteration_fetchedPages NumberToString (baseDirOf (cwd e)) p
                    (minIntervalMs (rpm p)) s0 tk) as [-> | ->].
        + apply Qlt_trans with (maxPages p); [exact Hlt|].
          rewrite <- (Qplus_0_r (maxPages p)) at 1.
          apply Qplus_lt_r. reflexivity.
        + rewrite inject_Z_plus. apply Qplus_lt_l. exact Hlt.
      - intros s0 m ok H. exact H. }
    pose proof (Qle_ceiling (maxPages p)) as Hc.
    assert (H2 : (inject_Z (fetchedPages s) < inject_Z (Qceiling (maxPages p)) + 1)%Q).
    { eapply Qlt_le_trans; [exact H|]. apply Qplus_le_l. exact Hc. }
    change 1%Q with (inject_Z 1) in H2.
    rewrite <- inject_Z_plus, <- Zlt_Qlt in H2. lia.
  - assert (Hinv : pagesInv NumberToString (baseDirOf (cwd e)) p s).
    { subst s. unfold extractAll. rewrite Hv.
      destruct (mkdir_settles e).
      - apply pagesInv_resume. apply pagesInv_entered.
      - apply pagesInv_entered. }
    destruct Hinv as (n & Hn & _ & Hf).
    rewrite Hf, length_map, length_seq, Hn. reflexivity.
Qed.

(** [max_pages = 2] and three pages on offer. *)
Lemma X2_max_pages_bound_witness :
  validate decimal sampleEnv
    (mkRequest None None None None None (Some (JNumber 2)))
  = inr (mkParams "tok-123" 15 200 1 2 "") /\
  (0 < 2)%Q /\
  fetchedPages
    (runState (extractAll decimal sampleEnv
                 (mkRequest None None None None None (Some (JNumber 2)))
                 [answer 200 None (JArray [activity]);
                  answer 200 None (JArray [activity]);
                  answer 200 None (JArray [activity])])) <= 2.
Proof.
  split; [reflexivity|]. split; [reflexivity|].
  exact (proj1 (X2_max_pages_bound decimal sampleEnv
                  (mkRequest None None None None None (Some (JNumber 2)))
                  (mkParams "tok-123" 15 200 1 2 "")
                  [answer 200 None (JArray [activity]);
                   answer 200 None (JArray [activity]);
                   answer 200 None (JArray [activity])] eq_refl eq_refl)).
Defined.

Lemma not_reached (p : params) (s : state) :
  (inject_Z (fetchedPages s) < maxPages p)%Q -> reachedMax p s = false.
Proof.
  intros H. unfold reachedMax.
  destruct (Qle_bool (maxPages p) (inject_Z (fetchedPages s))) eqn:E;
    [|apply andb_false_r].
  apply Qle_bool_iff in E. exfalso. exact (Qlt_not_le _ _ H E).
Qed.

Lemma loop_stored_limit (NumberToString : jsnum -> string) (baseDir : path)
      (p : params) (m : Z) (script : list tick) :
  forall s rest,
    Forall stored script ->
    (inject_Z (fetchedPages s + Z.of_nat (List.length script)) < maxPages p + 1)%Q ->
    exists s',
      loop NumberToString baseDir p m s (script ++ rest)
      = loop NumberToString baseDir p m s' rest /\
      fetchedPages s' = fetchedPages s + Z.of_nat (List.length script) /\
      List.length (requestedPages (trace s'))
      = (List.length (requestedPages (trace s)) + List.length script)%nat.
Proof.
  induction script as [|tk script IH]; intros s rest Hall Hlim.
  - exists s. simpl. repeat split; try lia.
  - inversion Hall as [|tk' script' (r & x & items & Hf & Hst & Hd & Hw) Hall'];
      subst.
    assert (Hlt : (inject_Z (fetchedPages s) < maxPages p)%Q).
    { apply Qplus_lt_l with (z := 1%Q).
      eapply Qle_lt_trans; [|exact Hlim].
      change 1%Q with (inject_Z 1). rewrite <- inject_Z_plus.
      rewrite <- Zle_Qle. simpl List.length. lia. }
    simpl. rewrite (not_reached p s Hlt).
    rewrite (iteration_2xx _ _ _ _ _ _ _ Hf Hst), Hd. simpl. rewrite Hw.
    destruct (send_spec p m tk s) as (w & _ & _ & _ & Hf1 & _).
    match goal with
    | |- exists s', loop _ _ _ _ ?s1 _ = _ /\ _ =>
        destruct (IH s1 rest Hall') as (s' & Hl & Hn & Hr)
    end.
    { simpl. rewrite Hf1. simpl List.length in Hlim.
      replace (fetchedPages s + 1 + Z.of_nat (List.length script))
        with (fetchedPages s + Z.of_nat (S (List.length script))) by lia.
      exact Hlim. }
    exists s'. split; [exact Hl|]. split.
    + rewrite Hn. simpl. rewrite Hf1. lia.
    + rewrite Hr. simpl. rewrite requestedPages_app. simpl.
      rewrite app_nil_r, send_requestedPages, length_app. simpl. lia.
Qed.

(** X3. With a positive [max_pages], once [ceil(max_pages)] pages with
    records have arrived and were written, the run completes without another
    request, whatever the upstream would answer next: it makes exactly that
    many requests, and replies 200 with [fetched_pages = ceil(max_pages)]
    when the manifest write resolves. *)
Theorem X3_stops_at_max_pages (NumberToString : jsnum -> string)
        (e : environment) (req : request) (p : params)
        (script rest : list tick) :
  validate NumberToString e req = inr p ->
  (0 < maxPages p)%Q ->
  mkdir_settles e = Resolved tt ->
  meta_written e = Resolved tt ->
  Forall stored script ->
  Z.of_nat (List.length script) = Qceiling (maxPages p) ->
  exists s m,
    extractAll NumberToString e req (script ++ rest)
    = Done s (Json 200 (OkBody (baseDirOf (cwd e)) m)) /\
    fetched_pages m = Qceiling (maxPages p) /\
    List.length (requestedPages (trace s)) = List.length script.
Proof.
  intros Hv Hpos Hmk Hmeta Hall Hlen.
  destruct (loop_stored_limit NumberToString (baseDirOf (cwd e)) p
              (minIntervalMs (rpm p)) script (entered e p) rest Hall)
    as (s' & Hl & Hn & Hr).
  { simpl. rewrite Hlen.
    change 1%Q with (inject_Z 1).
    apply Qplus_lt_l with (z := (- inject_Z 1)%Q).
    setoid_replace (maxPages p + inject_Z 1 + - inject_Z 1)%Q
      with (maxPages p) by ring.
    rewrite <- inject_Z_opp, <- inject_Z_plus.
    apply Qceiling_lt. }
  assert (Hmax : reachedMax p s' = true).
  { apply at_limit; [exact Hpos|]. rewrite Hn. simpl. rewrite Hlen.
    apply Qle_ceiling. }
  assert (Hbreak : loop NumberToString (baseDirOf (cwd e)) p
                        (minIntervalMs (rpm p)) s' rest = Break s').
  { destruct rest; simpl; rewrite Hmax; reflexivity. }
  unfold extractAll. rewrite Hv, Hmk. unfold resume.
  rewrite Hl, Hbreak. unfold writeMeta. rewrite Hmeta.
  eexists _, _. split; [reflexivity|]. simpl. split.
  - rewrite Hn. simpl. exact Hlen.
  - rewrite requestedPages_app. simpl. rewrite app_nil_r. exact Hr.
Qed.

(** [max_pages = 2]: the third page on offer is not requested. *)
Lemma X3_stops_at_max_pages_witness :
  exists s m,
    extractAll decimal sampleEnv
      (mkRequest None None None None None (Some (JNumber 2)))
      [answer 200 None (JArray [activity]); answer 200 None (JArray [activity]);
       answer 200 None (JArray [activity])]
    = Done s (Json 200 (OkBody (baseDirOf (cwd sampleEnv)) m)) /\
    fetched_pages m = 2 /\
    List.length (requestedPages (trace s)) = 2%nat.
Proof.
  apply (X3_stops_at_max_pages decimal sampleEnv
           (mkRequest None None None None None (Some (JNumber 2)))
           (mkParams "tok-123" 15 200 1 2 "")
           [answer 200 None (JArray [activity]); answer 200 None (JArray [activity])]
           [answer 200 None (JArray [activity])]).
  - reflexivity.
  - reflexivity.
  - reflexivity.
  - reflexivity.
  - repeat constructor; exists (mkResponse 200 None (JArray [activity])),
      activity, []; repeat split; simpl; lia.
  - reflexivity.
Defined.

(** ** What is requested *)

Lemma requestHeaders_app (a b : list event) :
  requestHeaders (a ++ b) = (requestHeaders a ++ requestHeaders b)%list.
Proof. apply flat_map_app. Qed.

Lemma send_requestHeaders (p : params) (m : Z) (tk : tick) (s : state) :
  requestHeaders (trace (send p m tk s))
  = (requestHeaders (trace s) ++ [(token p, perPage p)])%list.
Proof.
  destruct (send_spec p m tk s) as (pre & Hpre & Htr & _).
  rewrite Htr, !requestHeaders_app.
  destruct Hpre as [-> | ->]; reflexivity.
Qed.

(** X4. Every request of a run carries the token that validation resolved,
    which is not empty, and the validated [per_page], which is from 1 to
    200; and it asks for the start page after some increments, no more of
    them than pages are persisted.  For a whole start page and as long as
    [start_page + fetchedPages] is at most 2^53, this is a page from
    [start_page] up to the page after the last one persisted, never a page
    beyond. *)
Theorem X4_requests_well_formed (NumberToString : jsnum -> string)
        (e : environment) (req : request) (p : params) (script : list tick) :
  validate NumberToString e req = inr p ->
  let s := runState (extractAll NumberToString e req script) in
  Forall (fun h => h = (token p, perPage p)) (requestHeaders (trace s)) /\
  token p <> "" /\
  (1 <= perPage p)%Q /\ (perPage p <= 200)%Q /\
  Forall (fun pg => exists k : nat,
              Z.of_nat k <= fetchedPages s /\ pg = nthPage (startPage p) k)
         (requestedPages (trace s)) /\
  (forall z,
      startPage p = inject_Z z -> z + fetchedPages s <= 2 ^ 53 ->
      Forall (fun pg => exists k,
                  0 <= k <= fetchedPages s /\ pg = Fin (inject_Z (z + k)))
             (requestedPages (trace s))).
Proof.
  intros Hv s.
  pose proof (proj1 (validate_inr NumberToString e req p) Hv)
    as (Htok & Htok' & _ & _ & _ & _ & Hpp1 & Hpp2 & _).
  set (Inv := fun s : state =>
    exists n : nat,
      fetchedPages s = Z.of_nat n /\ page s = nthPage (startPage p) n /\
      Forall (fun h => h = (token p, perPage p)) (requestHeaders (trace s)) /\
      Forall (fun pg => exists k : nat, (k <= n)%nat /\ pg = nthPage (startPage p) k)
             (requestedPages (trace s))).
  assert (H : Inv s).
  { subst s. apply (run_invariant NumberToString e req p Inv Hv).
    - exists 0%nat. simpl. repeat split; constructor.
    - intros s0 tk (n & Hn & Hpg & Hh & Hr) _.
      pose proof (send_requestHeaders p (minIntervalMs (rpm p)) tk s0) as Hsh.
      pose proof (send_requestedPages p (minIntervalMs (rpm p)) tk s0) as Hsr.
      destruct (send_spec p (minIntervalMs (rpm p)) tk s0)
        as (pre & _ & _ & Hp1 & Hf1 & _).
      assert (Hh' : Forall (fun h => h = (token p, perPage p))
                      (requestHeaders (trace (send p (minIntervalMs (rpm p)) tk s0)))).
      { rewrite Hsh. apply Forall_app. split; [exact Hh|]. repeat constructor. }
      assert (Hr' : forall n', (n <= n')%nat ->
                Forall (fun pg => exists k : nat,
                            (k <= n')%nat /\ pg = nthPage (startPage p) k)
                  (requestedPages (trace (send p (minIntervalMs (rpm p)) tk s0)))).
      { intros n' Hle. rewrite Hsr. apply Forall_app. split.
        - eapply Forall_impl; [|exact Hr].
          intros pg (k & Hk & ->). exists k. split; [lia|reflexivity].
        - repeat constructor. exists n. split; [exact Hle|exact Hpg]. }
      destruct (iteration_cases NumberToString (baseDirOf (cwd e)) p
                  (minIntervalMs (rpm p)) s0 tk)
        as [(e1 & ->)|[(r & ->)|[(ms & lag & ->)|[->|[(items & e1 & ->)|(items & ->)]]]]];
        simpl.
      1, 2, 4: exists n; rewrite Hp1, Hf1; auto.
      + exists n. simpl. rewrite Hp1, Hf1, requestHeaders_app, requestedPages_app.
        simpl. rewrite !app_nil_r. auto.
      + exists n. simpl. rewrite Hp1, Hf1, requestHeaders_app, requestedPages_app.
        simpl. rewrite !app_nil_r. auto.
      + exists (S n). simpl.
        rewrite Hp1, Hf1, requestHeaders_app, requestedPages_app, Hn, Hpg.
        simpl. rewrite !app_nil_r. repeat split; auto. lia.
    - intros s0 m ok (n & Hn & Hpg & Hh & Hr). exists n. simpl.
      rewrite requestHeaders_app, requestedPages_app. simpl.
      rewrite !app_nil_r. auto. }
  destruct H as (n & Hn & _ & Hh & Hr).
  split; [exact Hh|]. split; [rewrite Htok'; exact Htok|].
  split; [exact Hpp1|]. split; [exact Hpp2|]. split.
  - eapply Forall_impl; [|exact Hr].
    intros pg (k & Hk & ->). exists k. split; [lia|reflexivity].
  - intros z Hz Hb.
    assert (Hz1 : 1 <= z).
    { pose proof (proj1 (validate_inr NumberToString e req p) Hv)
        as (_ & _ & _ & _ & _ & _ & _ & _ & _ & H1 & _).
      rewrite Hz in H1. change 1%Q with (inject_Z 1) in H1.
      rewrite <- Zle_Qle in H1. exact H1. }
    eapply Forall_impl; [|exact Hr].
    intros pg (k & Hk & ->). exists (Z.of_nat k). split; [lia|].
    rewrite Hz. apply nthPage_value; lia.
Qed.

(** Two pages, a throttled retry in between. *)
Lemma X4_requests_well_formed_witness :
  validate decimal sampleEnv sampleRequest = inr (mkParams "tok-123" 15 200 1 0 "run") /\
  Forall (fun h => h = ("tok-123", 200%Q))
    (requestHeaders (trace (runState (extractAll decimal sampleEnv sampleRequest
       [answer 200 None (JArray [activity]); answer 429 None JNull;
        answer 200 None (JArray [activity])])))).
Proof.
  split; [reflexivity|].
  exact (proj1 (X4_requests_well_formed decimal sampleEnv sampleRequest
                  (mkParams "tok-123" 15 200 1 0 "run")
                  [answer 200 None (JArray [activity]); answer 429 None JNull;
                   answer 200 None (JArray [activity])] eq_refl)).
Defined.

(** ** Replies *)

Lemma loop_Return_code (NumberToString : jsnum -> string) (baseDir : path)
      (p : params) (m : Z) (script : list tick) :
  forall s s' r,
    loop NumberToString baseDir p m s script = Return s' r ->
    exists msg details,
      r = Json 401 (ErrorBody msg details) \/ r = Json 502 (ErrorBody msg details).
Proof.
  induction script as [|tk script IH]; intros s s' r; simpl.
  - destruct (reachedMax p s); discriminate.
  - destruct (reachedMax p s); [discriminate|].
    destruct (iteration NumberToString baseDir p m s tk) as [s1|s1|s1 r1|s1 e1]
      eqn:E; try discriminate.
    + apply IH.
    + intros H. injection H as <- <-. revert E. unfold iteration.
      destruct (fetched tk) as [a|]; [|discriminate].
      destruct (status a =? 401); [intros H; injection H as <- <-; eauto|].
      destruct (status a =? 429); [discriminate|].
      destruct ((status a <? 200) || (300 <=? status a));
        [intros H; injection H as <- <-; eauto|].
      destruct (asArray (data a)) as [[|x items]|];
        [discriminate| |intros H; injection H as <- <-; eauto].
      destruct (written tk); discriminate.
Qed.

(** The replies a run can end with. *)
Lemma done_reply (NumberToString : jsnum -> string) (e : environment)
      (req : request) (script : list tick) (s : state) (r : reply) :
  extractAll NumberToString e req script = Done s r ->
  (exists msg, r = bad msg) \/
  (exists err, r = Next err) \/
  (exists m, r = Json 200 (OkBody (baseDirOf (cwd e)) m)) \/
  (exists msg d, r = Json 401 (ErrorBody msg d) \/ r = Json 502 (ErrorBody msg d)).
Proof.
  unfold extractAll.
  destruct (validate NumberToString e req) as [rep|p] eqn:Hv.
  - intros H. injection H as _ <-.
    destruct (validate_inl NumberToString e req rep Hv) as [Hb | ->];
      [left; exact Hb|right; left; eauto].
  - destruct (mkdir_settles e);
      [|intros H; injection H as _ <-; right; left; eauto].
    unfold resume.
    destruct (loop NumberToString (baseDirOf (cwd e)) p (minIntervalMs (rpm p))
                   (entered e p) script) as [s1|s1|s1 r1|s1 err] eqn:E.
    + discriminate.
    + unfold writeMeta. destruct (meta_written e);
        intros H; injection H as _ <-; [right; right; left|right; left]; eauto.
    + intros H. injection H as _ <-. right; right; right.
      apply (loop_Return_code _ _ _ _ _ _ _ _ E).
    + intros H. injection H as _ <-. right; left; eauto.
Qed.

(** X5. A run that is over answers the caller with one of five statuses:
    200, 400, 401, 502 from the handler itself, or 500 from the error
    middleware.  The status is 200 only with the manifest and the output
    directory, and every other reply of the handler is an error body with
    status 400, 401 or 502. *)
Theorem X5_reply_statuses (NumberToString : jsnum -> string)
        (e : environment) (req : request) (script : list tick)
        (s : state) (r : reply) :
  extractAll NumberToString e req script = Done s r ->
  (exists c b, served r = Json c b /\ In c [200; 400; 401; 500; 502]) /\
  (replyCode r = Some 200 <->
   exists m, r = Json 200 (OkBody (baseDirOf (cwd e)) m)) /\
  (forall c msg d, r = Json c (ErrorBody msg d) -> In c [400; 401; 502]) /\
  (replyCode r = None -> replyCode (served r) = Some 500).
Proof.
  intros H.
  destruct (done_reply NumberToString e req script s r H)
    as [(msg & ->)|[(err & ->)|[(m & ->)|(msg & d & [-> | ->])]]]; simpl;
    (split; [eexists _, _; split; [reflexivity|simpl; tauto]|]);
    (split; [split; [try discriminate; eauto|intros (m' & Hm); try discriminate; reflexivity]|]);
    (split; [intros c msg' d' Hc; try discriminate;
             injection Hc as <- _ _; simpl; tauto|]);
    try discriminate; reflexivity.
Qed.

(** A run that ends on an upstream 503. *)
Lemma X5_reply_statuses_witness :
  exists s c msg d,
    extractAll decimal sampleEnv sampleRequest [answer 503 None JNull]
    = Done s (Json c (ErrorBody msg d)) /\
    In c [400; 401; 502].
Proof.
  destruct (extractAll decimal sampleEnv sampleRequest [answer 503 None JNull])
    as [s|s r] eqn:E; [vm_compute in E; discriminate|].
  pose proof E as E'. vm_compute in E'. injection E' as _ Hr.
  exists s, 502, "Strava API error (HTTP 503)", (Some JNull). split.
  - rewrite <- Hr. reflexivity.
  - apply (proj1 (proj2 (proj2
             (X5_reply_statuses decimal sampleEnv sampleRequest
                [answer 503 None JNull] s r E)))
             502 "Strava API error (HTTP 503)" (Some JNull)).
    symmetry. exact Hr.
Defined.

Lemma path_eqb_refl (f : path) : path_eqb f f = true.
Proof.
  unfold path_eqb. destruct (list_eq_dec string_dec f f); [reflexivity|contradiction].
Qed.

(** X6. The 200 reply tells what is on disk: when a run completes, the
    manifest in the reply is the one just written to [meta.json] in the
    output directory of the reply, as the last event and only manifest write
    of the run, and the file holds it afterwards.  The manifest repeats the
    validated [per_page] and [start_page], has the trimmed prefix as its
    name ([null] for an empty prefix), and counts the page files written. *)
Theorem X6_reply_matches_disk (NumberToString : jsnum -> string)
        (e : environment) (req : request) (p : params) (script : list tick)
        (s : state) (dir : path) (m : meta) :
  validate NumberToString e req = inr p ->
  extractAll NumberToString e req script = Done s (Json 200 (OkBody dir m)) ->
  dir = baseDirOf (cwd e) /\
  (exists tr,
      trace s = (tr ++ [WriteFile (dir ++ ["meta.json"]) (Manifest m) true])%list /\
      manifestWrites tr = []) /\
  (forall d, replay d (trace s) (dir ++ ["meta.json"])%list = Some (Manifest m)) /\
  per_page m = perPage p /\
  start_page m = startPage p /\
  meta_name m = (if (name p =? "")%string then None else Some (name p)) /\
  (exists text, stringOr NumberToString (body_name req) = inr text /\
                name p = trim text) /\
  fetched_pages m = Z.of_nat (List.length (pageFiles (trace s))).
Proof.
  intros Hv Hrun.
  destruct (completed_run NumberToString e req p script s dir m Hv Hrun)
    as (s0 & Hloop & -> & Hm & Hs).
  pose proof (manifestWrites_loop NumberToString e p (minIntervalMs (rpm p))
                script (entered e p)) as Hman.
  rewrite Hloop in Hman. simpl in Hman.
  assert (Hinv : pagesInv NumberToString (baseDirOf (cwd e)) p s).
  { pose proof (pagesInv_resume NumberToString e p (entered e p) script
                  (pagesInv_entered NumberToString e p)) as H.
    unfold extractAll in Hrun. rewrite Hv in Hrun.
    destruct (mkdir_settles e); [|discriminate].
    rewrite Hrun in H. exact H. }
  destruct Hinv as (n & Hn & _ & Hf).
  rewrite pathJoin_meta in Hs.
  split; [reflexivity|]. split; [|split; [|split; [|split; [|split; [|split]]]]].
  - exists (trace s0). rewrite Hs. split; [reflexivity|exact Hman].
  - intros d. rewrite Hs. simpl. rewrite replay_app. simpl.
    rewrite path_eqb_refl. reflexivity.
  - rewrite Hm. reflexivity.
  - rewrite Hm. reflexivity.
  - rewrite Hm. reflexivity.
  - apply (proj1 (validate_inr NumberToString e req p) Hv).
  - rewrite Hf, length_map, length_seq, <- Hn, Hs, Hm. reflexivity.
Qed.

(** One page, then an empty page. *)
Lemma X6_reply_matches_disk_witness :
  exists s m,
    extractAll decimal sampleEnv sampleRequest
      [answer 200 None (JArray [activity]); answer 200 None (JArray [])]
    = Done s (Json 200 (OkBody ["srv"; "app"; "data-scripting"; "strava"] m)) /\
    replay (fun _ => None) (trace s)
           ["srv"; "app"; "data-scripting"; "strava"; "meta.json"]
    = Some (Manifest m).
Proof.
  destruct (extractAll decimal sampleEnv sampleRequest
              [answer 200 None (JArray [activity]); answer 200 None (JArray [])])
    as [s|s r] eqn:E; [vm_compute in E; discriminate|].
  pose proof E as E'. vm_compute in E'. injection E' as _ Hr.
  destruct r as [c [msg d|dir m]|err]; try discriminate.
  injection Hr as <- <- Hm.
  exists s, m. split; [reflexivity|].
  exact (proj1 (proj2 (proj2
           (X6_reply_matches_disk decimal sampleEnv sampleRequest
              (mkParams "tok-123" 15 200 1 0 "run")
              [answer 200 None (JArray [activity]); answer 200 None (JArray [])]
              s _ m eq_refl E))) (fun _ => None)).
Defined.

Lemma mkdirs_app (a b : list event) :
  mkdirs (a ++ b) = (mkdirs a ++ mkdirs b)%list.
Proof. apply flat_map_app. Qed.

(** X7. For a valid request the output directory is made exactly once, as
    the first thing the handler does: every trace starts with the [mkdir] of
    the base directory and has no other.  When that [mkdir] fails the run
    ends there with [next(err)]: no request is sent and no file is
    written. *)
Theorem X7_mkdir_first_and_once (NumberToString : jsnum -> string)
        (e : environment) (req : request) (p : params) :
  validate NumberToString e req = inr p ->
  (forall script, exists tr,
      trace (runState (extractAll NumberToString e req script))
      = Mkdir (baseDirOf (cwd e)) :: tr /\
      mkdirs tr = []) /\
  (forall err script,
      mkdir_settles e = Rejected err ->
      exists s,
        extractAll NumberToString e req script = Done s (Next err) /\
        trace s = [Mkdir (baseDirOf (cwd e))]).
Proof.
  intros Hv. split.
  - intros script.
    apply (run_invariant NumberToString e req p
             (fun s => exists tr,
                  trace s = Mkdir (baseDirOf (cwd e)) :: tr /\ mkdirs tr = []) Hv).
    + exists []. split; reflexivity.
    + intros s tk (tr & Htr & Hm) _.
      destruct (iteration_events NumberToString (baseDirOf (cwd e)) p
                  (minIntervalMs (rpm p)) s tk)
        as (pre & new & t & Ht & Hpre & Hnew).
      rewrite Ht, Htr. eexists. split; [reflexivity|].
      rewrite !mkdirs_app, Hm.
      destruct Hpre as [->|(w & ->)];
        destruct Hnew as [->|[(ms & ->)|(f & c & ok & ->)]]; reflexivity.
    + intros s m ok (tr & Htr & Hm). simpl. rewrite Htr.
      eexists. split; [reflexivity|]. rewrite mkdirs_app, Hm. reflexivity.
  - intros err script Hmk. unfold extractAll. rewrite Hv, Hmk.
    eexists. split; reflexivity.
Qed.

(** The directory cannot be made. *)
Lemma X7_mkdir_first_and_once_witness :
  exists s,
    extractAll decimal
      (mkEnv ["srv"; "app"] (Some "tok-123") 1700000000000
             (Rejected (Thrown "EACCES: permission denied")) 2 (Resolved tt))
      sampleRequest [answer 200 None (JArray [activity])]
    = Done s (Next (Thrown "EACCES: permission denied")) /\
    trace s = [Mkdir ["srv"; "app"; "data-scripting"; "strava"]].
Proof.
  exact (proj2 (X7_mkdir_first_and_once decimal
                  (mkEnv ["srv"; "app"] (Some "tok-123") 1700000000000
                         (Rejected (Thrown "EACCES: permission denied")) 2
                         (Resolved tt))
                  sampleRequest (mkParams "tok-123" 15 200 1 0 "run") eq_refl)
               (Thrown "EACCES: permission denied")
               [answer 200 None (JArray [activity])] eq_refl).
Defined.

(** ** The rate of requests *)

Lemma spaced_head (m : Z) (l : list Z) :
  forall a j, spaced m (a :: l) -> (j < List.length (a :: l))%nat ->
              a + Z.of_nat j * m <= nth j (a :: l) 0.
Proof.
  induction l as [|b l IH]; intros a j Hs Hj.
  - simpl in Hj. assert (j = 0%nat) by lia. subst. simpl. lia.
  - destruct j as [|j]; [simpl; lia|].
    destruct Hs as [Hab Hs].
    specialize (IH b j Hs). simpl in Hj.
    change (nth (S j) (a :: b :: l) 0) with (nth j (b :: l) 0).
    assert (Hj' : (j < List.length (b :: l))%nat) by (simpl; lia).
    specialize (IH Hj'). lia.
Qed.

Lemma spaced_tail (m : Z) (a : Z) (l : list Z) :
  spaced m (a :: l) -> spaced m l.
Proof. destruct l as [|b l]; [intros; exact I|intros [_ H]; exact H]. Qed.

Lemma spaced_nth (m : Z) (l : list Z) :
  forall i j, spaced m l -> (i <= j < List.length l)%nat ->
              nth i l 0 + Z.of_nat (j - i) * m <= nth j l 0.
Proof.
  induction l as [|a l IH]; intros i j Hs Hij; [simpl in Hij; lia|].
  destruct i as [|i].
  - rewrite Nat.sub_0_r. apply (spaced_head m l a j Hs). lia.
  - destruct j as [|j]; [lia|]. simpl in Hij.
    change (nth (S i) (a :: l) 0) with (nth i l 0).
    change (nth (S j) (a :: l) 0) with (nth j l 0).
    change (S j - S i)%nat with (j - i)%nat.
    apply IH; [exact (spaced_tail m a l Hs)|lia].
Qed.

Lemma Qmult_le_nonneg_l (x y z : Q) :
  (0 <= z)%Q -> (x <= y)%Q -> (z * x <= z * y)%Q.
Proof.
  intros Hz H. rewrite (Qmult_comm z x), (Qmult_comm z y).
  apply Qmult_le_compat_r; assumption.
Qed.

(** X8. A run keeps within the request budget, up to the rounding of the
    interval: for a valid request that arrives after the epoch, between the
    [i]-th and the [j]-th request of the run at least
    [(j - i) * minIntervalMs] milliseconds pass, which is at least
    [(j - i) * (60000 / rpm - 2^-37)]. *)
Theorem X8_rate_limit (NumberToString : jsnum -> string)
        (e : environment) (req : request) (p : params) (script : list tick) :
  validate NumberToString e req = inr p ->
  0 < arrival e ->
  let times := sendTimes (trace (runState (extractAll NumberToString e req script))) in
  forall i j,
    (i <= j < List.length times)%nat ->
    Z.of_nat (j - i) * minIntervalMs (rpm p)
    <= nth j times 0%Z - nth i times 0%Z /\
    (inject_Z (Z.of_nat (j - i)) * (60000 / rpm p - pow2 (-37))
     <= inject_Z (nth j times 0%Z - nth i times 0%Z))%Q.
Proof.
  intros Hv Harr times i j Hij.
  destruct (validate_rpm _ _ _ _ Hv) as [Hrpm Hdbl].
  assert (Hinv : paceInv (minIntervalMs (rpm p))
                   (runState (extractAll NumberToString e req script))).
  { unfold extractAll. rewrite Hv. destruct (mkdir_settles e).
    - apply paceInv_resume; [exact Hrpm|exact Hdbl|].
      apply paceInv_entered. exact Harr.
    - apply paceInv_entered. exact Harr. }
  destruct Hinv as (_ & _ & _ & _ & Hsp).
  pose proof (spaced_nth _ _ i j Hsp Hij) as Hgap. fold times in Hgap.
  set (k := Z.of_nat (j - i)) in *.
  set (gap := nth j times 0 - nth i times 0) in *.
  set (m := minIntervalMs (rpm p)) in *.
  assert (Hk : 0 <= k) by (unfold k; lia).
  assert (Hkm : k * m <= gap) by (unfold gap; lia).
  split; [exact Hkm|].
  apply Qle_trans with (inject_Z (k * m)); [|rewrite <- Zle_Qle; exact Hkm].
  rewrite inject_Z_mult.
  apply Qmult_le_nonneg_l.
  - change 0%Q with (inject_Z 0). rewrite <- Zle_Qle. exact Hk.
  - apply minIntervalMs_slack; assumption.
Qed.

(** Fifteen requests a minute: the first and the third request are at least
    8000 ms apart. *)
Lemma X8_rate_limit_witness :
  validate decimal sampleEnv sampleRequest = inr (mkParams "tok-123" 15 200 1 0 "run") /\
  0 < arrival sampleEnv /\
  2 * minIntervalMs 15 <= 1700000008002 - 1700000000002.
Proof.
  split; [reflexivity|]. split; [reflexivity|].
  exact (proj1 (X8_rate_limit decimal sampleEnv sampleRequest
                  (mkParams "tok-123" 15 200 1 0 "run")
                  [answer 200 None (JArray [activity]);
                   answer 429 (Some "1") JNull;
                   answer 200 None (JArray [])] eq_refl eq_refl
                  0%nat 2%nat ltac:(vm_compute; split; repeat constructor))).
Defined.

(** ** Timing does not change what is stored *)

Lemma pageWrites_app (a b : list event) :
  pageWrites (a ++ b) = (pageWrites a ++ pageWrites b)%list.
Proof. apply flat_map_app. Qed.

Lemma send_pageWrites (p : params) (m : Z) (tk : tick) (s : state) :
  pageWrites (trace (send p m tk s)) = pageWrites (trace s).
Proof.
  destruct (send_spec p m tk s) as (pre & Hpre & Htr & _).
  rewrite Htr, !pageWrites_app.
  destruct Hpre as [-> | ->]; simpl; rewrite app_nil_r; reflexivity.
Qed.

Lemma send_alike (p : params) (m : Z) (tk tk' : tick) (s s' : state) :
  alike s s' -> alike (send p m tk s) (send p m tk' s').
Proof.
  intros (Hp & Hf & Hw & Hr).
  destruct (send_spec p m tk s) as (pre & _ & _ & Hp1 & Hf1 & _).
  destruct (send_spec p m tk' s') as (pre' & _ & _ & Hp2 & Hf2 & _).
  unfold alike.
  rewrite Hp1, Hp2, Hf1, Hf2, !send_pageWrites, !send_requestedPages, Hw, Hr, Hp.
  auto.
Qed.

Lemma validate_env (NumberToString : jsnum -> string) (e e' : environment)
      (req : request) :
  STRAVA_ACCESS_TOKEN e = STRAVA_ACCESS_TOKEN e' ->
  validate NumberToString e req = validate NumberToString e' req.
Proof. intros H. unfold validate. rewrite H. reflexivity. Qed.

Section Timeless.

Variable NumberToString : jsnum -> string.
Variables (baseDir : path) (p : params) (m : Z).

Lemma iteration_timeless (s s' : state) (tk tk' : tick) :
  alike s s' -> sameAnswers tk tk' ->
  match iteration NumberToString baseDir p m s tk,
        iteration NumberToString baseDir p m s' tk' with
  | Continue a, Continue b => alike a b
  | Broke a, Broke b => alike a b
  | Returned a r, Returned b r' => alike a b /\ r = r'
  | Threw a x, Threw b x' => alike a b /\ x = x'
  | _, _ => False
  end.
Proof.
  intros Hal [Hf Hw].
  pose proof (send_alike p m tk tk' s s' Hal) as (Hp1 & Hf1 & Hw1 & Hr1).
  unfold iteration. rewrite <- Hf, <- Hw.
  destruct (fetched tk) as [r|x]; [|split; [split; auto|reflexivity]].
  destruct (status r =? 401); [split; [split; auto|reflexivity]|].
  destruct (status r =? 429).
  { unfold alike. simpl. rewrite !pageWrites_app, !requestedPages_app. simpl.
    rewrite !app_nil_r. auto. }
  destruct ((status r <? 200) || (300 <=? status r));
    [split; [split; auto|reflexivity]|].
  destruct (asArray (data r)) as [[|x items]|];
    [split; auto| |split; [split; auto|reflexivity]].
  destruct (written tk) as [u|x']; [|split; [|reflexivity]];
    unfold alike; simpl; rewrite !pageWrites_app, !requestedPages_app; simpl;
    rewrite !app_nil_r, Hp1, Hf1, Hw1, Hr1; auto.
Qed.

Lemma loop_timeless (script : list tick) :
  forall script' s s',
    Forall2 sameAnswers script script' ->
    alike s s' ->
    match loop NumberToString baseDir p m s script,
          loop NumberToString baseDir p m s' script' with
    | Running a, Running b => alike a b
    | Break a, Break b => alike a b
    | Return a r, Return b r' => alike a b /\ r = r'
    | Throw a x, Throw b x' => alike a b /\ x = x'
    | _, _ => False
    end.
Proof.
  induction script as [|tk script IH]; intros script' s s' Hall Hal;
    inversion Hall as [|tk0 tk' sc0 sc' Hsame Hall']; subst; simpl;
    rewrite (reachedMax_fetchedPages p s' s (proj1 (proj2 Hal)));
    destruct (reachedMax p s'); try exact Hal.
  pose proof (iteration_timeless s s' tk tk' Hal Hsame) as H.
  destruct (iteration NumberToString baseDir p m s tk),
           (iteration NumberToString baseDir p m s' tk');
    try contradiction; try exact H.
  apply IH; [exact Hall'|exact H].
Qed.

End Timeless.

(** X9. What a run requests, stores and replies does not depend on timing:
    two runs of the same request whose environments answer alike (the same
    upstream answers and write results, the same working directory and
    token) but take different times request the same pages, write the same
    records to the same page files, count the same pages and reply the same,
    up to the time stamp of the manifest. *)
Theorem X9_timing_independent (NumberToString : jsnum -> string)
        (e e' : environment) (req : request) (script script' : list tick) :
  cwd e = cwd e' ->
  STRAVA_ACCESS_TOKEN e = STRAVA_ACCESS_TOKEN e' ->
  mkdir_settles e = mkdir_settles e' ->
  meta_written e = meta_written e' ->
  Forall2 sameAnswers script script' ->
  let r := extractAll NumberToString e req script in
  let r' := extractAll NumberToString e' req script' in
  pageWrites (trace (runState r)) = pageWrites (trace (runState r')) /\
  requestedPages (trace (runState r)) = requestedPages (trace (runState r')) /\
  fetchedPages (runState r) = fetchedPages (runState r') /\
  option_map eraseTime (runReply r) = option_map eraseTime (runReply r').
Proof.
  intros Hcwd Htok Hmk Hmeta Hall r r'. subst r r'.
  unfold extractAll. rewrite <- (validate_env NumberToString e e' req Htok).
  destruct (validate NumberToString e req) as [rep|p]; [simpl; auto|].
  rewrite <- Hmk.
  assert (Hal : alike (entered e p) (entered e' p)).
  { unfold alike. simpl. auto. }
  destruct (mkdir_settles e).
  2:{ destruct Hal as (_ & Hf & Hw & Hr). auto. }
  unfold resume. rewrite <- Hcwd.
  pose proof (loop_timeless NumberToString (baseDirOf (cwd e)) p
                (minIntervalMs (rpm p)) script script'
                (entered e p) (entered e' p) Hall Hal) as H.
  destruct (loop NumberToString (baseDirOf (cwd e)) p (minIntervalMs (rpm p))
                 (entered e p) script) as [sa|sa|sa ra|sa xa];
    destruct (loop NumberToString (baseDirOf (cwd e)) p (minIntervalMs (rpm p))
                 (entered e' p) script') as [sb|sb|sb rb|sb xb];
    try contradiction.
  - destruct H as (_ & Hf & Hw & Hr). simpl. auto.
  - destruct H as (_ & Hf & Hw & Hr). unfold writeMeta. rewrite <- Hmeta.
    destruct (meta_written e); simpl;
      rewrite !pageWrites_app, !requestedPages_app; simpl;
      rewrite !app_nil_r, Hf; auto.
  - destruct H as ((_ & Hf & Hw & Hr) & ->). simpl. auto.
  - destruct H as ((_ & Hf & Hw & Hr) & ->). simpl. auto.
Qed.

(** The same two answers, the second time with a slow upstream, a slow disk
    and late timers. *)
Lemma X9_timing_independent_witness :
  pageWrites (trace (runState (extractAll decimal sampleEnv sampleRequest
    [answer 200 None (JArray [activity]); answer 200 None (JArray [])])))
  = pageWrites (trace (runState (extractAll decimal
      (mkEnv ["srv"; "app"] (Some "tok-123") 1800000000000 (Resolved tt) 90
             (Resolved tt))
      sampleRequest
      [mkTick 7 (Resolved (mkResponse 200 None (JArray [activity]))) 9000 3
              (Resolved tt) 800;
       mkTick 11 (Resolved (mkResponse 200 None (JArray []))) 30 0
              (Resolved tt) 1]))).
Proof.
  exact (proj1 (X9_timing_independent decimal sampleEnv
                  (mkEnv ["srv"; "app"] (Some "tok-123") 1800000000000
                         (Resolved tt) 90 (Resolved tt))
                  sampleRequest
                  [answer 200 None (JArray [activity]); answer 200 None (JArray [])]
                  [mkTick 7 (Resolved (mkResponse 200 None (JArray [activity])))
                          9000 3 (Resolved tt) 800;
                   mkTick 11 (Resolved (mkResponse 200 None (JArray []))) 30 0
                          (Resolved tt) 1]
                  eq_refl eq_refl eq_refl eq_refl
                  ltac:(repeat constructor))).
Defined.

(** ** Prefixes with path separators *)

(** X10. The prefix is not confined to the output directory: the [name] of
    the request goes into [path.join] as it is, so with the prefix
    [../../n] the page files are written to [<cwd>/n_page_<N>.json], which
    is not under [<cwd>/data-scripting/strava]. *)
Theorem X10_prefix_escapes (NumberToString : jsnum -> string) (cwd : path)
        (n : string) (pg : jsnum) :
  hasChar "/" n = false ->
  plain (NumberToString pg) = true ->
  let f := n ++ "_page_" ++ NumberToString pg ++ ".json" in
  outPath NumberToString (baseDirOf cwd) ("../../" ++ n) pg = (cwd ++ [f])%list /\
  forall rest, (cwd ++ [f])%list <> (baseDirOf cwd ++ rest)%list.
Proof.
  intros Hn Hp f.
  apply andb_prop in Hp. destruct Hp as [Hp _]. apply negb_true_iff in Hp.
  assert (Hf : hasChar "/" f = false).
  { unfold f. rewrite !hasChar_append, Hn, Hp. reflexivity. }
  assert (Hu : hasChar "_" f = true).
  { unfold f. rewrite hasChar_append. simpl. apply orb_true_r. }
  split.
  - assert (Hfile : filename NumberToString ("../../" ++ n) pg = "../../" ++ f).
    { unfold filename, f.
      change ("../../" ++ n =? "")%string with false. cbv iota.
      apply append_assoc. }
    unfold outPath, pathJoin, baseDirOf. rewrite Hfile.
    cbn [append splitSlash]. rewrite (splitSlash_one f Hf). simpl.
    rewrite rev_app_distr. simpl.
    destruct (String.eqb_spec f "") as [E|_]; [rewrite E in Hu; discriminate|].
    destruct (String.eqb_spec f ".") as [E|_]; [rewrite E in Hu; discriminate|].
    destruct (String.eqb_spec f "..") as [E|_]; [rewrite E in Hu; discriminate|].
    simpl. rewrite rev_involutive. reflexivity.
  - intros rest H. unfold baseDirOf in H. rewrite <- app_assoc in H.
    apply app_inv_head in H. discriminate.
Qed.

(** The prefix [../../evil] writes to [/srv/app/evil_page_1.json]. *)
Lemma X10_prefix_escapes_witness :
  hasChar "/" "evil" = false /\
  plain (decimal (Fin 1)) = true /\
  outPath decimal (baseDirOf ["srv"; "app"]) "../../evil" (Fin 1)
  = ["srv"; "app"; "evil_page_1.json"].
Proof.
  split; [reflexivity|]. split; [reflexivity|].
  exact (proj1 (X10_prefix_escapes decimal ["srv"; "app"] "evil" (Fin 1)
                  eq_refl eq_refl)).
Defined.

(** ** How long a backoff lasts *)

(** The backoff is a number that is not negative, possibly infinite. *)
Lemma retryMs_nonneg (h : option string) :
  match retryMs h with
  | Fin q => (0 <= q)%Q
  | PInf => True
  | _ => False
  end.
Proof.
  unfold retryMs. destruct h as [s|]; [|discriminate].
  destruct (isDigits s) eqn:E; [|discriminate].
  assert (Hd : allDigits s = true) by (destruct s; [discriminate|exact E]).
  pose proof (digitsValue_nonneg s 0 (Z.le_refl 0) Hd) as Hv.
  destruct (Z.eq_dec (digitsValue 0 s) 0) as [-> | Hne].
  - vm_compute. discriminate.
  - assert (H0 : (0 < inject_Z (digitsValue 0 s))%Q).
    { change 0%Q with (inject_Z 0). rewrite <- Zlt_Qlt. lia. }
    assert (H1 : (inject_Z 1 <= inject_Z (digitsValue 0 s))%Q).
    { rewrite <- Zle_Qle. lia. }
    destruct (toDouble_above _ 1 H0 H1) as [-> | (a & -> & Ha)]; [lia| |].
    + exact I.
    + unfold jsMul.
      assert (Ha0 : (0 < a * 1000)%Q).
      { apply Qlt_le_trans with (inject_Z 1 * 1000)%Q; [reflexivity|].
        apply Qmult_le_compat_r; [exact Ha|discriminate]. }
      assert (Ha1 : (inject_Z 1000 <= a * 1000)%Q).
      { apply Qle_trans with (inject_Z 1 * 1000)%Q; [discriminate|].
        apply Qmult_le_compat_r; [exact Ha|discriminate]. }
      destruct (toDouble_above _ 1000 Ha0 Ha1) as [-> | (b & -> & Hb)];
        [lia|exact I|].
      apply Qle_trans with (inject_Z 1000); [discriminate|exact Hb].
Qed.

(** X11. The backoff is never negative, and the wait it causes is bounded
    by the timer: after a 429 whose [retry-after] spells [n] seconds, the
    loop goes on [n * 1000] ms (plus the timer's lag) after the answer when
    [n] is from 1 to 2147483, and 1 ms (plus the lag) after it when [n] is 0
    or above 2147483, where the delay exceeds what a timer takes. *)
Theorem X11_backoff_duration (NumberToString : jsnum -> string) (baseDir : path)
        (p : params) (m : Z) (s : state) (tk : tick) (r : response) (n : N) :
  fetched tk = Resolved r ->
  status r = 429 ->
  retry_after r = Some (DecimalString.NilZero.string_of_uint (N.to_uint n)) ->
  match retryMs (retry_after r) with
  | Fin q => (0 <= q)%Q
  | PInf => True
  | _ => False
  end /\
  exists s1,
    iteration NumberToString baseDir p m s tk = Continue s1 /\
    clock s1 = clock (send p m tk s)
               + (if ((1 <=? n) && (n <=? 2147483))%N then Z.of_N n * 1000 else 1)
               + Z.of_N (backoff_lag tk).
Proof.
  intros Hf Hst Hra. split; [apply retryMs_nonneg|].
  eexists. split; [apply (iteration_throttled _ _ _ _ _ _ _ Hf Hst)|].
  rewrite Hra. cbn [sleep advance log clock]. rewrite timerDelay_retry.
  destruct (N.leb_spec 1 n) as [Hlo|Hlo];
    destruct (N.leb_spec n 2147483) as [Hhi|Hhi];
    destruct (Z.leb_spec 1 (Z.of_N n));
    destruct (Z.leb_spec (Z.of_N n) 2147483);
    cbn [orb andb]; lia.
Qed.

(** [retry-after: 3000000] (about 35 days): the loop retries after 1 ms. *)
Lemma X11_backoff_duration_witness :
  exists s1,
    iteration decimal (baseDirOf ["srv"; "app"])
      (mkParams "tok-123" 15 200 1 0 "run") 4000
      (entered sampleEnv (mkParams "tok-123" 15 200 1 0 "run"))
      (answer 429 (Some "3000000") JNull) = Continue s1 /\
    clock s1 = 1700000000002 + 120 + 1.
Proof.
  destruct (X11_backoff_duration decimal (baseDirOf ["srv"; "app"])
              (mkParams "tok-123" 15 200 1 0 "run") 4000
              (entered sampleEnv (mkParams "tok-123" 15 200 1 0 "run"))
              (answer 429 (Some "3000000") JNull)
              (mkResponse 429 (Some "3000000") JNull) 3000000%N
              eq_refl eq_refl eq_refl) as (_ & s1 & H1 & H2).
  exists s1. split; [exact H1|]. rewrite H2.
  destruct (send_first (mkParams "tok-123" 15 200 1 0 "run") 4000
              (answer 429 (Some "3000000") JNull)
              (entered sampleEnv (mkParams "tok-123" 15 200 1 0 "run")) eq_refl)
    as (Hl & _).
  destruct (send_spec (mkParams "tok-123" 15 200 1 0 "run") 4000
              (answer 429 (Some "3000000") JNull)
              (entered sampleEnv (mkParams "tok-123" 15 200 1 0 "run")))
    as (pre & _ & _ & _ & _ & Hc & _).
  rewrite Hc, Hl. reflexivity.
Defined.

(** ** The order of the checks *)

Lemma checked_None (n : jsnum) (bad : Q -> bool) :
  checked n bad = None <-> ~ exists q, n = Fin q /\ bad q = false.
Proof.
  split.
  - intros H (q & Hq & Hb).
    assert (checked n bad = Some q) by (apply checked_Some; auto). congruence.
  - intros H. destruct (checked n bad) as [q|] eqn:E; [|reflexivity].
    exfalso. apply H. exists q. apply checked_Some. exact E.
Qed.

Lemma numberOr_throws (field : option json) (dflt : Q) (err : exn) :
  numberOr field dflt = inl err -> err = cannotConvert.
Proof.
  unfold numberOr, toNumber.
  destruct field as [[|b|n|s|items|fields]|]; try discriminate;
    match goal with
    | |- context [throwsToString ?v] => destruct (throwsToString v)
    end; congruence.
Qed.

Lemma stringOr_throws (NumberToString : jsnum -> string) (field : option json)
      (err : exn) :
  stringOr NumberToString field = inl err -> err = cannotConvert.
Proof.
  unfold stringOr, toString.
  destruct field as [[|b|n|s|items|fields]|]; try discriminate;
    match goal with
    | |- context [throwsToString ?v] => destruct (throwsToString v)
    end; congruence.
Qed.

(** X12. A request ends at the first step that fails, in the order: the
    token; the conversions of [rpm], [per_page], [start_page], [max_pages]
    and [name], which end the request with [next(err)] when one throws; the
    checks of [rpm], [per_page], [start_page] and [max_pages].  A missing
    token is reported whatever the body holds, and the reply of a check
    names its field only, whatever the fields checked after it hold. *)
Theorem X12_first_failure_reported (NumberToString : jsnum -> string)
        (e : environment) (req : request) :
  let tokOk := getBearerToken (STRAVA_ACCESS_TOKEN e) req <> "" in
  let converted :=
    (exists n, numberOr (body_rpm req) 15 = inr n) /\
    (exists n, numberOr (body_per_page req) 200 = inr n) /\
    (exists n, numberOr (body_start_page req) 1 = inr n) /\
    (exists n, numberOr (body_max_pages req) 0 = inr n) /\
    (exists text, stringOr NumberToString (body_name req) = inr text) in
  let rpmOk :=
    exists q, numberOr (body_rpm req) 15 = inr (Fin q) /\ (1 <= q)%Q in
  let perPageOk :=
    exists q, numberOr (body_per_page req) 200 = inr (Fin q) /\
              (1 <= q)%Q /\ (q <= 200)%Q in
  let startPageOk :=
    exists q, numberOr (body_start_page req) 1 = inr (Fin q) /\ (1 <= q)%Q in
  let maxPagesOk :=
    exists q, numberOr (body_max_pages req) 0 = inr (Fin q) /\ (0 <= q)%Q in
  (~ tokOk ->
   validate NumberToString e req = inl (bad "Missing Strava token. Set STRAVA_ACCESS_TOKEN in .env or send Authorization: Bearer <token>.")) /\
  (tokOk -> ~ converted ->
   validate NumberToString e req = inl (Next cannotConvert)) /\
  (tokOk -> converted -> ~ rpmOk ->
   validate NumberToString e req = inl (bad "`rpm` must be >= 1")) /\
  (tokOk -> converted -> rpmOk -> ~ perPageOk ->
   validate NumberToString e req = inl (bad "`per_page` must be 1..200")) /\
  (tokOk -> converted -> rpmOk -> perPageOk -> ~ startPageOk ->
   validate NumberToString e req = inl (bad "`start_page` must be >= 1")) /\
  (tokOk -> converted -> rpmOk -> perPageOk -> startPageOk -> ~ maxPagesOk ->
   validate NumberToString e req = inl (bad "`max_pages` must be >= 0")).
Proof.
  cbv zeta. unfold validate.
  destruct (String.eqb_spec (getBearerToken (STRAVA_ACCESS_TOKEN e) req) "")
    as [Ht|Ht].
  { split; [reflexivity|]. repeat split; intros H; contradiction. }
  split; [intros H; contradiction|].
  destruct (numberOr (body_rpm req) 15) as [err|n1] eqn:E1.
  { rewrite (numberOr_throws _ _ _ E1). split; [reflexivity|].
    repeat split; intros _ ((n & H) & _); discriminate. }
  destruct (numberOr (body_per_page req) 200) as [err|n2] eqn:E2.
  { rewrite (numberOr_throws _ _ _ E2). split; [reflexivity|].
    repeat split; intros _ (_ & (n & H) & _); discriminate. }
  destruct (numberOr (body_start_page req) 1) as [err|n3] eqn:E3.
  { rewrite (numberOr_throws _ _ _ E3). split; [reflexivity|].
    repeat split; intros _ (_ & _ & (n & H) & _); discriminate. }
  destruct (numberOr (body_max_pages req) 0) as [err|n4] eqn:E4.
  { rewrite (numberOr_throws _ _ _ E4). split; [reflexivity|].
    repeat split; intros _ (_ & _ & _ & (n & H) & _); discriminate. }
  destruct (stringOr NumberToString (body_name req)) as [err|text] eqn:E5.
  { rewrite (stringOr_throws _ _ _ E5). split; [reflexivity|].
    repeat split; intros _ (_ & _ & _ & _ & (n & H)); discriminate. }
  split; [intros _ H; exfalso; apply H; repeat split; eauto|].
  destruct (checked n1 (fun q => Qlt_bool q 1)) as [q1|] eqn:C1.
  2:{ assert (Hno : forall q, n1 = Fin q -> ~ (1 <= q)%Q).
      { intros q Hq Hle. apply checked_None in C1. apply C1. exists q.
        split; [exact Hq|apply Qlt_bool_false; exact Hle]. }
      split; [reflexivity|].
      repeat split; intros _ _ (q & Hq & Hle); exfalso;
        exact (Hno q ltac:(congruence) Hle). }
  apply checked_Some in C1. destruct C1 as [-> C1].
  apply Qlt_bool_false in C1.
  split; [intros _ _ H; exfalso; apply H; eauto|].
  destruct (checked n2 (fun q => Qlt_bool q 1 || Qlt_bool 200 q))
    as [q2|] eqn:C2.
  2:{ assert (Hno : forall q, n2 = Fin q -> ~ ((1 <= q)%Q /\ (q <= 200)%Q)).
      { intros q Hq [Hle1 Hle2]. apply checked_None in C2. apply C2. exists q.
        split; [exact Hq|]. apply orb_false_iff.
        split; apply Qlt_bool_false; assumption. }
      split; [reflexivity|].
      repeat split; intros _ _ _ (q & Hq & Hle); exfalso;
        exact (Hno q ltac:(congruence) Hle). }
  apply checked_Some in C2. destruct C2 as [-> C2].
  apply orb_false_iff in C2. destruct C2 as [C2 C2'].
  apply Qlt_bool_false in C2, C2'.
  split; [intros _ _ _ H; exfalso; apply H; eauto|].
  destruct (checked n3 (fun q => Qlt_bool q 1)) as [q3|] eqn:C3.
  2:{ assert (Hno : forall q, n3 = Fin q -> ~ (1 <= q)%Q).
      { intros q Hq Hle. apply checked_None in C3. apply C3. exists q.
        split; [exact Hq|apply Qlt_bool_false; exact Hle]. }
      split; [reflexivity|].
      intros _ _ _ _ (q & Hq & Hle); exfalso;
        exact (Hno q ltac:(congruence) Hle). }
  apply checked_Some in C3. destruct C3 as [-> C3].
  apply Qlt_bool_false in C3.
  split; [intros _ _ _ _ H; exfalso; apply H; eauto|].
  destruct (checked n4 (fun q => Qlt_bool q 0)) as [q4|] eqn:C4.
  2:{ reflexivity. }
  apply checked_Some in C4. destruct C4 as [-> C4].
  apply Qlt_bool_false in C4.
  intros _ _ _ _ _ H. exfalso. apply H. eauto.
Qed.

(** [rpm = 0] and [per_page = 500]: only [rpm] is reported; with a [name]
    that cannot be converted, the request ends with [next(err)] before. *)
Lemma X12_first_failure_reported_witness :
  validate decimal sampleEnv
    (mkRequest None None (Some (JNumber 0)) (Some (JNumber 500)) None None)
  = inl (bad "`rpm` must be >= 1") /\
  validate decimal sampleEnv
    (mkRequest None (Some (JObject [("toString", JNumber 1)]))
               (Some (JNumber 0)) None None None)
  = inl (Next cannotConvert).
Proof.
  split.
  - apply (proj1 (proj2 (proj2 (X12_first_failure_reported decimal sampleEnv
             (mkRequest None None (Some (JNumber 0)) (Some (JNumber 500))
                        None None))))).
    + discriminate.
    + repeat split; eexists; reflexivity.
    + intros (q & Hq & Hle).
      assert (E : q = 0%Q) by (vm_compute in Hq; congruence).
      subst q. exact (Hle eq_refl).
  - apply (proj1 (proj2 (X12_first_failure_reported decimal sampleEnv
             (mkRequest None (Some (JObject [("toString", JNumber 1)]))
                        (Some (JNumber 0)) None None None)))).
    + discriminate.
    + intros (_ & _ & _ & _ & (text & H)). discriminate.
Defined.

(** ** The [Authorization] header *)

Lemma dropPrefixCI_lower (w rest : string) :
  dropPrefixCI (lowerString w) (w ++ rest) = Some rest.
Proof.
  induction w as [|c w IH]; simpl; [reflexivity|].
  rewrite Ascii.eqb_refl. exact IH.
Qed.

Lemma dropPrefixCI_inv (p : string) :
  forall s r, dropPrefixCI p s = Some r ->
              exists w, s = w ++ r /\ lowerString w = p.
Proof.
  induction p as [|a p IH]; intros s r H; simpl in H.
  - injection H as ->. exists "". split; reflexivity.
  - destruct s as [|c s]; [discriminate|].
    destruct (Ascii.eqb_spec (lower c) a) as [<-|]; [|discriminate].
    destruct (IH s r H) as (w & -> & <-).
    exists (String c w). split; reflexivity.
Qed.

(** X13. The header is used exactly when it is the word [bearer] in any
    mix of cases, followed by at least one white-space character: then the
    token is what follows, trimmed, whatever the environment holds.  Any
    other header (another scheme, or [Bearer] with nothing or no white space
    after it) is ignored and the environment's token is used. *)
Theorem X13_bearer_header (header : string) :
  (forall r,
      matchBearer header = Some r <->
      exists w c rest,
        header = w ++ String c rest /\ lowerString w = "bearer" /\
        isSpace c = true /\ r = trimStart rest) /\
  (forall envToken req w c rest,
      authorization req = Some header ->
      header = w ++ String c rest -> lowerString w = "bearer" ->
      isSpace c = true ->
      getBearerToken envToken req = trim rest) /\
  (forall envToken req,
      authorization req = Some header ->
      (forall w c rest, header = w ++ String c rest -> lowerString w = "bearer" ->
                        isSpace c = false) ->
      getBearerToken envToken req = trim (orEmpty envToken)).
Proof.
  assert (Hfwd : forall w c rest,
             lowerString w = "bearer" -> isSpace c = true ->
             matchBearer (w ++ String c rest) = Some (trimStart rest)).
  { intros w c rest Hw Hc. unfold matchBearer.
    rewrite <- Hw, dropPrefixCI_lower, Hc. reflexivity. }
  assert (Hbwd : forall r,
             matchBearer header = Some r ->
             exists w c rest,
               header = w ++ String c rest /\ lowerString w = "bearer" /\
               isSpace c = true /\ r = trimStart rest).
  { intros r. unfold matchBearer.
    destruct (dropPrefixCI "bearer" header) as [[|c rest]|] eqn:E;
      try discriminate.
    destruct (isSpace c) eqn:Hc; [|discriminate].
    intros H. injection H as <-.
    destruct (dropPrefixCI_inv _ _ _ E) as (w & Hh & Hw).
    exists w, c, rest. auto. }
  split; [|split].
  - intros r. split; [apply Hbwd|].
    intros (w & c & rest & -> & Hw & Hc & ->). apply Hfwd; assumption.
  - intros envToken req w c rest Ha Hh Hw Hc. unfold getBearerToken.
    rewrite Ha, Hh, (Hfwd w c rest Hw Hc). unfold trim.
    rewrite trimStart_idem. reflexivity.
  - intros envToken req Ha Hno. unfold getBearerToken. rewrite Ha.
    destruct (matchBearer header) as [r|] eqn:E; [|reflexivity].
    destruct (Hbwd r eq_refl) as (w & c & rest & Hh & Hw & Hc & _).
    rewrite (Hno w c rest Hh Hw) in Hc. discriminate.
Qed.

(** [BEARER], a tab and the token. *)
Lemma X13_bearer_header_witness :
  getBearerToken (Some "tok-123")
    (mkRequest (Some ("BEARER" ++ String "009" "abc ")) None None None None None)
  = "abc".
Proof.
  exact (proj1 (proj2 (X13_bearer_header ("BEARER" ++ String "009" "abc ")))
           (Some "tok-123")
           (mkRequest (Some ("BEARER" ++ String "009" "abc ")) None None None
                      None None)
           "BEARER" "009"%char "abc " eq_refl eq_refl eq_refl eq_refl).
Defined.

(** ** A missing token *)

Lemma allSpace_trimStart (s : string) :
  allSpace (trimStart s) = allSpace s.
Proof.
  induction s as [|c r IH]; [reflexivity|]. simpl.
  destruct (isSpace c) eqn:E; simpl; [exact IH|rewrite E; reflexivity].
Qed.

Lemma trimEnd_empty (s : string) : trimEnd s = "" <-> allSpace s = true.
Proof.
  induction s as [|c r IH]; simpl; [tauto|].
  destruct (trimEnd r) as [|a r'] eqn:E.
  - destruct (isSpace c); simpl.
    + split; [intros _; apply IH; reflexivity|reflexivity].
    + split; discriminate.
  - split; [discriminate|]. intros H. apply andb_prop in H.
    destruct H as [_ H]. apply IH in H. discriminate.
Qed.

Lemma trim_empty (s : string) : trim s = "" <-> allSpace s = true.
Proof.
  unfold trim. rewrite trimEnd_empty, allSpace_trimStart. tauto.
Qed.

(** X14. The request is rejected for a missing token exactly when the
    source of the token is blank: with no [Authorization] header, when
    [STRAVA_ACCESS_TOKEN] is unset, empty or all white space; with a
    [Bearer] header, when nothing but white space follows the scheme, even
    if the environment holds a token. *)
Theorem X14_missing_token (NumberToString : jsnum -> string)
        (e : environment) (req : request) :
  (validate NumberToString e req
   = inl (bad "Missing Strava token. Set STRAVA_ACCESS_TOKEN in .env or send Authorization: Bearer <token>.")
   <-> getBearerToken (STRAVA_ACCESS_TOKEN e) req = "") /\
  (authorization req = None ->
   (getBearerToken (STRAVA_ACCESS_TOKEN e) req = "" <->
    allSpace (orEmpty (STRAVA_ACCESS_TOKEN e)) = true)) /\
  (forall header rest,
      authorization req = Some header -> matchBearer header = Some rest ->
      (getBearerToken (STRAVA_ACCESS_TOKEN e) req = "" <-> allSpace rest = true)).
Proof.
  split; [|split].
  - unfold validate.
    destruct (String.eqb_spec (getBearerToken (STRAVA_ACCESS_TOKEN e) req) "")
      as [Ht|Ht]; [tauto|].
    split; [|contradiction].
    destruct (numberOr (body_rpm req) 15) as [err|n1]; [discriminate|].
    destruct (numberOr (body_per_page req) 200) as [err|n2]; [discriminate|].
    destruct (numberOr (body_start_page req) 1) as [err|n3]; [discriminate|].
    destruct (numberOr (body_max_pages req) 0) as [err|n4]; [discriminate|].
    destruct (stringOr NumberToString (body_name req)) as [err|text];
      [discriminate|].
    destruct (checked n1 _); [|discriminate].
    destruct (checked n2 _); [|discriminate].
    destruct (checked n3 _); [|discriminate].
    destruct (checked n4 _); discriminate.
  - intros Ha. unfold getBearerToken. rewrite Ha. apply trim_empty.
  - intros header rest Ha Hm. unfold getBearerToken. rewrite Ha, Hm.
    apply trim_empty.
Qed.

(** No header and a [STRAVA_ACCESS_TOKEN] of blanks. *)
Lemma X14_missing_token_witness :
  validate decimal (mkEnv ["srv"; "app"] (Some "   ") 1700000000000 (Resolved tt) 2
                  (Resolved tt)) sampleRequest
  = inl (bad "Missing Strava token. Set STRAVA_ACCESS_TOKEN in .env or send Authorization: Bearer <token>.").
Proof.
  apply (proj2 (proj1 (X14_missing_token decimal
           (mkEnv ["srv"; "app"] (Some "   ") 1700000000000 (Resolved tt) 2
                  (Resolved tt)) sampleRequest))).
  apply (proj2 (proj1 (proj2 (X14_missing_token decimal
           (mkEnv ["srv"; "app"] (Some "   ") 1700000000000 (Resolved tt) 2
                  (Resolved tt)) sampleRequest)) eq_refl)).
  reflexivity.
Defined.

(** * Properties of the OAuth callback *)

Section CallbackProperties.

Variable typeErrorMessage : string -> string.

Lemma callback_missing (id secret : option string) (code : option json)
      (exchange : caught + json) :
  codeMissing code ->
  callback typeErrorMessage id secret code exchange
  = ([Console "warn" "Strava callback missing ?code" None],
     mkReply 400 (JObject [("error", JString "Missing authorization code")])).
Proof.
  destruct code as [c|]; simpl; [|reflexivity].
  intros H. rewrite H. reflexivity.
Qed.

(** With a code, the callback logs it, posts it, and then ends in one of
    two ways. *)
Lemma callback_started (id secret : option string) (c : json)
      (exchange : caught + json) :
  jsTruthy c = true ->
  exists last rep,
    callback typeErrorMessage id secret (Some c) exchange
    = ([Console "log" "Received authorization code from Strava:" (Some c);
        Post id secret c; last], rep) /\
    (exists l t d, last = Console l t d) /\
    (http_status rep = 200 \/ http_status rep = 500).
Proof.
  intros H. unfold callback. rewrite H. simpl.
  destruct exchange as [err|d].
  - eexists _, _. split; [reflexivity|]. split; [eauto|right; reflexivity].
  - destruct d as [ |b|q|str|items|fields];
      try (destruct (getProp _ "athlete") as [[ |b'|q'|s'|i'|f']|]);
      simpl; eexists _, _; (split; [reflexivity|]); split; eauto.
Qed.

End CallbackProperties.

(** X15. The callback exchanges a code only when it has one: when
    [req.query.code] is missing or empty it replies 400 and posts nothing,
    whatever the upstream would do; otherwise it posts the code exactly once,
    with the client id and secret of the environment, and replies 200 or
    500, never 400. *)
Theorem X15_callback_code_gate (typeErrorMessage : string -> string)
        (id secret : option string) (code : option json)
        (exchange : caught + json) :
  let out := callback typeErrorMessage id secret code exchange in
  (codeMissing code ->
   http_status (snd out) = 400 /\ posts (fst out) = []) /\
  (forall c, code = Some c -> jsTruthy c = true ->
     posts (fst out) = [(id, secret, c)] /\
     (http_status (snd out) = 200 \/ http_status (snd out) = 500)) /\
  (http_status (snd out) = 400 <-> codeMissing code).
Proof.
  intros out. subst out.
  assert (H1 : codeMissing code ->
               http_status (snd (callback typeErrorMessage id secret code exchange))
               = 400 /\
               posts (fst (callback typeErrorMessage id secret code exchange)) = []).
  { intros H. rewrite (callback_missing typeErrorMessage id secret code exchange H).
    split; reflexivity. }
  assert (H2 : forall c, code = Some c -> jsTruthy c = true ->
               posts (fst (callback typeErrorMessage id secret code exchange))
               = [(id, secret, c)] /\
               (http_status (snd (callback typeErrorMessage id secret code exchange))
                = 200 \/
                http_status (snd (callback typeErrorMessage id secret code exchange))
                = 500)).
  { intros c -> Hc.
    destruct (callback_started typeErrorMessage id secret c exchange Hc)
      as (last & rep & -> & (l & t & d & ->) & Hst).
    split; [reflexivity|exact Hst]. }
  split; [exact H1|]. split; [exact H2|].
  split; [|intros H; apply (H1 H)].
  intros H400. destruct code as [c|]; [|exact I]. simpl.
  destruct (jsTruthy c) eqn:Hc; [|reflexivity].
  destruct (H2 c eq_refl Hc) as (_ & [H|H]); rewrite H in H400; discriminate.
Qed.

(** [?code=] with an empty value. *)
Lemma X15_callback_code_gate_witness :
  posts (fst (callback (fun _ => "TypeError") (Some "id") (Some "secret")
                       (Some (JString "")) (inr (JObject []))))
  = [].
Proof.
  exact (proj2 (proj1 (X15_callback_code_gate (fun _ => "TypeError")
                         (Some "id") (Some "secret") (Some (JString ""))
                         (inr (JObject []))) eq_refl)).
Defined.

Lemma lookup_members (at_ rt ea : option json) (a : json) :
  let fields := (member "access_token" at_ ++ member "refresh_token" rt ++
                 member "expires_at" ea ++ [("athlete", a)])%list in
  lookupField "access_token" fields = at_ /\
  lookupField "refresh_token" fields = rt /\
  lookupField "expires_at" fields = ea /\
  lookupField "athlete" fields = Some a /\
  forall k, ~ In k ["access_token"; "refresh_token"; "expires_at"; "athlete"] ->
            lookupField k fields = None.
Proof.
  intros fields. subst fields.
  destruct at_ as [x|], rt as [y|], ea as [z|];
    (split; [reflexivity|]); (split; [reflexivity|]);
    (split; [reflexivity|]); (split; [reflexivity|]);
    intros k Hk;
    assert (H1 : ("access_token" =? k)%string = false)
      by (apply String.eqb_neq; intros <-; apply Hk; simpl; auto);
    assert (H2 : ("refresh_token" =? k)%string = false)
      by (apply String.eqb_neq; intros <-; apply Hk; simpl; auto);
    assert (H3 : ("expires_at" =? k)%string = false)
      by (apply String.eqb_neq; intros <-; apply Hk; simpl; auto);
    assert (H4 : ("athlete" =? k)%string = false)
      by (apply String.eqb_neq; intros <-; apply Hk; simpl; auto);
    cbn [member app lookupField]; rewrite ?H1, ?H2, ?H3, ?H4; reflexivity.
Qed.

Lemma json_is_null (v : json) : v = JNull \/ v <> JNull.
Proof. destruct v; [left; reflexivity|right; discriminate..]. Qed.

Section CallbackCases.

Variable typeErrorMessage : string -> string.
Variables (id secret : option string) (c : json).
Hypothesis code_given : jsTruthy c = true.

Lemma callback_rejected (err : caught) :
  snd (callback typeErrorMessage id secret (Some c) (inl err))
  = snd (authFailed err).
Proof. unfold callback. rewrite code_given. reflexivity. Qed.

Lemma callback_no_athlete (d : json) :
  getProp d "athlete" = None ->
  exists what,
    snd (callback typeErrorMessage id secret (Some c) (inr d))
    = snd (authFailed (mkCaught (typeErrorMessage what) None)).
Proof.
  intros H. unfold callback. rewrite code_given. cbn [negb].
  destruct d; [exists "response.data"; reflexivity|..];
    rewrite H; exists "athlete"; reflexivity.
Qed.

Lemma callback_null_athlete (d : json) :
  getProp d "athlete" = Some JNull ->
  snd (callback typeErrorMessage id secret (Some c) (inr d))
  = snd (authFailed (mkCaught (typeErrorMessage "athlete") None)).
Proof.
  intros H. unfold callback. rewrite code_given. cbn [negb].
  destruct d; [discriminate|..]; rewrite H; reflexivity.
Qed.

Lemma callback_athlete (d a : json) :
  getProp d "athlete" = Some a -> a <> JNull ->
  snd (callback typeErrorMessage id secret (Some c) (inr d))
  = mkReply 200
      (JObject
         (member "access_token" (getProp d "access_token") ++
          member "refresh_token" (getProp d "refresh_token") ++
          member "expires_at" (getProp d "expires_at") ++
          [("athlete", a)])%list).
Proof.
  intros H Ha. unfold callback. rewrite code_given. cbn [negb].
  destruct d; [discriminate|..]; rewrite H;
    destruct a; try contradiction; reflexivity.
Qed.

End CallbackCases.

Lemma authFailed_reply (err : caught) :
  let rep := snd (authFailed err) in
  http_status rep = 500 /\
  getProp (http_body rep) "error" = Some (JString "Strava authentication failed") /\
  getProp (http_body rep) "details"
  = Some (match err_response err with
          | Some (_, d) => if jsTruthy d then d else JString (err_message err)
          | None => JString (err_message err)
          end).
Proof. repeat split. Qed.

(** X16. How the exchange decides the callback's reply.  The reply is 200
    exactly when the exchange resolves with a body that has an [athlete]
    other than [null]; the reply then holds the body's [access_token],
    [refresh_token], [expires_at] and [athlete] as they came (a key the body
    lacks is left out) and nothing else of the body.  Otherwise the reply is
    500 with the error [Strava authentication failed], also when the
    exchange itself succeeded but its body has no athlete; its details are
    the upstream's error body when there is a truthy one, and the error's
    message if not. *)
Theorem X16_callback_outcome (typeErrorMessage : string -> string)
        (id secret : option string) (c : json) (exchange : caught + json) :
  jsTruthy c = true ->
  let rep := snd (callback typeErrorMessage id secret (Some c) exchange) in
  (http_status rep = 200 <->
   exists d a, exchange = inr d /\ getProp d "athlete" = Some a /\ a <> JNull) /\
  (forall d, exchange = inr d -> http_status rep = 200 ->
     (forall k, In k ["access_token"; "refresh_token"; "expires_at"; "athlete"] ->
                getProp (http_body rep) k = getProp d k) /\
     (forall k, ~ In k ["access_token"; "refresh_token"; "expires_at"; "athlete"] ->
                getProp (http_body rep) k = None)) /\
  (http_status rep <> 200 ->
   http_status rep = 500 /\
   getProp (http_body rep) "error" = Some (JString "Strava authentication failed") /\
   (forall err, exchange = inl err ->
      getProp (http_body rep) "details"
      = Some (match err_response err with
              | Some (_, d) => if jsTruthy d then d else JString (err_message err)
              | None => JString (err_message err)
              end)) /\
   (forall d, exchange = inr d ->
      exists what,
        getProp (http_body rep) "details" = Some (JString (typeErrorMessage what)))).
Proof.
  intros Hc rep. subst rep.
  assert (Hfailed : forall err,
            snd (callback typeErrorMessage id secret (Some c) exchange)
            = snd (authFailed err) ->
            (forall d a, exchange = inr d -> getProp d "athlete" = Some a ->
                         a <> JNull -> False) ->
            (http_status (snd (callback typeErrorMessage id secret (Some c) exchange))
             = 200 <->
             exists d a, exchange = inr d /\ getProp d "athlete" = Some a /\
                         a <> JNull) /\
            (http_status (snd (callback typeErrorMessage id secret (Some c) exchange))
             = 200 -> False) /\
            http_status (snd (callback typeErrorMessage id secret (Some c) exchange))
            = 500 /\
            getProp (http_body (snd (callback typeErrorMessage id secret (Some c)
                                              exchange))) "error"
            = Some (JString "Strava authentication failed") /\
            getProp (http_body (snd (callback typeErrorMessage id secret (Some c)
                                              exchange))) "details"
            = Some (match err_response err with
                    | Some (_, d) =>
                        if jsTruthy d then d else JString (err_message err)
                    | None => JString (err_message err)
                    end)).
  { intros err Heq Hno. rewrite Heq.
    destruct (authFailed_reply err) as (F1 & F2 & F3).
    split; [split; [rewrite F1; discriminate
                   |intros (d & a & Hd & Ha & Hn); exfalso; exact (Hno d a Hd Ha Hn)]|].
    split; [rewrite F1; discriminate|]. auto. }
  destruct exchange as [err|d].
  - destruct (Hfailed err (callback_rejected typeErrorMessage id secret c Hc err))
      as (H1 & H2 & H3 & H4 & H5); [intros d a H; discriminate|].
    split; [exact H1|]. split; [intros d H; discriminate|].
    intros _. split; [exact H3|]. split; [exact H4|]. split.
    + intros err' H. injection H as <-. exact H5.
    + intros d H. discriminate.
  - destruct (getProp d "athlete") as [a|] eqn:Ha.
    + destruct (json_is_null a) as [->|Hn].
      * destruct (Hfailed _ (callback_null_athlete typeErrorMessage id secret c Hc
                               d Ha))
          as (H1 & H2 & H3 & H4 & H5).
        { intros d' a' Hd Ha' Hn. injection Hd as <-. rewrite Ha in Ha'.
          injection Ha' as <-. contradiction. }
        split; [exact H1|]. split; [intros d' _ H; contradiction|].
        intros _. split; [exact H3|]. split; [exact H4|]. split.
        -- intros err H. discriminate.
        -- intros d' _. exists "athlete". exact H5.
      * rewrite (callback_athlete typeErrorMessage id secret c Hc d a Ha Hn).
        destruct (lookup_members (getProp d "access_token")
                    (getProp d "refresh_token") (getProp d "expires_at") a)
          as (L1 & L2 & L3 & L4 & L5).
        split; [split; [intros _; exists d, a; auto|reflexivity]|].
        split.
        -- intros d' Hd _. injection Hd as <-. split; [|exact L5].
           intros k [<-|[<-|[<-|[<-|[]]]]]; cbn [http_body getProp];
             [exact L1|exact L2|exact L3|rewrite Ha; exact L4].
        -- intros H. exfalso. apply H. reflexivity.
    + destruct (callback_no_athlete typeErrorMessage id secret c Hc d Ha)
        as (what & Hw).
      destruct (Hfailed _ Hw) as (H1 & H2 & H3 & H4 & H5).
      { intros d' a' Hd Ha' _. injection Hd as <-. rewrite Ha in Ha'.
        discriminate. }
      split; [exact H1|]. split; [intros d' _ H; contradiction|].
      intros _. split; [exact H3|]. split; [exact H4|]. split.
      * intros err H. discriminate.
      * intros d' _. exists what. exact H5.
Qed.

(** A token exchange that succeeds, and one whose body lacks the athlete. *)
Lemma X16_callback_outcome_witness :
  jsTruthy (JString "abc") = true /\
  getProp (http_body (snd (callback (fun _ => "TypeError") (Some "id") (Some "secret")
     (Some (JString "abc"))
     (inr (JObject [("token_type", JString "Bearer");
                    ("access_token", JString "at");
                    ("athlete", JObject [("id", JNumber 7)])])))))
          "access_token"
  = Some (JString "at") /\
  http_status (snd (callback (fun _ => "TypeError") (Some "id") (Some "secret")
     (Some (JString "abc"))
     (inr (JObject [("access_token", JString "at")]))))
  = 500.
Proof.
  split; [reflexivity|]. split.
  - pose proof (X16_callback_outcome (fun _ => "TypeError") (Some "id")
                  (Some "secret") (JString "abc")
                  (inr (JObject [("token_type", JString "Bearer");
                                 ("access_token", JString "at");
                                 ("athlete", JObject [("id", JNumber 7)])]))
                  eq_refl) as (_ & Hpass & _).
    destruct (Hpass _ eq_refl eq_refl) as (Hk & _).
    rewrite (Hk "access_token" (or_introl eq_refl)). reflexivity.
  - pose proof (X16_callback_outcome (fun _ => "TypeError") (Some "id")
                  (Some "secret") (JString "abc")
                  (inr (JObject [("access_token", JString "at")]))
                  eq_refl) as (_ & _ & Hfail).
    apply Hfail. discriminate.
Defined.

(** * What is written *)

Section Writes.

Variable NumberToString : jsnum -> string.
Variables (baseDir : path) (p : params) (m : Z).

(** The writes of one iteration: none, or one write of a non-empty array of
    records to the file of the current page. *)
Lemma iteration_writes (s : state) (tk : tick) :
  exists w,
    fileWrites (trace (flowState (iteration NumberToString baseDir p m s tk)))
    = (fileWrites (trace s) ++ w)%list /\
    (w = [] \/
     exists x items ok,
       w = [WriteFile (outPath NumberToString baseDir (name p) (page s))
                      (Records (x :: items)) ok]).
Proof.
  pose proof (send_fileWrites p m tk s) as Hsf.
  destruct (send_spec p m tk s) as (pre & _ & _ & Hp1 & _).
  assert (Hnone : exists w,
             fileWrites (trace (send p m tk s)) = (fileWrites (trace s) ++ w)%list /\
             (w = [] \/
              exists x items ok,
                w = [WriteFile (outPath NumberToString baseDir (name p) (page s))
                               (Records (x :: items)) ok]))
    by (exists []; rewrite app_nil_r; auto).
  unfold iteration.
  destruct (fetched tk) as [r|x]; [|exact Hnone].
  destruct (status r =? 401); [exact Hnone|].
  destruct (status r =? 429).
  { simpl. rewrite fileWrites_app. simpl. rewrite app_nil_r. exact Hnone. }
  destruct ((status r <? 200) || (300 <=? status r)); [exact Hnone|].
  destruct (asArray (data r)) as [[|x items]|]; [exact Hnone| |exact Hnone].
  destruct (written tk) as [u|x']; simpl;
    rewrite fileWrites_app, Hsf, Hp1; simpl; eexists; split; eauto 10.
Qed.

(** An iteration that goes on was throttled, or stored the records of its
    answer in the file of the current page and advanced the page. *)
Lemma iteration_Continue (s s1 : state) (tk : tick) :
  iteration NumberToString baseDir p m s tk = Continue s1 ->
  (storedItems tk = [] /\ page s1 = page s /\ fetchedPages s1 = fetchedPages s /\
   pageWrites (trace s1) = pageWrites (trace s)) \/
  (exists its,
      storedItems tk = [its] /\ page s1 = jsAdd (page s) (Fin 1) /\
      fetchedPages s1 = fetchedPages s + 1 /\
      pageWrites (trace s1)
      = (pageWrites (trace s)
         ++ [(outPath NumberToString baseDir (name p) (page s), its)])%list).
Proof.
  pose proof (send_pageWrites p m tk s) as Hsw.
  destruct (send_spec p m tk s) as (pre & _ & _ & Hp1 & Hf1 & _).
  unfold iteration, storedItems.
  destruct (fetched tk) as [r|x]; [|discriminate].
  destruct (Z.eqb_spec (status r) 401); [discriminate|].
  destruct (Z.eqb_spec (status r) 429) as [E|E].
  { intros H. injection H as <-. left. simpl.
    rewrite pageWrites_app, Hsw. simpl. rewrite app_nil_r.
    repeat split; auto.
    destruct (written tk); [|reflexivity].
    rewrite E. reflexivity. }
  destruct (Z.ltb_spec (status r) 200); [discriminate|].
  destruct (Z.leb_spec 300 (status r)); [discriminate|]. simpl.
  destruct (data r) as [ |b|q|str|[|x items]|fields]; simpl; try discriminate.
  destruct (written tk) as [u|x']; [|discriminate].
  intros Hc. injection Hc as <-. right. exists (x :: items). simpl.
  rewrite pageWrites_app, Hsw, Hp1, Hf1. simpl.
  destruct (Z.leb_spec 200 (status r)); [|lia].
  destruct (Z.ltb_spec (status r) 300); [|lia].
  simpl. auto.
Qed.

End Writes.

(** X17. A run writes nothing but its own page files and its manifest:
    every write the handler issues is either a non-empty array of records
    to the file of the start page after some increments, no more of them
    than pages are persisted, under the request's prefix, or the manifest to
    [meta.json].  For a whole start page and as long as
    [start_page + fetchedPages] is at most 2^53, the file is that of a page
    from [start_page] up to the current page.  In particular no page file
    is ever written for an empty answer. *)
Theorem X17_only_own_files (NumberToString : jsnum -> string)
        (e : environment) (req : request) (p : params) (script : list tick) :
  validate NumberToString e req = inr p ->
  let s := runState (extractAll NumberToString e req script) in
  Forall (fun ev =>
            (exists k x items ok,
                Z.of_nat k <= fetchedPages s /\
                ev = WriteFile (outPath NumberToString (baseDirOf (cwd e)) (name p)
                                        (nthPage (startPage p) k))
                               (Records (x :: items)) ok) \/
            (exists m ok,
                ev = WriteFile (pathJoin (baseDirOf (cwd e)) "meta.json")
                               (Manifest m) ok))
         (fileWrites (trace s)) /\
  (forall z,
      startPage p = inject_Z z -> z + fetchedPages s <= 2 ^ 53 ->
      Forall (fun ev =>
                (exists k x items ok,
                    0 <= k <= fetchedPages s /\
                    ev = WriteFile (outPath NumberToString (baseDirOf (cwd e))
                                            (name p) (Fin (inject_Z (z + k))))
                                   (Records (x :: items)) ok) \/
                (exists m ok,
                    ev = WriteFile (pathJoin (baseDirOf (cwd e)) "meta.json")
                                   (Manifest m) ok))
             (fileWrites (trace s))).
Proof.
  intros Hv s.
  set (own := fun (lim : Z) (ev : event) =>
    (exists k x items ok,
        Z.of_nat k <= lim /\
        ev = WriteFile (outPath NumberToString (baseDirOf (cwd e)) (name p)
                                (nthPage (startPage p) k))
                       (Records (x :: items)) ok) \/
    (exists m ok,
        ev = WriteFile (pathJoin (baseDirOf (cwd e)) "meta.json")
                       (Manifest m) ok)).
  assert (Hmono : forall lim lim' ev, lim <= lim' -> own lim ev -> own lim' ev).
  { intros lim lim' ev Hle [(k & x & items & ok & Hk & ->)|H]; [left|right; exact H].
    exists k, x, items, ok. split; [lia|reflexivity]. }
  assert (H : pagesInv NumberToString (baseDirOf (cwd e)) p s /\
              Forall (own (fetchedPages s)) (fileWrites (trace s))).
  { subst s.
    apply (run_invariant NumberToString e req p
             (fun s => pagesInv NumberToString (baseDirOf (cwd e)) p s /\
                       Forall (own (fetchedPages s)) (fileWrites (trace s))) Hv).
    - split; [apply pagesInv_entered|constructor].
    - intros s0 tk (Hinv & Hall) _. split; [apply pagesInv_iteration; exact Hinv|].
      destruct (iteration_writes NumberToString (baseDirOf (cwd e)) p
                  (minIntervalMs (rpm p)) s0 tk) as (w & Hw & Hcase).
      assert (Hle : fetchedPages s0
                    <= fetchedPages (flowState (iteration NumberToString
                         (baseDirOf (cwd e)) p (minIntervalMs (rpm p)) s0 tk))).
      { destruct (iteration_fetchedPages NumberToString (baseDirOf (cwd e)) p
                    (minIntervalMs (rpm p)) s0 tk) as [-> | ->]; lia. }
      rewrite Hw. apply Forall_app. split.
      + eapply Forall_impl; [|exact Hall]. intros ev. apply Hmono. exact Hle.
      + destruct Hcase as [->|(x & items & ok & ->)]; [constructor|].
        constructor; [|constructor]. left.
        destruct Hinv as (n & Hn & Hpg & _).
        exists n, x, items, ok. split; [lia|]. rewrite Hpg. reflexivity.
    - intros s0 m ok ((n & Hn & Hpg & Hf) & Hall). split.
      + exists n. simpl. rewrite pageFiles_app, Hf. simpl.
        rewrite app_nil_r. auto.
      + simpl. rewrite fileWrites_app. apply Forall_app. split; [exact Hall|].
        constructor; [|constructor]. right. eauto. }
  split; [exact (proj2 H)|].
  intros z Hz Hb.
  assert (Hz1 : 1 <= z).
  { pose proof (proj1 (validate_inr NumberToString e req p) Hv)
      as (_ & _ & _ & _ & _ & _ & _ & _ & _ & H1 & _).
    rewrite Hz in H1. change 1%Q with (inject_Z 1) in H1.
    rewrite <- Zle_Qle in H1. exact H1. }
  eapply Forall_impl; [|exact (proj2 H)].
  intros ev [(k & x & items & ok & Hk & ->)|Hm]; [left|right; exact Hm].
  exists (Z.of_nat k), x, items, ok. split; [lia|].
  rewrite Hz, nthPage_value by lia. reflexivity.
Qed.

(** One page, then an empty page: the writes are the file of page 1 and
    the manifest. *)
Lemma X17_only_own_files_witness :
  validate decimal sampleEnv sampleRequest = inr (mkParams "tok-123" 15 200 1 0 "run") /\
  Forall (fun ev =>
            (exists k x items ok,
                Z.of_nat k <= 1 /\
                ev = WriteFile (outPath decimal (baseDirOf ["srv"; "app"]) "run"
                                        (nthPage 1 k))
                               (Records (x :: items)) ok) \/
            (exists m ok,
                ev = WriteFile ["srv"; "app"; "data-scripting"; "strava"; "meta.json"]
                               (Manifest m) ok))
    (fileWrites (trace (runState (extractAll decimal sampleEnv sampleRequest
       [answer 200 None (JArray [activity]); answer 200 None (JArray [])])))).
Proof.
  split; [reflexivity|].
  exact (proj1 (X17_only_own_files decimal sampleEnv sampleRequest
                  (mkParams "tok-123" 15 200 1 0 "run")
                  [answer 200 None (JArray [activity]); answer 200 None (JArray [])]
                  eq_refl)).
Defined.

Section Records.

Variable NumberToString : jsnum -> string.
Variables (baseDir : path) (p : params) (m : Z).

Lemma loop_records (script : list tick) :
  forall s s' n,
    loop NumberToString baseDir p m s script = Running s' ->
    page s = nthPage (startPage p) n ->
    let stored := flat_map storedItems script in
    page s' = nthPage (startPage p) (n + List.length stored) /\
    fetchedPages s' = fetchedPages s + Z.of_nat (List.length stored) /\
    pageWrites (trace s')
    = (pageWrites (trace s)
       ++ combine (map (fun k => outPath NumberToString baseDir (name p)
                                         (nthPage (startPage p) k))
                       (seq n (List.length stored)))
                  stored)%list.
Proof.
  induction script as [|tk script IH]; intros s s' n; simpl.
  - destruct (reachedMax p s); [discriminate|].
    intros H Hpg. injection H as <-. simpl.
    rewrite Nat.add_0_r, app_nil_r. split; [exact Hpg|]. split; [lia|reflexivity].
  - destruct (reachedMax p s); [discriminate|].
    destruct (iteration NumberToString baseDir p m s tk) as [s1|s1|s1 r1|s1 e1]
      eqn:E; try discriminate.
    intros Hl Hpg.
    destruct (iteration_Continue NumberToString baseDir p m s s1 tk E)
      as [(Hs & Hp1 & Hf1 & Hw1)|(its & Hs & Hp1 & Hf1 & Hw1)]; rewrite Hs.
    + assert (Hpg1 : page s1 = nthPage (startPage p) n) by congruence.
      destruct (IH s1 s' n Hl Hpg1) as (H1 & H2 & H3).
      simpl. rewrite H1, H2, H3, Hf1, Hw1. auto.
    + assert (Hpg1 : page s1 = nthPage (startPage p) (S n))
        by (rewrite Hp1, Hpg; reflexivity).
      destruct (IH s1 s' (S n) Hl Hpg1) as (H1 & H2 & H3).
      simpl.
      rewrite H1, H2, H3, Hf1, Hw1, Hpg, <- app_assoc. simpl.
      rewrite Nat.add_succ_r. repeat split; auto. lia.
Qed.

End Records.

(** X18. What is fetched is what is stored: in a run that is still going,
    the page files written are, in order, the records of the answers that
    carried records (throttled answers aside), each array as it came, the
    first in the file of the start page, the next in the file of the page
    number after [page += 1], and so on; and [fetchedPages] counts them.
    For a whole start page and as long as [start_page + fetchedPages] is at
    most 2^53, these are the files of [start_page], [start_page + 1], and so
    on. *)
Theorem X18_records_stored_in_order (NumberToString : jsnum -> string)
        (e : environment) (req : request) (p : params) (script : list tick)
        (s : state) :
  validate NumberToString e req = inr p ->
  extractAll NumberToString e req script = Pending s ->
  let stored := flat_map storedItems script in
  pageWrites (trace s)
  = combine (map (fun k => outPath NumberToString (baseDirOf (cwd e)) (name p)
                                   (nthPage (startPage p) k))
                 (seq 0 (List.length stored)))
            stored /\
  fetchedPages s = Z.of_nat (List.length stored) /\
  (forall z,
      startPage p = inject_Z z -> z + fetchedPages s <= 2 ^ 53 ->
      pageWrites (trace s)
      = combine (map (fun k => outPath NumberToString (baseDirOf (cwd e)) (name p)
                                       (Fin (inject_Z (z + Z.of_nat k))))
                     (seq 0 (List.length stored)))
                stored).
Proof.
  intros Hv Hrun stored.
  destruct (extractAll_Pending NumberToString e req script s Hrun)
    as (p' & Hv' & Hr).
  rewrite Hv in Hv'. injection Hv' as <-.
  apply resume_Pending in Hr.
  destruct (loop_records NumberToString (baseDirOf (cwd e)) p
              (minIntervalMs (rpm p)) script (entered e p) s 0%nat Hr eq_refl)
    as (_ & H2 & H3).
  split; [exact H3|]. split; [exact H2|].
  intros z Hz Hb.
  assert (Hz1 : 1 <= z).
  { pose proof (proj1 (validate_inr NumberToString e req p) Hv)
      as (_ & _ & _ & _ & _ & _ & _ & _ & _ & H1 & _).
    rewrite Hz in H1. change 1%Q with (inject_Z 1) in H1.
    rewrite <- Zle_Qle in H1. exact H1. }
  rewrite H3. simpl. f_equal. apply map_ext_in. intros k Hk.
  apply in_seq in Hk. fold stored in Hk. simpl in H2.
  rewrite Hz, nthPage_value by (fold stored in H2; lia). reflexivity.
Qed.

(** A page, a throttled answer, another page. *)
Lemma X18_records_stored_in_order_witness :
  exists s,
    extractAll decimal sampleEnv sampleRequest
      [answer 200 None (JArray [activity]); answer 429 None JNull;
       answer 200 None (JArray [JNull; activity])] = Pending s /\
    pageWrites (trace s)
    = [(["srv"; "app"; "data-scripting"; "strava"; "run_page_1.json"], [activity]);
       (["srv"; "app"; "data-scripting"; "strava"; "run_page_2.json"],
        [JNull; activity])].
Proof.
  destruct (extractAll decimal sampleEnv sampleRequest
              [answer 200 None (JArray [activity]); answer 429 None JNull;
               answer 200 None (JArray [JNull; activity])]) as [s|s r] eqn:E;
    [|vm_compute in E; discriminate].
  exists s. split; [reflexivity|].
  exact (proj1 (X18_records_stored_in_order decimal sampleEnv sampleRequest
                  (mkParams "tok-123" 15 200 1 0 "run")
                  [answer 200 None (JArray [activity]); answer 429 None JNull;
                   answer 200 None (JArray [JNull; activity])] s eq_refl E)).
Defined.
